(** * Verification of the Bruno IBM Cloud VPC example scripts

    The development embeds three of the repository's example programs:

    - [examples/error_handling_retry.py]  (module [Retry]),
    - [examples/pagination_example.py]    (module [Pagination]),
    - [examples/workflow_chaining.py]     (module [Workflow]).

    Every script drives the external [bru] command line client through
    [subprocess.run].  The external process, the clock, [time.sleep] and
    [json.loads] are the only sources of non-determinism; they are taken
    as variables of a [Section] (an oracle threading an abstract [World]),
    so every theorem holds for every behaviour of the outside world in
    which these calls come back, by returning or by raising: a command
    that hangs (no [timeout] is given to [subprocess.run]) is outside the
    model.  Console output is not modelled either: the calls of [print]
    and [_log] are left out together with the texts they build, so the
    properties are about runs in which the console takes every line.  The
    effects that the properties talk about (process invocations, sleeps,
    credential refreshes) are recorded in an explicit event log carried by
    the program state.

    Numbers are those of Python: [int] is [Z], whose conversion to text
    CPython refuses beyond 4300 digits, and [float] is the binary64 type
    of [PrimFloat].  The fourth script, [examples/python_automation.py]
    (inventory reports), takes no part in the properties proved here.

    The file has two parts: the models of the three scripts, then the
    lemmas and theorems about them. *)

From Stdlib Require Import ZArith QArith Lqa Lia String Ascii DecimalString.
From Stdlib Require Import Floats.PrimFloat.
From stdpp Require Import gmap strings list fin_maps.

Local Open Scope Z_scope.

(** * Python values and exceptions shared by the three scripts *)

Module Py.

(** The result of [json.loads]: [None], [bool], [int], [float], [str],
    [list] and [dict] (a finite map keyed by strings). *)
#[warnings="-register-all"]
Inductive json : Type :=
  | JNull
  | JBool (b : bool)
  | JInt (n : Z)
  | JFloat (f : float)
  | JStr (s : string)
  | JList (l : list json)
  | JDict (m : gmap string json).

(** Python truth value of a parsed JSON value ([if v:] / [not v]). *)
Definition truthy (v : json) : bool :=
  match v with
  | JNull => false
  | JBool b => b
  | JInt n => negb (n =? 0)
  | JFloat f => negb (f =? 0)%float
  | JStr s => negb (String.eqb s "")
  | JList l => match l with [] => false | _ :: _ => true end
  | JDict m => match map_to_list m with [] => false | _ :: _ => true end
  end.

(** [type(v).__name__], as the messages of [AttributeError] and
    [TypeError] print it. *)
Definition type_name (v : json) : string :=
  match v with
  | JNull => "NoneType"
  | JBool _ => "bool"
  | JInt _ => "int"
  | JFloat _ => "float"
  | JStr _ => "str"
  | JList _ => "list"
  | JDict _ => "dict"
  end.

(** Truth value of an [Optional[str]] attribute. *)
Definition truthy_str (o : option string) : bool :=
  match o with
  | None => false
  | Some s => negb (String.eqb s "")
  end.

(** Truth value of an [Optional[int]] argument. *)
Definition truthy_int (o : option Z) : bool :=
  match o with
  | None => false
  | Some n => negb (n =? 0)
  end.

(** The exception classes the scripts raise, catch or let through.  Each
    carries its [str(e)] text; [CalledProcessError] also carries the
    captured [stderr]. *)
Inductive exn : Type :=
  | CalledProcessError (msg stderr : string)
  | JSONDecodeError (msg : string)
  | ValueError (msg : string)
  | OverflowError (msg : string)
  | AttributeError (msg : string)
  | TypeError (msg : string)
  | IndexError (msg : string)
  | OSError (msg : string)
  | BrunoAPIError (msg : string)
  | AuthenticationError (msg : string)
  | RateLimitError (msg : string)
  | ResourceNotFoundError (msg : string)
  | ValidationError (msg : string).

Definition exn_str (e : exn) : string :=
  match e with
  | CalledProcessError m _ | JSONDecodeError m | ValueError m | OverflowError m
  | AttributeError m | TypeError m | IndexError m | OSError m | BrunoAPIError m
  | AuthenticationError m | RateLimitError m | ResourceNotFoundError m
  | ValidationError m => m
  end.

(** Outcome of a Python call: a value, or a raised exception. *)
Inductive result (A : Type) : Type :=
  | Ok (a : A)
  | Raise (e : exn).
Arguments Ok {A} a.
Arguments Raise {A} e.

(** State-and-exception monad: a Python method mutating [self] (and the
    outside world) that either returns or raises.  The state reached when
    an exception is raised is kept, as attribute writes made before a
    [raise] persist. *)
Definition M (S A : Type) : Type := S -> result A * S.

Definition ret {S A} (a : A) : M S A := fun s => (Ok a, s).
Definition raise {S A} (e : exn) : M S A := fun s => (Raise e, s).
Definition bind {S A B} (m : M S A) (k : A -> M S B) : M S B :=
  fun s => match m s with
           | (Ok a, s') => k a s'
           | (Raise e, s') => (Raise e, s')
           end.
(** [try: m  except ... as e: h e]; an exception raised by the handler
    itself propagates. *)
Definition catch {S A} (m : M S A) (h : exn -> M S A) : M S A :=
  fun s => match m s with
           | (Ok a, s') => (Ok a, s')
           | (Raise e, s') => h e s'
           end.
(** A call that touches no state. *)
Definition lift {S A} (r : result A) : M S A := fun s => (r, s).
Definition get {S} : M S S := fun s => (Ok s, s).
Definition gets {S A} (f : S -> A) : M S A := fun s => (Ok (f s), s).
Definition modify {S} (f : S -> S) : M S unit := fun s => (Ok tt, f s).

Declare Scope py_scope.
Delimit Scope py_scope with py.
Notation "'do' x <- m ; k" := (bind m (fun x => k))
  (at level 10, x name, m at level 100, k at level 200,
   format "'[v' 'do'  x  <-  m ; '/' k ']'") : py_scope.
Notation "'exec' m ; k" := (bind m (fun _ => k))
  (at level 10, m at level 100, k at level 200,
   format "'[v' 'exec'  m ; '/' k ']'") : py_scope.

(** ** Operations on parsed JSON *)

(** The exception of an attribute lookup that fails, [v.attr]. *)
Definition no_attribute (v : json) (attr : string) : exn :=
  AttributeError ("'" +:+ type_name v +:+ "' object has no attribute '" +:+ attr +:+ "'").

(** [v.get(key, default)]: only a [dict] has the method. *)
Definition py_get (v : json) (key : string) (default : json) : result json :=
  match v with
  | JDict m => Ok (match m !! key with Some x => x | None => default end)
  | _ => Raise (no_attribute v "get")
  end.

(** [isinstance(v, dict)] *)
Definition is_dict (v : json) : bool :=
  match v with
  | JDict _ => true
  | _ => false
  end.

(** The elements [len(v)] counts and [for x in v] visits: those of a
    [list], the characters of a [str], the keys of a [dict]; other values
    have no [len()].  (The keys come in the order of [map_to_list], not in
    insertion order.) *)
Definition py_elements (v : json) : result (list json) :=
  match v with
  | JList l => Ok l
  | JStr s => Ok ((fun c => JStr (String c EmptyString)) <$> list_ascii_of_string s)
  | JDict m => Ok ((fun kv => JStr (fst kv)) <$> map_to_list m)
  | _ => Raise (TypeError ("object of type '" +:+ type_name v +:+ "' has no len()"))
  end.

(** ** Strings *)

(** The decimal text of an integer. *)
Definition str_int (n : Z) : string := NilZero.string_of_int (Z.to_int n).

(** [sys.get_int_max_str_digits()], as CPython sets it by default: the
    conversion of an [int] to text is refused beyond that many digits. *)
Definition int_max_str_digits : Z := 4300.

Definition exceeds_str_digits (n : Z) : bool := 10 ^ int_max_str_digits <=? Z.abs n.
Arguments exceeds_str_digits : simpl never.

Definition str_digits_error : exn :=
  ValueError "Exceeds the limit (4300 digits) for integer string conversion; use sys.set_int_max_str_digits() to increase the limit".

(** [str(n)] and [f"{n}"] for an [int]. *)
Definition py_str_int (n : Z) : result string :=
  if exceeds_str_digits n then Raise str_digits_error else Ok (str_int n).

(** Python's [min(a, b)] for two [float]: the second argument when it is
    smaller, the first otherwise (also when one of them is a NaN). *)
Definition py_min (a b : float) : float := if (b <? a)%float then b else a.

(** [sub in s] for two [str]. *)
Fixpoint contains (sub s : string) : bool :=
  String.prefix sub s ||
  match s with
  | EmptyString => false
  | String _ s' => contains sub s'
  end.

(** [s.split(sep)] for a non-empty separator: [skip] counts the characters
    of the separator occurrence still to be dropped, [cur] is the piece
    being collected. *)
Fixpoint split_go (sep : string) (skip : nat) (cur s : string) : list string :=
  match s with
  | EmptyString => [cur]
  | String c s' =>
      match skip with
      | S k => split_go sep k cur s'
      | O =>
          if String.prefix sep s
          then cur :: split_go sep (Nat.pred (String.length sep)) EmptyString s'
          else split_go sep O (String.append cur (String c EmptyString)) s'
      end
  end.

Definition split (sep s : string) : list string := split_go sep O EmptyString s.

(** [sep.join(l)] *)
Fixpoint join (sep : string) (l : list string) : string :=
  match l with
  | [] => EmptyString
  | [s] => s
  | s :: l' => String.append s (String.append sep (join sep l'))
  end.

End Py.

(** * The retry wrapper: [examples/error_handling_retry.py] *)

Module Retry.
Import Py.
Local Open Scope py_scope.

(** Attributes of a [BrunoClient].  The delays are [float] numbers of
    seconds; the two [datetime] attributes are kept as exact numbers of
    seconds. *)
Record BrunoClient : Type := mkBrunoClient {
  env : string;
  max_retries : Z;
  initial_retry_delay : float;
  max_retry_delay : float;
  backoff_factor : float;
  token_expires_at : option Q;
  last_auth_time : option Q
}.

(** [BrunoClient.__init__] *)
Definition BrunoClient_init (env : string) (max_retries : Z)
    (initial_retry_delay max_retry_delay backoff_factor : float) : BrunoClient :=
  {| env := env;
     max_retries := max_retries;
     initial_retry_delay := initial_retry_delay;
     max_retry_delay := max_retry_delay;
     backoff_factor := backoff_factor;
     token_expires_at := None;
     last_auth_time := None |}.

(** Observable effects of a call, in the order they happen. *)
Inductive event : Type :=
  | EvAuthenticate (force : bool)      (* a call of [authenticate] *)
  | EvSubprocess (cmd : list string) (raised : option exn)
                                       (* a call of [subprocess.run] and
                                          the exception it raised, if any *)
  | EvSleep (d : float).               (* a [time.sleep(d)] that returned *)

Section WithWorld.

(** The outside world.  [subprocess_run] stands for
    [subprocess.run(cmd, capture_output=True, text=True, check=True)] and
    yields the captured [stdout]; [json_loads] is [json.loads], whose left
    results are the text of a [JSONDecodeError]; [now] is [datetime.now()];
    [time_sleep] is [time.sleep], which returns after the delay or raises
    (it refuses some delays, see [cpython_sleep]).  [subprocess_run] may
    raise any exception: the bodies of [_run_bruno_command] and
    [authenticate] as written can only raise what [subprocess.run] and
    [json.loads] raise, but the handlers of [request_with_retry] also cover
    [AuthenticationError] and [RateLimitError], so the oracle is left free
    to raise them and every handler can be reached. *)
Variable World : Type.
Variable now : World -> Q.
Variable subprocess_run : list string -> World -> result string * World.
Variable json_loads : string -> string + json.
Variable time_sleep : float -> World -> result unit * World.

Record state : Type := mkState {
  self : BrunoClient;
  world : World;
  log : list event
}.

Definition emit (ev : event) : M state unit :=
  modify (fun st => {| self := self st; world := world st; log := log st ++ [ev] |}).

Definition set_self (c : BrunoClient) : M state unit :=
  modify (fun st => {| self := c; world := world st; log := log st |}).

Definition raised {A} (r : result A) : option exn :=
  match r with
  | Ok _ => None
  | Raise e => Some e
  end.

Definition run_subprocess (cmd : list string) : M state string :=
  fun st =>
    let (r, w') := subprocess_run cmd (world st) in
    (r, {| self := self st; world := w';
           log := log st ++ [EvSubprocess cmd (raised r)] |}).

(** [time.sleep(d)]; the sleep is logged when the call returns. *)
Definition sleep (d : float) : M state unit :=
  fun st =>
    match time_sleep d (world st) with
    | (Ok u, w') =>
        (Ok u, {| self := self st; world := w'; log := log st ++ [EvSleep d] |})
    | (Raise e, w') =>
        (Raise e, {| self := self st; world := w'; log := log st |})
    end.

(** [BrunoClient._should_refresh_token] *)
Definition _should_refresh_token : M state bool :=
  do st <- get;
  match token_expires_at (self st) with
  | None => ret true
  | Some expires => ret (Qle_bool (expires - 300) (now (world st)))
  end.

(** The command line run by [authenticate]. *)
Definition auth_cmd (c : BrunoClient) : list string :=
  ["bru"; "run"; "auth/get-iam-token.bru"; "--env"; env c].

(** The attribute writes of a successful [authenticate] at time [t]. *)
Definition with_token (c : BrunoClient) (t : Q) : BrunoClient :=
  {| env := env c;
     max_retries := max_retries c;
     initial_retry_delay := initial_retry_delay c;
     max_retry_delay := max_retry_delay c;
     backoff_factor := backoff_factor c;
     token_expires_at := Some (t + 3600)%Q;
     last_auth_time := Some t |}.

(** [BrunoClient.authenticate] *)
Definition authenticate (force : bool) : M state unit :=
  exec emit (EvAuthenticate force);
  do skip <- (if negb force
              then (do refresh <- _should_refresh_token; ret (negb refresh))
              else ret false);
  if skip then ret tt
  else
    catch
      (do c <- gets self;
       do _ <- run_subprocess (auth_cmd c);
       do w <- gets world;
       set_self (with_token c (now w)))
      (fun e =>
         match e with
         | CalledProcessError _ stderr =>
             raise (AuthenticationError ("Failed to authenticate: " +:+ stderr))
         | _ => raise e
         end).

(** The command line built by [_run_bruno_command]. *)
Definition bruno_cmd (c : BrunoClient) (bru_files : list string) : list string :=
  ["bru"; "run"] ++ bru_files ++ ["--env"; env c; "--output"; "json"].

(** [BrunoClient._run_bruno_command] *)
Definition _run_bruno_command (bru_files : list string) : M state json :=
  do c <- gets self;
  do stdout <- run_subprocess (bruno_cmd c bru_files);
  match json_loads stdout with
  | inr response => ret response
  | inl msg => raise (JSONDecodeError msg)
  end.

(** What one pass through the body of the [while] loop leaves behind: the
    function returned, or the loop goes round again with new values of the
    local variables [retry_count] and [delay]. *)
Inductive control : Type :=
  | Return (response : json)
  | Continue (retry_count : Z) (delay : float).

(** The [delay = min(delay * self.backoff_factor, self.max_retry_delay)]
    update. *)
Definition next_delay (c : BrunoClient) (delay : float) : float :=
  py_min (delay * backoff_factor c)%float (max_retry_delay c).

(** The exception that leaves the statement
    [raise BrunoAPIError(f"Request failed after {self.max_retries} retries...")]:
    the [BrunoAPIError], or the [ValueError] of the conversion when
    [max_retries] is too long to print; [detail] is what the message has
    after the word "retries". *)
Definition exhausted_error (c : BrunoClient) (detail : string) : exn :=
  match py_str_int (max_retries c) with
  | Ok n => BrunoAPIError ("Request failed after " +:+ n +:+ " retries" +:+ detail)
  | Raise e => e
  end.
(** The body of the [while] loop of [request_with_retry]: the [try] block
    and its four [except] clauses. *)
Definition attempt (bru_file : string) (retry_count : Z) (delay : float)
    : M state control :=
  catch
    (do response <- _run_bruno_command ["auth/get-iam-token.bru"; bru_file];
     ret (Return response))
    (fun e =>
       do c <- gets self;
       match e with
       | CalledProcessError _ _ =>
           if retry_count <? max_retries c then
             exec sleep delay;
             ret (Continue (retry_count + 1) (next_delay c delay))
           else raise (exhausted_error c (": " +:+ exn_str e))
       | JSONDecodeError msg =>
           raise (BrunoAPIError ("Invalid JSON response: " +:+ msg))
       | AuthenticationError _ =>
           if retry_count =? 0 then
             exec authenticate true;
             ret (Continue (retry_count + 1) delay)
           else raise e
       | RateLimitError _ =>
           if retry_count <? max_retries c then
             exec sleep delay;
             ret (Continue (retry_count + 1) (next_delay c delay))
           else raise e
       | _ => raise e
       end).

(** The [while retry_count <= self.max_retries] loop followed by the final
    [raise].  [fuel] bounds the number of passes; [None] means the bound
    was too small. *)
Fixpoint retry_loop (fuel : nat) (bru_file : string) (retry_count : Z) (delay : float)
    (st : state) : option (result json * state) :=
  if retry_count <=? max_retries (self st) then
    match fuel with
    | O => None
    | S fuel' =>
        match attempt bru_file retry_count delay st with
        | (Ok (Return response), st') => Some (Ok response, st')
        | (Ok (Continue retry_count' delay'), st') =>
            retry_loop fuel' bru_file retry_count' delay' st'
        | (Raise e, st') => Some (Raise e, st')
        end
    end
  else Some (Raise (exhausted_error (self st) ""), st).

(** [BrunoClient.request_with_retry] ([operation_name] only feeds the log
    lines and is left out).  The loop makes at most
    [max_retries + 1] passes, which is the fuel it is given
    (see [request_with_retry_returns]). *)
Definition request_with_retry (bru_file : string) (st : state)
    : option (result json * state) :=
  match authenticate false st with
  | (Ok _, st') =>
      retry_loop (Z.to_nat (max_retries (self st') + 1)) bru_file 0
                 (initial_retry_delay (self st')) st'
  | (Raise e, st') => Some (Raise e, st')
  end.

(** ** Reading the event log *)

(** The command of one attempt of the request. *)
Definition request_cmd (c : BrunoClient) (bru_file : string) : list string :=
  bruno_cmd c ["auth/get-iam-token.bru"; bru_file].

(** Outcomes of the runs of command [cmd], oldest first. *)
Definition runs_of (cmd : list string) (evs : list event) : list (option exn) :=
  omap (fun ev => match ev with
                  | EvSubprocess cmd' o => if decide (cmd' = cmd) then Some o else None
                  | _ => None
                  end) evs.

(** The delays slept, oldest first. *)
Definition slept (evs : list event) : list float :=
  omap (fun ev => match ev with EvSleep d => Some d | _ => None end) evs.

(** The [authenticate(force=True)] calls. *)
Definition forced_refreshes (evs : list event) : list unit :=
  omap (fun ev => match ev with EvAuthenticate true => Some tt | _ => None end) evs.

End WithWorld.

(** ** Vocabulary of the statements *)

(** The configuration attributes, which no method writes. *)
Definition same_config (c c' : BrunoClient) : Prop :=
  env c' = env c /\ max_retries c' = max_retries c /\
  initial_retry_delay c' = initial_retry_delay c /\
  max_retry_delay c' = max_retry_delay c /\
  backoff_factor c' = backoff_factor c.

(** The cached token needs no refresh at time [t]: there is one and [t]
    is more than five minutes before its expiry (the negation of
    [_should_refresh_token]). *)
Definition token_is_fresh (c : BrunoClient) (t : Q) : bool :=
  match token_expires_at c with
  | None => false
  | Some expires => negb (Qle_bool (expires - 300) t)
  end.

(** The value of the local variable [delay] after [k] updates, starting
    from [d]. *)
Fixpoint delay_seq (c : BrunoClient) (d : float) (k : nat) : float :=
  match k with
  | O => d
  | S k' => delay_seq c (next_delay c d) k'
  end.

(** [f ** k] for a natural exponent, by repeated multiplication. *)
Fixpoint float_pow (f : float) (k : nat) : float :=
  match k with
  | O => 1
  | S k' => (f * float_pow f k')%float
  end.

(** The delay after failed attempt [k] in the words of the specification:
    [min(initial_delay * backoff_factor^k, max_delay)]. *)
Definition specified_delay (c : BrunoClient) (k : nat) : float :=
  py_min (initial_retry_delay c * float_pow (backoff_factor c) k)%float
         (max_retry_delay c).

(** Failures answered by a sleep and another attempt. *)
Definition backoff_error (e : exn) : Prop :=
  match e with
  | CalledProcessError _ _ | RateLimitError _ => True
  | _ => False
  end.

(** Exceptions no [except] clause of the loop names. *)
Definition unhandled_error (e : exn) : Prop :=
  match e with
  | CalledProcessError _ _ | RateLimitError _ | AuthenticationError _
  | JSONDecodeError _ => False
  | _ => True
  end.

(** One pass through the loop body, as a relation between the values of
    [retry_count] and [delay] on entry, the way the pass ends and the
    events it adds to the log.  [c] supplies the configuration. *)
Inductive pass (c : BrunoClient) (req : list string) (retry_count : Z) (delay : float)
    : result control -> list event -> Prop :=
  | pass_return response :
      pass c req retry_count delay (Ok (Return response)) [EvSubprocess req None]
  | pass_invalid_json msg :
      pass c req retry_count delay
        (Raise (BrunoAPIError ("Invalid JSON response: " +:+ msg)))
        [EvSubprocess req None]
  | pass_backoff e :
      backoff_error e -> retry_count < max_retries c ->
      pass c req retry_count delay
        (Ok (Continue (retry_count + 1) (next_delay c delay)))
        [EvSubprocess req (Some e); EvSleep delay]
  | pass_sleep_refused e e' :
      backoff_error e -> retry_count < max_retries c ->
      pass c req retry_count delay (Raise e') [EvSubprocess req (Some e)]
  | pass_retries_exhausted msg stderr :
      ~ retry_count < max_retries c ->
      pass c req retry_count delay
        (Raise (exhausted_error c (": " +:+ msg)))
        [EvSubprocess req (Some (CalledProcessError msg stderr))]
  | pass_rate_limit_exhausted msg :
      ~ retry_count < max_retries c ->
      pass c req retry_count delay (Raise (RateLimitError msg))
        [EvSubprocess req (Some (RateLimitError msg))]
  | pass_refresh msg :
      retry_count = 0 ->
      pass c req retry_count delay (Ok (Continue (retry_count + 1) delay))
        [EvSubprocess req (Some (AuthenticationError msg));
         EvAuthenticate true; EvSubprocess (auth_cmd c) None]
  | pass_refresh_failed msg e e' :
      retry_count = 0 ->
      pass c req retry_count delay (Raise e')
        [EvSubprocess req (Some (AuthenticationError msg));
         EvAuthenticate true; EvSubprocess (auth_cmd c) (Some e)]
  | pass_second_auth_failure msg :
      retry_count <> 0 ->
      pass c req retry_count delay (Raise (AuthenticationError msg))
        [EvSubprocess req (Some (AuthenticationError msg))]
  | pass_json_error_raised msg :
      pass c req retry_count delay
        (Raise (BrunoAPIError ("Invalid JSON response: " +:+ msg)))
        [EvSubprocess req (Some (JSONDecodeError msg))]
  | pass_unhandled e :
      unhandled_error e ->
      pass c req retry_count delay (Raise e) [EvSubprocess req (Some e)].

(** A whole run of the loop: the passes made from given values of
    [retry_count] and [delay], the result of the call and the events. *)
Inductive passes (c : BrunoClient) (req : list string)
    : Z -> float -> result json -> list event -> Prop :=
  | passes_exit retry_count delay :
      ~ retry_count <= max_retries c ->
      passes c req retry_count delay (Raise (exhausted_error c "")) []
  | passes_return retry_count delay response evs :
      retry_count <= max_retries c ->
      pass c req retry_count delay (Ok (Return response)) evs ->
      passes c req retry_count delay (Ok response) evs
  | passes_raise retry_count delay e evs :
      retry_count <= max_retries c ->
      pass c req retry_count delay (Raise e) evs ->
      passes c req retry_count delay (Raise e) evs
  | passes_continue retry_count delay retry_count' delay' evs r evs' :
      retry_count <= max_retries c ->
      pass c req retry_count delay (Ok (Continue retry_count' delay')) evs ->
      passes c req retry_count' delay' r evs' ->
      passes c req retry_count delay r (evs ++ evs').

Arguments self {World} _.
Arguments world {World} _.
Arguments log {World} _.
Arguments mkState {World} _ _ _.
Arguments exhausted_error : simpl never.

(** ** Two concrete worlds

    In the first the world is the list of outcomes still to be handed out,
    one per [subprocess.run]; when the script is exhausted every further
    run fails with a [CalledProcessError].  The clock stands still. *)
Definition script : Type := list (result string).

Definition transport_error : exn :=
  CalledProcessError "Command returned non-zero exit status 1." "connection refused".

Definition scripted_run (cmd : list string) (w : script) : result string * script :=
  match w with
  | [] => (Raise transport_error, [])
  | r :: w' => (r, w')
  end.

Definition scripted_now (w : script) : Q := 0%Q.

(** What [time.sleep(d)] does with a [float] in CPython 3.11 on a 64-bit
    platform.  The delay becomes a signed 64-bit count of nanoseconds: a
    NaN is refused, a count out of range overflows, and a negative count
    (also the one the conversion leaves at exactly [2^63]) is refused. *)
Definition cpython_sleep (d : float) : result unit :=
  if is_nan d then Raise (ValueError "Invalid value NaN (not a number)")
  else if (0x1p63 <? abs (d * 1e9))%float
       then Raise (OverflowError "timestamp too large to convert to C _PyTime_t")
  else if ((d <? 0) || (d * 1e9 =? 0x1p63))%float
       then Raise (ValueError "sleep length must be non-negative")
  else Ok tt.

(** In the concrete worlds a sleep changes nothing else. *)
Definition sleep_in_place {World : Type} (d : float) (w : World)
    : result unit * World :=
  (cpython_sleep d, w).

Definition scripted_sleep : float -> script -> result unit * script := sleep_in_place.

(** A [json.loads] that knows a single document. *)
Definition toy_loads (s : string) : string + json :=
  if String.eqb s "{}" then inr (JDict ∅) else inl "Expecting value".

Definition run_scripted (c : BrunoClient) (bru_file : string) (w : script)
    : option (result json * state script) :=
  request_with_retry script scripted_now scripted_run toy_loads scripted_sleep
    bru_file (mkState c w []).

(** In the second world the authentication command (five words) succeeds
    and every other command fails with a [CalledProcessError]; the world
    counts the runs. *)
Definition request_down_run (cmd : list string) (w : nat) : result string * nat :=
  if decide (length cmd = 5%nat)
  then (Ok "token", S w)
  else (Raise transport_error, S w).

Definition request_down_now (w : nat) : Q := inject_Z (Z.of_nat w).
Definition request_down_sleep : float -> nat -> result unit * nat := sleep_in_place.

(** The configuration of the examples: three retries, initial delay 1,
    maximum delay 60, factor 2. *)
Definition client_3_1_60_2 : BrunoClient := BrunoClient_init "prod" 3 1 60 2.

(** A script with two authentication failures in a row. *)
Definition twice_unauthorized : script :=
  [Ok "token"; Raise (AuthenticationError "expired"); Ok "token";
   Raise (AuthenticationError "still expired")].

Definition run_request_down (c : BrunoClient) (bru_file : string)
    : option (result json * state nat) :=
  request_with_retry nat request_down_now request_down_run toy_loads request_down_sleep
    bru_file (mkState c O []).

(** A world in which every command fails, the authentication too. *)
Definition all_down_run (cmd : list string) (w : nat) : result string * nat :=
  (Raise transport_error, S w).

Definition run_all_down (c : BrunoClient) (bru_file : string)
    : option (result json * state nat) :=
  request_with_retry nat request_down_now all_down_run toy_loads request_down_sleep
    bru_file (mkState c O []).

(** A third world, like the second, in which every command but the
    authentication is rate limited. *)
Definition rate_limited_run (cmd : list string) (w : nat) : result string * nat :=
  if decide (length cmd = 5%nat)
  then (Ok "token", S w)
  else (Raise (RateLimitError "Rate limit exceeded: too many requests"), S w).

End Retry.

(** * The paginator: [examples/pagination_example.py] *)

Module Pagination.
Import Py.
Local Open Scope py_scope.

(** [get_pagination_cursor].  The [in] test accepts a [str], a [list] or a
    [dict] on its right and no number; [split] is a method of [str]
    only. *)
Definition get_pagination_cursor (response : json) : result (option string) :=
  match py_get response "next" (JDict ∅) with
  | Raise e => Raise e
  | Ok next_link =>
      if negb (truthy next_link) then Ok None
      else
        match py_get next_link "href" (JStr "") with
        | Raise e => Raise e
        | Ok href =>
            if negb (truthy href) then Ok None
            else
              match href with
              | JStr h =>
                  if contains "start=" h then
                    match split "start=" h with
                    | _ :: after :: _ =>
                        match split "&" after with
                        | start_param :: _ => Ok (Some start_param)
                        | [] => Raise (IndexError "list index out of range")
                        end
                    | _ => Raise (IndexError "list index out of range")
                    end
                  else Ok None
              | JList l =>
                  if existsb (fun x => match x with
                                       | JStr s => String.eqb s "start="
                                       | _ => false
                                       end) l
                  then Raise (AttributeError "'list' object has no attribute 'split'")
                  else Ok None
              | JDict m =>
                  match m !! "start=" with
                  | Some _ => Raise (AttributeError "'dict' object has no attribute 'split'")
                  | None => Ok None
                  end
              | _ => Raise (TypeError ("argument of type '" +:+ type_name href
                                         +:+ "' is not iterable"))
              end
        end
  end.

(** Truth value of the [cursor] variable ([None] and [''] are false). *)
Definition truthy_cursor (cursor : option string) : bool := truthy_str cursor.

(** Each event is one call of [run_bruno_request], that is one page
    fetched, with the exception it raised (if any). *)
Inductive event : Type :=
  | EvFetch (cmd : list string) (raised : option exn).

Section WithWorld.

(** The outside world, as in [Retry]: [subprocess.run] and [json.loads]. *)
Variable World : Type.
Variable subprocess_run : list string -> World -> result string * World.
Variable json_loads : string -> string + json.

Record state : Type := mkState {
  world : World;
  log : list event
}.

(** The command line built by [run_bruno_request]. *)
Definition bruno_cmd (bru_files : list string) (env output : string) : list string :=
  (["bru"; "run"] ++ bru_files ++ ["--env"; env])
    ++ (if negb (String.eqb output "") then ["--output"; output] else []).

(** [run_bruno_request] *)
Definition run_bruno_request (bru_files : list string) (env output : string)
    : M state json :=
  fun st =>
    let cmd := bruno_cmd bru_files env output in
    let (r, w') := subprocess_run cmd (world st) in
    let st' := {| world := w';
                  log := log st ++ [EvFetch cmd match r with
                                                | Ok _ => None
                                                | Raise e => Some e
                                                end] |} in
    match r with
    | Ok stdout =>
        match json_loads stdout with
        | inr response => (Ok response, st')
        | inl msg => (Raise (JSONDecodeError msg), st')
        end
    | Raise e => (Raise e, st')
    end.

(** The command of every page: the cursor is never handed to it. *)
Definition list_vpcs_cmd : list string :=
  bruno_cmd ["auth/get-iam-token.bru"; "vpc/list-vpcs.bru"] "prod" "json".

(** The display loop: [vpc.get('name', 'N/A')] and [vpc.get('id', 'N/A')]
    on every element, in order. *)
Fixpoint display_vpcs (items : list json) : result unit :=
  match items with
  | [] => Ok tt
  | vpc :: items' =>
      match py_get vpc "name" (JStr "N/A") with
      | Raise e => Raise e
      | Ok _ =>
          match py_get vpc "id" (JStr "N/A") with
          | Raise e => Raise e
          | Ok _ => display_vpcs items'
          end
      end
  end.

(** The part of the loop body between the request and the cursor test:
    [vpcs = response.get("vpcs", [])], [len(vpcs)], the display loop and
    [all_vpcs.extend(vpcs)]. *)
Definition collect_page (all_vpcs : list json) (response : json) : result (list json) :=
  match py_get response "vpcs" (JList []) with
  | Raise e => Raise e
  | Ok vpcs =>
      match py_elements vpcs with
      | Raise e => Raise e
      | Ok items =>
          match display_vpcs items with
          | Raise e => Raise e
          | Ok _ => Ok (all_vpcs ++ items)
          end
      end
  end.

(** How one pass through the [while True] loop ends. *)
Inductive control : Type :=
  | Break (all_vpcs : list json)
  | Continue (all_vpcs : list json) (page_num : Z) (cursor : option string).

(** The test [max_pages and page_num > max_pages]: a [max_pages] of
    [None] or [0] is false and the comparison is not made. *)
Definition limit_reached (max_pages : option Z) (page_num : Z) : bool :=
  truthy_int max_pages && match max_pages with
                          | Some k => page_num >? k
                          | None => false
                          end.

(** The body of the [while True] loop of [paginate_list_vpcs]. *)
Definition page (max_pages : option Z) (all_vpcs : list json) (page_num : Z)
    (cursor : option string) : M state control :=
  if limit_reached max_pages page_num
  then ret (Break all_vpcs)
  else
    do fetched <-
      catch (do response <- run_bruno_request
                              ["auth/get-iam-token.bru"; "vpc/list-vpcs.bru"] "prod" "json";
             ret (Some response))
            (fun e => match e with
                      | CalledProcessError _ _ => ret None
                      | JSONDecodeError _ => ret None
                      | _ => raise e
                      end);
    match fetched with
    | None => ret (Break all_vpcs)
    | Some response =>
        match collect_page all_vpcs response with
        | Raise e => raise e
        | Ok all_vpcs' =>
            match get_pagination_cursor response with
            | Raise e => raise e
            | Ok cursor' =>
                if negb (truthy_cursor cursor') then ret (Break all_vpcs')
                else ret (Continue all_vpcs' (page_num + 1) cursor')
            end
        end
    end.

(** The [while True] loop.  Without a page limit it runs for as long as
    the responses carry a cursor; [fuel] bounds the number of passes and
    [None] means the bound was reached. *)
Fixpoint paginate_loop (fuel : nat) (max_pages : option Z) (all_vpcs : list json)
    (page_num : Z) (cursor : option string) (st : state)
    : option (result (list json) * state) :=
  match fuel with
  | O => None
  | S fuel' =>
      match page max_pages all_vpcs page_num cursor st with
      | (Ok (Break all_vpcs'), st') => Some (Ok all_vpcs', st')
      | (Ok (Continue all_vpcs' page_num' cursor'), st') =>
          paginate_loop fuel' max_pages all_vpcs' page_num' cursor' st'
      | (Raise e, st') => Some (Raise e, st')
      end
  end.

(** [paginate_list_vpcs]; [limit] only appears in the banner it prints. *)
Definition paginate_list_vpcs (fuel : nat) (limit : Z) (max_pages : option Z)
    (st : state) : option (result (list json) * state) :=
  paginate_loop fuel max_pages [] 1 None st.

End WithWorld.

Arguments world {World} _.
Arguments log {World} _.
Arguments mkState {World} _ _.

(** ** Vocabulary of the statements *)

(** A response without continuation cursor, in the three ways the
    specification lists: no ["next"] object (the key is missing, or holds
    [null]), no ["href"] field in it, or an [href] without ["start="]. *)
Inductive no_continuation : json -> Prop :=
  | no_next m :
      m !! "next" = None -> no_continuation (JDict m)
  | next_null m :
      m !! "next" = Some JNull -> no_continuation (JDict m)
  | no_href m next_link :
      m !! "next" = Some (JDict next_link) -> next_link !! "href" = None ->
      no_continuation (JDict m)
  | no_start m next_link href :
      m !! "next" = Some (JDict next_link) ->
      next_link !! "href" = Some (JStr href) ->
      contains "start=" href = false ->
      no_continuation (JDict m).



(** ** A scripted world: the list of the [stdout] texts still to come;
    afterwards the command fails. *)
Definition script : Type := list string.

Definition scripted_run (cmd : list string) (w : script) : result string * script :=
  match w with
  | [] => (Raise (CalledProcessError "Command returned non-zero exit status 1." ""), [])
  | out :: w' => (Ok out, w')
  end.

Definition vpc (name : string) : json :=
  JDict (<["id" := JStr ("r006-" +:+ name)]> (<["name" := JStr name]> ∅)).

(** A page with two items and a continuation cursor. *)
Definition page_with_cursor : json :=
  JDict (<["vpcs" := JList [vpc "a"; vpc "b"]]>
         (<["next" := JDict (<["href" :=
              JStr "https://us-south.iaas.cloud.ibm.com/v1/vpcs?start=abc123&version=2024-12-10&generation=2"]> ∅)]>
          ∅)).

(** A page with two items and no ["next"] object. *)
Definition last_page : json :=
  JDict (<["vpcs" := JList [vpc "c"; vpc "d"]]> ∅).

(** A [json.loads] that knows these two documents. *)
Definition toy_loads (s : string) : string + json :=
  if String.eqb s "more" then inr page_with_cursor
  else if String.eqb s "last" then inr last_page
  else inl "Expecting value".

Definition run_scripted (fuel : nat) (limit : Z) (max_pages : option Z) (w : script)
    : option (result (list json) * state script) :=
  paginate_list_vpcs script scripted_run toy_loads fuel limit max_pages (mkState w []).

(** A world in which every page carries a cursor. *)
Definition endless_run (cmd : list string) (w : unit) : result string * unit :=
  (Ok "more", tt).

(** A page whose ["next"] link ends in a [start=] without value. *)
Definition page_with_empty_start : json :=
  JDict (<["vpcs" := JList [vpc "e"]]>
         (<["next" := JDict (<["href" :=
              JStr "https://us-south.iaas.cloud.ibm.com/v1/vpcs?limit=10&start="]> ∅)]>
          ∅)).

(** A [json.loads] that knows two more documents. *)
Definition sample_loads (s : string) : string + json :=
  if String.eqb s "empty-start" then inr page_with_empty_start
  else if String.eqb s "array" then inr (JList [])
  else toy_loads s.

(** A world without the [bru] program. *)
Definition missing_bru_run (cmd : list string) (w : unit) : result string * unit :=
  (Raise (OSError "[Errno 2] No such file or directory: 'bru'"), tt).

End Pagination.

(** * The workflow runner: [examples/workflow_chaining.py] *)

Module Workflow.
Import Py.
Local Open Scope py_scope.

(** The values of [WorkflowStep.status] and of
    [VPCWorkflow.workflow_status]. *)
Inductive step_status : Type := Pending | Running | Completed | Failed.
Inductive workflow_status : Type := NotStarted | WfRunning | WfCompleted | WfFailed.

Record WorkflowStep : Type := mkStep {
  name : string;
  description : string;
  bru_file : string;
  env_vars : gmap string string;
  extract_id_key : option string;
  result : option json;
  extracted_id : option string;
  status : step_status;
  error : option string;
  start_time : option Q;
  end_time : option Q
}.

(** [WorkflowStep.__init__] *)
Definition WorkflowStep_init (name description bru_file : string)
    (env_vars : gmap string string) (extract_id_key : option string) : WorkflowStep :=
  {| name := name; description := description; bru_file := bru_file;
     env_vars := env_vars; extract_id_key := extract_id_key;
     result := None; extracted_id := None; status := Pending; error := None;
     start_time := None; end_time := None |}.

(** The attribute writes made to a step by [execute_step]. *)
Definition step_started (t : Q) (s : WorkflowStep) : WorkflowStep :=
  {| name := name s; description := description s; bru_file := bru_file s;
     env_vars := env_vars s; extract_id_key := extract_id_key s;
     result := result s; extracted_id := extracted_id s; status := Running;
     error := error s; start_time := Some t; end_time := end_time s |}.

Definition step_completed (response : json) (t : Q) (s : WorkflowStep) : WorkflowStep :=
  {| name := name s; description := description s; bru_file := bru_file s;
     env_vars := env_vars s; extract_id_key := extract_id_key s;
     result := Some response; extracted_id := extracted_id s; status := Completed;
     error := error s; start_time := start_time s; end_time := Some t |}.

Definition step_extracted (id : string) (s : WorkflowStep) : WorkflowStep :=
  {| name := name s; description := description s; bru_file := bru_file s;
     env_vars := env_vars s; extract_id_key := extract_id_key s;
     result := result s; extracted_id := Some id; status := status s;
     error := error s; start_time := start_time s; end_time := end_time s |}.

Definition step_failed (err : string) (t : Q) (s : WorkflowStep) : WorkflowStep :=
  {| name := name s; description := description s; bru_file := bru_file s;
     env_vars := env_vars s; extract_id_key := extract_id_key s;
     result := result s; extracted_id := extracted_id s; status := Failed;
     error := Some err; start_time := start_time s; end_time := Some t |}.

(** The arguments of [VPCWorkflow.__init__]. *)
Record config : Type := mkConfig {
  vpc_name : string;
  subnet_name : string;
  sg_name : string;
  instance_name : string;
  zone_name : string;
  subnet_ip_count : Z;
  instance_profile : string;
  image_id : option string;
  ssh_key_id : option string;
  resource_group_id : option string;
  env : string;
  create_floating_ip : bool
}.

(** The identifiers captured while the workflow runs. *)
Record resources : Type := mkResources {
  vpc_id : option string;
  subnet_id : option string;
  sg_id : option string;
  instance_id : option string;
  floating_ip_id : option string;
  floating_ip_address : option string
}.

Record VPCWorkflow : Type := mkWorkflow {
  cfg : config;
  steps : list WorkflowStep;
  current_step_index : nat;
  wf_status : workflow_status;
  workflow_start_time : option Q;
  workflow_end_time : option Q;
  ids : resources
}.

(** [VPCWorkflow.__init__] *)
Definition VPCWorkflow_init (c : config) : VPCWorkflow :=
  {| cfg := c; steps := []; current_step_index := 0%nat; wf_status := NotStarted;
     workflow_start_time := None; workflow_end_time := None;
     ids := mkResources None None None None None None |}.

Definition with_steps (l : list WorkflowStep) (w : VPCWorkflow) : VPCWorkflow :=
  {| cfg := cfg w; steps := l; current_step_index := current_step_index w;
     wf_status := wf_status w; workflow_start_time := workflow_start_time w;
     workflow_end_time := workflow_end_time w; ids := ids w |}.

Definition with_current_step_index (i : nat) (w : VPCWorkflow) : VPCWorkflow :=
  {| cfg := cfg w; steps := steps w; current_step_index := i;
     wf_status := wf_status w; workflow_start_time := workflow_start_time w;
     workflow_end_time := workflow_end_time w; ids := ids w |}.

Definition with_status (s : workflow_status) (w : VPCWorkflow) : VPCWorkflow :=
  {| cfg := cfg w; steps := steps w; current_step_index := current_step_index w;
     wf_status := s; workflow_start_time := workflow_start_time w;
     workflow_end_time := workflow_end_time w; ids := ids w |}.

Definition with_start_time (t : Q) (w : VPCWorkflow) : VPCWorkflow :=
  {| cfg := cfg w; steps := steps w; current_step_index := current_step_index w;
     wf_status := wf_status w; workflow_start_time := Some t;
     workflow_end_time := workflow_end_time w; ids := ids w |}.

Definition with_end_time (t : Q) (w : VPCWorkflow) : VPCWorkflow :=
  {| cfg := cfg w; steps := steps w; current_step_index := current_step_index w;
     wf_status := wf_status w; workflow_start_time := workflow_start_time w;
     workflow_end_time := Some t; ids := ids w |}.

Definition with_ids (r : resources) (w : VPCWorkflow) : VPCWorkflow :=
  {| cfg := cfg w; steps := steps w; current_step_index := current_step_index w;
     wf_status := wf_status w; workflow_start_time := workflow_start_time w;
     workflow_end_time := workflow_end_time w; ids := r |}.

(** ** The summary printed by [_print_summary] *)

(** The status icon of a step line. *)
Inductive icon : Type := IconCompleted | IconFailed | IconNotRun.

Record summary_line : Type := mkLine {
  line_icon : icon;
  line_description : string;
  line_id : option string;
  line_error : option string
}.

Record summary : Type := mkSummary {
  summary_status : workflow_status;
  summary_completed : nat;
  summary_total : nat;
  summary_lines : list summary_line;
  summary_resources : option resources
}.

Definition icon_of (s : step_status) : icon :=
  match s with
  | Completed => IconCompleted
  | Failed => IconFailed
  | _ => IconNotRun
  end.

Definition is_completed (s : WorkflowStep) : bool :=
  match status s with
  | Completed => true
  | _ => false
  end.

(** What [_print_summary] prints, durations left out: the status, the
    count of completed steps, one line per step (with the identifier and
    the error when they are true) and, on completion, the resources. *)
Definition make_summary (w : VPCWorkflow) : summary :=
  {| summary_status := wf_status w;
     summary_completed := length (filter (fun s => is_completed s = true) (steps w));
     summary_total := length (steps w);
     summary_lines :=
       (fun s => {| line_icon := icon_of (status s);
                    line_description := description s;
                    line_id := if truthy_str (extracted_id s) then extracted_id s else None;
                    line_error := if truthy_str (error s) then error s else None |})
         <$> steps w;
     summary_resources :=
       match wf_status w with
       | WfCompleted => Some (ids w)
       | _ => None
       end |}.

(** Observable effects of a run. *)
Inductive event : Type :=
  | EvRun (bru_file : string) (env_vars : gmap string string) (raised : option exn)
                                   (* a [subprocess.run] of [_run_bruno_request] *)
  | EvSleep (d : Q)                (* a [time.sleep(d)] *)
  | EvSummary (s : summary).       (* a call of [_print_summary] *)

(** ** Pure helpers of [VPCWorkflow] *)

(** The walk of [_extract_value] along the keys. *)
Fixpoint extract_walk (current : json) (keys : list string) : option json :=
  match keys with
  | [] => Some current
  | key :: keys' =>
      match current with
      | JDict m =>
          match m !! key with
          | Some v => extract_walk v keys'
          | None => None
          end
      | _ => None
      end
  end.

Section WithRepr.

(** [str(v)] of a parsed JSON value that is not a string: the Python
    rendering of numbers, booleans, lists and dictionaries, which the
    properties below do not depend on. *)
Variable repr : json -> string.

Definition py_str (v : json) : string :=
  match v with
  | JStr s => s
  | _ => repr v
  end.

(** [VPCWorkflow._extract_value] *)
Definition _extract_value (data : json) (key_path : string) : option string :=
  match extract_walk data (split "." key_path) with
  | None => None
  | Some JNull => None
  | Some current => Some (py_str current)
  end.

(** One arm of the [if]/[elif] chain of [_resolve_placeholders]:
    [value == token and id]. *)
Definition placeholder (token : string) (id : option string) (value : string) : bool :=
  String.eqb value token && truthy_str id.

(** The value stored under a key by [_resolve_placeholders]; where an arm
    is taken the identifier is there, so the fallback of [default] is never
    used. *)
Definition resolve_value (r : resources) (value : string) : string :=
  if placeholder "${vpc_id}" (vpc_id r) value then default value (vpc_id r)
  else if placeholder "${subnet_id}" (subnet_id r) value then default value (subnet_id r)
  else if placeholder "${sg_id}" (sg_id r) value then default value (sg_id r)
  else if placeholder "${instance_id}" (instance_id r) value
       then default value (instance_id r)
  else value.

(** [VPCWorkflow._resolve_placeholders]: the loop over
    [env_vars.items()] filling the new dictionary [resolved]. *)
Definition _resolve_placeholders (r : resources) (env_vars : gmap string string)
    : gmap string string :=
  map_fold (fun key value resolved => <[key := resolve_value r value]> resolved)
           ∅ env_vars.

(** The steps [_build_steps] appends before it checks [image_id] and
    [ssh_key_id]. *)
Definition network_steps (c : config) : list WorkflowStep :=
  [ WorkflowStep_init "create_vpc"
      ("Create VPC '" +:+ vpc_name c +:+ "'")
      "vpc/create-vpc.bru"
      (if truthy_str (resource_group_id c)
       then <["RESOURCE_GROUP_ID" := default "" (resource_group_id c)]>
              {[ "NEW_VPC_NAME" := vpc_name c ]}
       else {[ "NEW_VPC_NAME" := vpc_name c ]})
      (Some "id");
    WorkflowStep_init "create_subnet"
      ("Create subnet '" +:+ subnet_name c +:+ "' in zone " +:+ zone_name c)
      "vpc/subnets/create-subnet.bru"
      (<["SUBNET_IP_COUNT" := str_int (subnet_ip_count c)]>
       (<["ZONE_NAME" := zone_name c]>
        (<["VPC_ID" := "${vpc_id}"]>
         {[ "NEW_SUBNET_NAME" := subnet_name c ]})))
      (Some "id");
    WorkflowStep_init "create_security_group"
      ("Create security group '" +:+ sg_name c +:+ "'")
      "vpc/security-groups/create-security-group.bru"
      (<["VPC_ID" := "${vpc_id}"]> {[ "NEW_SG_NAME" := sg_name c ]})
      (Some "id");
    WorkflowStep_init "add_ssh_rule"
      "Add SSH inbound rule (port 22)"
      "vpc/security-groups/add-rule-ssh.bru"
      (<["SSH_SOURCE_CIDR" := "0.0.0.0/0"]> {[ "SECURITY_GROUP_ID" := "${sg_id}" ]})
      (Some "id");
    WorkflowStep_init "add_http_rule"
      "Add HTTP inbound rule (port 80)"
      "vpc/security-groups/add-rule-http.bru"
      {[ "SECURITY_GROUP_ID" := "${sg_id}" ]}
      (Some "id");
    WorkflowStep_init "add_https_rule"
      "Add HTTPS inbound rule (port 443)"
      "vpc/security-groups/add-rule-https.bru"
      {[ "SECURITY_GROUP_ID" := "${sg_id}" ]}
      (Some "id");
    WorkflowStep_init "add_outbound_rule"
      "Add outbound all rule"
      "vpc/security-groups/add-rule-outbound-all.bru"
      {[ "SECURITY_GROUP_ID" := "${sg_id}" ]}
      (Some "id") ].

(** Step 8 of [_build_steps]. *)
Definition instance_step (c : config) (image ssh_key : string) : WorkflowStep :=
  WorkflowStep_init "create_instance"
    ("Create instance '" +:+ instance_name c +:+ "' with profile " +:+ instance_profile c)
    "vpc/instances/create-instance.bru"
    (<["SSH_KEY_ID" := ssh_key]>
     (<["SECURITY_GROUP_ID" := "${sg_id}"]>
      (<["SUBNET_ID" := "${subnet_id}"]>
       (<["IMAGE_ID" := image]>
        (<["PROFILE_NAME" := instance_profile c]>
         (<["ZONE_NAME" := zone_name c]>
          (<["VPC_ID" := "${vpc_id}"]>
           {[ "NEW_INSTANCE_NAME" := instance_name c ]})))))))
    (Some "id").

(** Step 9 of [_build_steps]. *)
Definition floating_ip_step (c : config) : WorkflowStep :=
  WorkflowStep_init "create_floating_ip"
    "Create floating IP for external access"
    "vpc/floating-ips/create-floating-ip.bru"
    (<["ZONE_NAME" := zone_name c]> {[ "NEW_FIP_NAME" := instance_name c +:+ "-fip" ]})
    (Some "id").

Section WithWorld.

(** The outside world: [subprocess.run] (given the command and the
    variables laid over [os.environ]), [json.loads], the clock and the
    passing of time. *)
Variable World : Type.
Variable now : World -> Q.
Variable subprocess_run :
  list string -> gmap string string -> World -> Py.result string * World.
Variable json_loads : string -> string + json.
Variable after_sleep : Q -> World -> World.

Record state : Type := mkState {
  self : VPCWorkflow;
  world : World;
  log : list event
}.

Definition update_self (f : VPCWorkflow -> VPCWorkflow) : M state unit :=
  modify (fun st => {| self := f (self st); world := world st; log := log st |}).

Definition emit (ev : event) : M state unit :=
  modify (fun st => {| self := self st; world := world st; log := log st ++ [ev] |}).

(** [datetime.now()] *)
Definition datetime_now : M state Q := gets (fun st => now (world st)).

(** [time.sleep(d)] for a non-negative literal [d]. *)
Definition sleep (d : Q) : M state unit :=
  modify (fun st => {| self := self st; world := after_sleep d (world st);
                       log := log st ++ [EvSleep d] |}).

(** A write to the step object that sits at index [idx] of [self.steps]. *)
Definition update_step (idx : nat) (f : WorkflowStep -> WorkflowStep) : M state unit :=
  update_self (fun w => with_steps (alter f idx (steps w)) w).

(** The command line built by [_run_bruno_request]. *)
Definition bruno_cmd (c : config) (bru_file : string) : list string :=
  ["bru"; "run"; "auth/get-iam-token.bru"; bru_file; "--env"; env c; "--output"; "json"].

(** [VPCWorkflow._run_bruno_request] *)
Definition _run_bruno_request (bru_file : string) (env_vars : gmap string string)
    : M state json :=
  fun st =>
    let (r, w') := subprocess_run (bruno_cmd (cfg (self st)) bru_file) env_vars (world st) in
    let st' := {| self := self st; world := w';
                  log := log st ++ [EvRun bru_file env_vars
                                      match r with
                                      | Ok _ => None
                                      | Raise e => Some e
                                      end] |} in
    match r with
    | Ok stdout =>
        match json_loads stdout with
        | inr response => (Ok response, st')
        | inl msg => (Raise (JSONDecodeError msg), st')
        end
    | Raise e => (Raise e, st')
    end.

(** [VPCWorkflow._build_steps].  Step 1 is appended when
    [str(self.subnet_ip_count)] is evaluated for step 2; where that
    returns, its value is the text [network_steps] has under
    [SUBNET_IP_COUNT].  Past the two checks [image_id] and [ssh_key_id]
    hold a string, so the fallback of [default] is never used. *)
Definition _build_steps : M state unit :=
  do c <- gets (fun st => cfg (self st));
  exec update_self (with_steps (take 1 (network_steps c)));
  do _ <- lift (py_str_int (subnet_ip_count c));
  exec update_self (with_steps (network_steps c));
  if negb (truthy_str (image_id c)) then
    raise (ValueError "image_id is required. Run 'mise run instances:list-images' to find an image ID")
  else if negb (truthy_str (ssh_key_id c)) then
    raise (ValueError "ssh_key_id is required for Linux instances. Run 'mise run ssh-keys:list' to find an SSH key ID")
  else
    exec update_self (fun w =>
      with_steps (steps w ++ [instance_step c (default "" (image_id c))
                                              (default "" (ssh_key_id c))]) w);
    if create_floating_ip c
    then update_self (fun w => with_steps (steps w ++ [floating_ip_step c]) w)
    else ret tt.

(** The branch of [execute_step] that files an extracted identifier under
    the name of the step. *)
Definition store_id (step_name : string) (id : string) (response : json)
    (r : resources) : resources :=
  if String.eqb step_name "create_vpc" then
    mkResources (Some id) (subnet_id r) (sg_id r) (instance_id r)
                (floating_ip_id r) (floating_ip_address r)
  else if String.eqb step_name "create_subnet" then
    mkResources (vpc_id r) (Some id) (sg_id r) (instance_id r)
                (floating_ip_id r) (floating_ip_address r)
  else if String.eqb step_name "create_security_group" then
    mkResources (vpc_id r) (subnet_id r) (Some id) (instance_id r)
                (floating_ip_id r) (floating_ip_address r)
  else if String.eqb step_name "create_instance" then
    mkResources (vpc_id r) (subnet_id r) (sg_id r) (Some id)
                (floating_ip_id r) (floating_ip_address r)
  else if String.eqb step_name "create_floating_ip" then
    mkResources (vpc_id r) (subnet_id r) (sg_id r) (instance_id r)
                (Some id) (_extract_value response "address")
  else r.

(** [VPCWorkflow.execute_step], for the step object [step] found at index
    [idx] of [self.steps]. *)
Definition execute_step (idx : nat) (step : WorkflowStep) : M state bool :=
  do t0 <- datetime_now;
  exec update_step idx (step_started t0);
  catch
    (do r <- gets (fun st => ids (self st));
     do response <- _run_bruno_request (bru_file step)
                      (_resolve_placeholders r (env_vars step));
     do t1 <- datetime_now;
     exec update_step idx (step_completed response t1);
     exec (if truthy_str (extract_id_key step) then
             let extracted := _extract_value response (default "" (extract_id_key step)) in
             match extracted with
             | Some id =>
                 if truthy_str extracted then
                   exec update_step idx (step_extracted id);
                   update_self (fun w =>
                     with_ids (store_id (name step) id response (ids w)) w)
                 else ret tt
             | None => ret tt
             end
           else ret tt);
     ret true)
    (fun e =>
       do t1 <- datetime_now;
       exec update_step idx
              (step_failed match e with
                           | CalledProcessError _ stderr => stderr
                           | _ => exn_str e
                           end t1);
       ret false).

(** [VPCWorkflow._print_summary] *)
Definition _print_summary : M state unit :=
  do w <- gets self;
  emit (EvSummary (make_summary w)).

(** The [for i, step in enumerate(self.steps, 1)] loop of [execute], from
    the step at index [idx] on; [todo] are the steps still to visit.  It
    yields [False] when a step failed (after the [return False] branch
    did its work) and [True] when the list is exhausted. *)
Fixpoint execute_steps (idx : nat) (todo : list WorkflowStep) : M state bool :=
  match todo with
  | [] => ret true
  | step :: todo' =>
      exec update_self (with_current_step_index (S idx));
      do success <- execute_step idx step;
      if negb success then
        exec update_self (with_status WfFailed);
        do t <- datetime_now;
        exec update_self (with_end_time t);
        exec _print_summary;
        ret false
      else
        do n <- gets (fun st => length (steps (self st)));
        exec (if (S idx <? n)%nat then sleep 1 else ret tt);
        execute_steps (S idx) todo'
  end.

(** [VPCWorkflow.execute] *)
Definition execute : M state bool :=
  exec update_self (with_status WfRunning);
  do t <- datetime_now;
  exec update_self (with_start_time t);
  do built <- catch (exec _build_steps; ret true)
                    (fun e => match e with
                              | ValueError _ | JSONDecodeError _ =>
                                  exec update_self (with_status WfFailed);
                                  ret false
                              | _ => raise e
                              end);
  if negb built then ret false
  else
    do todo <- gets (fun st => steps (self st));
    do finished <- execute_steps 0 todo;
    if negb finished then ret false
    else
      exec update_self (with_status WfCompleted);
      do t <- datetime_now;
      exec update_self (with_end_time t);
      exec _print_summary;
      ret true.

End WithWorld.

End WithRepr.

Arguments self {World} _.
Arguments world {World} _.
Arguments log {World} _.
Arguments mkState {World} _ _ _.

(** ** Vocabulary of the statements *)

(** The requests made, oldest first. *)
Definition runs (evs : list event) : list string :=
  omap (fun ev => match ev with EvRun f _ _ => Some f | _ => None end) evs.

(** The pauses made, oldest first. *)
Definition sleeps (evs : list event) : list Q :=
  omap (fun ev => match ev with EvSleep d => Some d | _ => None end) evs.

(** The request files of the steps [_build_steps] makes, in their order. *)
Definition plan_files (c : config) : list string :=
  [ "vpc/create-vpc.bru";
    "vpc/subnets/create-subnet.bru";
    "vpc/security-groups/create-security-group.bru";
    "vpc/security-groups/add-rule-ssh.bru";
    "vpc/security-groups/add-rule-http.bru";
    "vpc/security-groups/add-rule-https.bru";
    "vpc/security-groups/add-rule-outbound-all.bru";
    "vpc/instances/create-instance.bru" ]
  ++ (if create_floating_ip c then ["vpc/floating-ips/create-floating-ip.bru"] else []).

(** The placeholder token that stands for the identifier a step of that
    name captures. *)
Definition produces (step_name : string) : option string :=
  if String.eqb step_name "create_vpc" then Some "${vpc_id}"
  else if String.eqb step_name "create_subnet" then Some "${subnet_id}"
  else if String.eqb step_name "create_security_group" then Some "${sg_id}"
  else if String.eqb step_name "create_instance" then Some "${instance_id}"
  else None.

(** The dot-path lookup finds no value: the current value is not a
    mapping, or the key is missing, or the lookup fails further down. *)
Inductive lookup_fails : json -> list string -> Prop :=
  | lookup_not_mapping v key keys :
      is_dict v = false -> lookup_fails v (key :: keys)
  | lookup_key_missing m key keys :
      m !! key = None -> lookup_fails (JDict m) (key :: keys)
  | lookup_fails_below m key v keys :
      m !! key = Some v -> lookup_fails v keys -> lookup_fails (JDict m) (key :: keys).

(** The value found by following the keys from a value down through
    nested mappings. *)
Inductive value_at : json -> list string -> json -> Prop :=
  | value_here v : value_at v [] v
  | value_below m key v keys x :
      m !! key = Some v -> value_at v keys x -> value_at (JDict m) (key :: keys) x.

(** The placeholder tokens and the identifier each stands for. *)
Definition token_id (token : string) (r : resources) : option (option string) :=
  if String.eqb token "${vpc_id}" then Some (vpc_id r)
  else if String.eqb token "${subnet_id}" then Some (subnet_id r)
  else if String.eqb token "${sg_id}" then Some (sg_id r)
  else if String.eqb token "${instance_id}" then Some (instance_id r)
  else None.

(** The identifier captured for a step input: [Some id] when the input is
    a known placeholder token and the identifier it stands for holds the
    non-empty string [id]. *)
Definition captured (value : string) (r : resources) : option string :=
  match token_id value r with
  | Some (Some id) => if String.eqb id "" then None else Some id
  | _ => None
  end.

(** ** A scripted world: one outcome per request, then failures *)
Definition script : Type := list (Py.result string).

Definition scripted_run (cmd : list string) (env_vars : gmap string string) (w : script)
    : Py.result string * script :=
  match w with
  | [] => (Raise (CalledProcessError "Command returned non-zero exit status 1." "quota exceeded"), [])
  | r :: w' => (r, w')
  end.

Definition scripted_now (w : script) : Q := 0%Q.
Definition scripted_sleep (d : Q) (w : script) : script := w.

(** A [json.loads] that reads ["<name>"] as [{"id": "r006-<name>"}] and
    fails on the empty text. *)
Definition toy_loads (s : string) : string + json :=
  if String.eqb s "" then inl "Expecting value"
  else if String.eqb s "{}" then inr (JDict ∅)
  else inr (JDict {[ "id" := JStr ("r006-" +:+ s) ]}).

Definition toy_repr (v : json) : string := "<value>".

Definition demo_config (image ssh_key : option string) : config :=
  {| vpc_name := "demo-vpc"; subnet_name := "demo-subnet"; sg_name := "demo-sg";
     instance_name := "demo-instance"; zone_name := "us-south-1";
     subnet_ip_count := 256; instance_profile := "cx2-2x4";
     image_id := image; ssh_key_id := ssh_key; resource_group_id := None;
     env := "prod"; create_floating_ip := true |}.

Definition run_scripted (c : config) (w : script) : Py.result bool * state script :=
  execute toy_repr script scripted_now scripted_run toy_loads scripted_sleep
    (mkState (VPCWorkflow_init c) w []).

(** The nine steps of the demonstration configuration, as [_build_steps]
    leaves them, and a world in which the third request fails. *)
Definition demo_built : VPCWorkflow :=
  let c := demo_config (Some "r006-image") (Some "r006-key") in
  with_steps (network_steps c ++ [instance_step c "r006-image" "r006-key";
                                  floating_ip_step c])
             (VPCWorkflow_init c).

Definition third_request_fails : script :=
  [Ok "vpc"; Ok "subnet";
   Raise (CalledProcessError "Command returned non-zero exit status 1." "quota exceeded")].

Definition run_steps_scripted (w : VPCWorkflow) (sc : script)
    : Py.result bool * state script :=
  execute_steps toy_repr script scripted_now scripted_run toy_loads scripted_sleep
    0 (steps w) (mkState w sc []).

(** A [json.loads] that also reads ["null"] as [{"id": null}], and a world
    in which the nine requests of the plan are answered. *)
Definition sample_loads (s : string) : string + json :=
  if String.eqb s "null" then inr (JDict {[ "id" := JNull ]}) else toy_loads s.

Definition nine_answers : script :=
  [Ok "vpc"; Ok "subnet"; Ok "sg"; Ok "ssh"; Ok "http"; Ok "https"; Ok "outbound";
   Ok "instance"; Ok "fip"].

End Workflow.

(** * Properties of the retry wrapper *)

Module RetryFacts.
Import Py Retry.
Local Open Scope py_scope.

Lemma same_config_refl c : same_config c c.
Proof. repeat split. Qed.

Lemma same_config_with_token c c' t :
  same_config c c' -> same_config c (with_token c' t).
Proof. intros H. exact H. Qed.

Lemma next_delay_config c c' d : same_config c c' -> next_delay c' d = next_delay c d.
Proof. intros (_ & _ & _ & Hm & Hf). unfold next_delay. now rewrite Hm, Hf. Qed.

Lemma auth_cmd_config c c' : same_config c c' -> auth_cmd c' = auth_cmd c.
Proof. intros (He & _). unfold auth_cmd. now rewrite He. Qed.

Lemma request_cmd_config c c' f : same_config c c' -> request_cmd c' f = request_cmd c f.
Proof. intros (He & _). unfold request_cmd, bruno_cmd. now rewrite He. Qed.

Lemma auth_cmd_not_request c c' f : auth_cmd c <> request_cmd c' f.
Proof. intros H. apply (f_equal length) in H. discriminate H. Qed.

Lemma runs_of_app cmd evs evs' :
  runs_of cmd (evs ++ evs') = runs_of cmd evs ++ runs_of cmd evs'.
Proof. apply omap_app. Qed.

Lemma slept_app evs evs' : slept (evs ++ evs') = slept evs ++ slept evs'.
Proof. apply omap_app. Qed.

Lemma forced_refreshes_app evs evs' :
  forced_refreshes (evs ++ evs') = forced_refreshes evs ++ forced_refreshes evs'.
Proof. apply omap_app. Qed.

Lemma runs_of_cons_same cmd o evs :
  runs_of cmd (EvSubprocess cmd o :: evs) = o :: runs_of cmd evs.
Proof. unfold runs_of. cbn. now rewrite decide_True. Qed.

Lemma runs_of_cons_other cmd cmd' o evs :
  cmd' <> cmd -> runs_of cmd (EvSubprocess cmd' o :: evs) = runs_of cmd evs.
Proof. intros H. unfold runs_of. cbn. now rewrite decide_False. Qed.

(** The events of one pass: one run of the request, then no other run of
    it; a sleep exactly when the pass backs off; a forced refresh only on a
    pass entered with [retry_count = 0]. *)
Lemma pass_events c req retry_count delay r evs :
  auth_cmd c <> req ->
  pass c req retry_count delay r evs ->
  exists o rest,
    evs = EvSubprocess req o :: rest /\ runs_of req rest = [] /\
    (forced_refreshes rest = [] \/ retry_count = 0 /\ forced_refreshes rest = [()]) /\
    match r with
    | Ok (Return _) => slept rest = [] /\ o = None
    | Ok (Continue retry_count' delay') =>
        retry_count' = retry_count + 1 /\
        ((exists e, o = Some e /\ backoff_error e) /\ slept rest = [delay] /\
           delay' = next_delay c delay /\ forced_refreshes rest = []
         \/ (exists msg, o = Some (AuthenticationError msg)) /\ slept rest = [] /\
            delay' = delay /\ retry_count = 0 /\ forced_refreshes rest = [()])
    | Raise e =>
        slept rest = [] /\
        (forall msg, o = Some (AuthenticationError msg) ->
                     retry_count <> 0 -> e = AuthenticationError msg /\ rest = [])
    end.
Proof.
  intros Hne H.
  destruct H; (eexists; eexists; split; [reflexivity|]);
    unfold runs_of; cbn;
    try (destruct (decide (auth_cmd c = req)) as [?|_]; [contradiction|]);
    (split; [reflexivity|]).
  all: try (split; [now left|]).
  all: try (split; [right; now split|]).
  all: try (split; [reflexivity|]).
  all: try solve [ split; reflexivity
                 | intros ? [= ?]
                 | intros ? [= ?]; subst; cbn in *; tauto
                 | intros ? [= ?] ?; lia ].
  all: try solve [ left; repeat (split; [now eauto|]); reflexivity ].
  all: right; split; [now eauto|]; now repeat split.
Qed.

(** *** Properties of whole runs, by induction on [passes] *)

(** The [k]-th delay slept is the value of [delay] after [k] updates. *)
Lemma passes_slept c req retry_count delay r evs :
  auth_cmd c <> req ->
  passes c req retry_count delay r evs ->
  forall k x, slept evs !! k = Some x -> x = delay_seq c delay k.
Proof.
  intros Hne H. induction H as [rc d Hgt|rc d response evs Hle Hp|rc d e evs Hle Hp
                                |rc d rc' d' evs r evs' Hle Hp Hps IH];
    intros k x Hk.
  - discriminate Hk.
  - apply (pass_events _ _ _ _ _ _ Hne) in Hp.
    destruct Hp as (o & rest & -> & _ & _ & Hs & _).
    cbn in Hk. unfold slept in Hs. now rewrite Hs in Hk.
  - apply (pass_events _ _ _ _ _ _ Hne) in Hp.
    destruct Hp as (o & rest & -> & _ & _ & Hs & _).
    cbn in Hk. unfold slept in Hs. now rewrite Hs in Hk.
  - apply (pass_events _ _ _ _ _ _ Hne) in Hp.
    destruct Hp as (o & rest & -> & _ & _ & _ & [(_ & Hs & -> & _)|(_ & Hs & -> & _)]);
      rewrite slept_app in Hk; change (slept (EvSubprocess req o :: rest))
        with (slept rest) in Hk; rewrite Hs in Hk; cbn in Hk.
    + destruct k as [|k]; cbn in Hk.
      * now injection Hk as <-.
      * now apply IH.
    + now apply IH.
Qed.

(** A forced refresh happens at most once, and only in a pass entered with
    [retry_count = 0]. *)
Lemma passes_forced c req retry_count delay r evs :
  auth_cmd c <> req ->
  passes c req retry_count delay r evs ->
  0 <= retry_count ->
  (length (forced_refreshes evs) <= 1)%nat /\
  (retry_count <> 0 -> forced_refreshes evs = []).
Proof.
  intros Hne H. induction H as [rc d Hgt|rc d response evs Hle Hp|rc d e evs Hle Hp
                                |rc d rc' d' evs r evs' Hle Hp Hps IH];
    intros Hrc.
  - split; [cbn; lia|reflexivity].
  - apply (pass_events _ _ _ _ _ _ Hne) in Hp.
    destruct Hp as (o & rest & -> & _ & [Hf|[H0 Hf]] & _);
      change (forced_refreshes (EvSubprocess req o :: rest)) with (forced_refreshes rest);
      rewrite Hf; cbn; split; (lia || tauto).
  - apply (pass_events _ _ _ _ _ _ Hne) in Hp.
    destruct Hp as (o & rest & -> & _ & [Hf|[H0 Hf]] & _);
      change (forced_refreshes (EvSubprocess req o :: rest)) with (forced_refreshes rest);
      rewrite Hf; cbn; split; (lia || tauto).
  - apply (pass_events _ _ _ _ _ _ Hne) in Hp.
    destruct Hp as (o & rest & -> & _ & Hf & -> & _).
    destruct IH as [_ IH]; [lia|]. rewrite forced_refreshes_app, IH, app_nil_r by lia.
    change (forced_refreshes (EvSubprocess req o :: rest)) with (forced_refreshes rest).
    destruct Hf as [Hf|[H0 Hf]]; rewrite Hf; cbn; split; (lia || tauto).
Qed.

(** Once [retry_count] is positive, an authentication failure of the
    request ends the call: it is re-raised and is the last event. *)
Lemma passes_auth_failure_later c req retry_count delay r evs :
  auth_cmd c <> req ->
  passes c req retry_count delay r evs ->
  0 < retry_count ->
  forall j msg, runs_of req evs !! j = Some (Some (AuthenticationError msg)) ->
    r = Raise (AuthenticationError msg) /\
    length (runs_of req evs) = S j /\
    last evs = Some (EvSubprocess req (Some (AuthenticationError msg))).
Proof.
  intros Hne H. induction H as [rc d Hgt|rc d response evs Hle Hp|rc d e evs Hle Hp
                                |rc d rc' d' evs r evs' Hle Hp Hps IH];
    intros Hrc j msg Hj.
  - discriminate Hj.
  - apply (pass_events _ _ _ _ _ _ Hne) in Hp.
    destruct Hp as (o & rest & -> & Hr & _ & _ & ->).
    rewrite runs_of_cons_same, Hr in Hj. now destruct j.
  - apply (pass_events _ _ _ _ _ _ Hne) in Hp.
    destruct Hp as (o & rest & -> & Hr & _ & _ & Hauth).
    rewrite runs_of_cons_same, Hr in *. destruct j as [|j]; [|discriminate Hj].
    injection Hj as ->. destruct (Hauth msg eq_refl) as [-> ->]; [lia|]. now repeat split.
  - apply (pass_events _ _ _ _ _ _ Hne) in Hp.
    destruct Hp as (o & rest & -> & Hr & _ & -> & [((e & -> & Hb) & _)|(_ & _ & _ & H0 & _)]);
      [|lia].
    rewrite runs_of_app, runs_of_cons_same, Hr in *. cbn in Hj.
    destruct j as [|j]; cbn in Hj.
    + injection Hj as ->. destruct Hb.
    + destruct (IH ltac:(lia) j msg Hj) as (-> & Hlen & Hlast).
      split; [reflexivity|]. split; [cbn; now rewrite Hlen|].
      destruct evs' as [|ev evs']; [discriminate Hlast|].
      now rewrite last_app_cons, <- Hlast.
Qed.

(** Two authentication failures in a row: the first is the first attempt
    of the call, the second ends the call. *)
Lemma passes_auth_failure_twice c req delay r evs :
  auth_cmd c <> req ->
  passes c req 0 delay r evs ->
  forall k msg1 msg2,
    runs_of req evs !! k = Some (Some (AuthenticationError msg1)) ->
    runs_of req evs !! S k = Some (Some (AuthenticationError msg2)) ->
    k = 0%nat /\ r = Raise (AuthenticationError msg2) /\
    length (runs_of req evs) = 2%nat /\
    last evs = Some (EvSubprocess req (Some (AuthenticationError msg2))) /\
    forced_refreshes evs = [()].
Proof.
  intros Hne H k msg1 msg2 Hk HSk.
  inversion H as [rc d Hgt|rc d response evs0 Hle Hp|rc d e evs0 Hle Hp
                  |rc d rc' d' evs0 r0 evs' Hle Hp Hps]; subst.
  - discriminate Hk.
  - apply (pass_events _ _ _ _ _ _ Hne) in Hp.
    destruct Hp as (o & rest & -> & Hr & _).
    rewrite runs_of_cons_same, Hr in HSk. discriminate HSk.
  - apply (pass_events _ _ _ _ _ _ Hne) in Hp.
    destruct Hp as (o & rest & -> & Hr & _).
    rewrite runs_of_cons_same, Hr in HSk. discriminate HSk.
  - apply (pass_events _ _ _ _ _ _ Hne) in Hp.
    destruct Hp as (o & rest & -> & Hr & _ & -> & Hcases).
    rewrite runs_of_app, runs_of_cons_same, Hr in *. cbn in Hk, HSk.
    destruct k as [|k]; cbn in Hk.
    + destruct (passes_auth_failure_later _ _ _ _ _ _ Hne Hps ltac:(lia) _ _ HSk)
        as (-> & Hlen & Hlast).
      repeat split; [cbn; now rewrite Hlen| |].
      * destruct evs' as [|ev evs']; [discriminate Hlast|].
        now rewrite last_app_cons, <- Hlast.
      * injection Hk as ->.
        destruct Hcases as [((e & [= <-] & []) & _)|(_ & _ & _ & _ & Hf)].
        destruct (passes_forced _ _ _ _ _ _ Hne Hps ltac:(lia)) as [_ Hnone].
        rewrite forced_refreshes_app, Hnone by lia.
        change (forced_refreshes (EvSubprocess req ?o :: rest)) with (forced_refreshes rest).
        now rewrite Hf.
    + destruct (passes_auth_failure_later _ _ _ _ _ _ Hne Hps ltac:(lia) _ _ Hk)
        as (_ & Hlen & _).
      apply lookup_lt_Some in HSk. lia.
Qed.

(** *** The delays and the messages *)

Lemma delay_seq_S c d k : delay_seq c d (S k) = next_delay c (delay_seq c d k).
Proof. revert d. induction k as [|k IH]; intros d; [reflexivity|]. cbn. apply IH. Qed.

Lemma delay_seq_config c c' d k : same_config c c' -> delay_seq c' d k = delay_seq c d k.
Proof.
  intros Hc. revert d. induction k as [|k IH]; intros d; [reflexivity|].
  cbn. now rewrite (next_delay_config _ _ _ Hc), IH.
Qed.

Lemma exhausted_error_config c c' detail :
  same_config c c' -> exhausted_error c' detail = exhausted_error c detail.
Proof. intros (_ & Hn & _). unfold exhausted_error. now rewrite Hn. Qed.

(** An integer of at most 4300 digits is printed. *)
Lemma printable n :
  - 10 ^ int_max_str_digits < n < 10 ^ int_max_str_digits ->
  py_str_int n = Ok (str_int n).
Proof.
  intros Hn. unfold py_str_int, exceeds_str_digits.
  set (limit := 10 ^ int_max_str_digits) in *.
  destruct (Z.leb_spec limit (Z.abs n)); [lia|reflexivity].
Qed.

Lemma unprintable n :
  10 ^ int_max_str_digits <= Z.abs n -> py_str_int n = Raise str_digits_error.
Proof.
  intros Hn. unfold py_str_int, exceeds_str_digits.
  set (limit := 10 ^ int_max_str_digits) in *.
  destruct (Z.leb_spec limit (Z.abs n)); [reflexivity|lia].
Qed.

Lemma exhausted_error_printable c detail :
  - 10 ^ int_max_str_digits < max_retries c < 10 ^ int_max_str_digits ->
  exhausted_error c detail
  = BrunoAPIError ("Request failed after " +:+ str_int (max_retries c)
                     +:+ " retries" +:+ detail).
Proof. intros Hn. unfold exhausted_error. now rewrite printable. Qed.

Section WithWorld.
Variable World : Type.
Variable now : World -> Q.
Variable subprocess_run : list string -> World -> result string * World.
Variable json_loads : string -> string + json.
Variable time_sleep : float -> World -> result unit * World.

Local Abbreviation state := (Retry.state World).
Local Abbreviation authenticate := (Retry.authenticate World now subprocess_run).
Local Abbreviation attempt := (Retry.attempt World now subprocess_run json_loads time_sleep).
Local Abbreviation retry_loop := (Retry.retry_loop World now subprocess_run json_loads time_sleep).
Local Abbreviation request_with_retry :=
  (Retry.request_with_retry World now subprocess_run json_loads time_sleep).

(** What a call of [authenticate] does, by cases on the oracle. *)
Lemma authenticate_forced (st : state) :
  let c := self st in
  authenticate true st =
    match subprocess_run (auth_cmd c) (world st) with
    | (Ok _, w) =>
        (Ok tt, mkState (with_token c (now w)) w
                  (log st ++ [EvAuthenticate true; EvSubprocess (auth_cmd c) None]))
    | (Raise e, w) =>
        (Raise match e with
               | CalledProcessError _ stderr =>
                   AuthenticationError ("Failed to authenticate: " +:+ stderr)
               | _ => e
               end,
         mkState c w (log st ++ [EvAuthenticate true; EvSubprocess (auth_cmd c) (Some e)]))
    end.
Proof.
  destruct st as [c w l]. cbn.
  unfold Retry.authenticate, bind, catch, emit, modify, gets, Retry.run_subprocess,
    set_self, ret, raise; cbn.
  destruct (subprocess_run (auth_cmd c) w) as [[out|e] w1]; cbn.
  - now rewrite <- app_assoc.
  - rewrite <- app_assoc. now destruct e.
Qed.

#[local] Arguments Retry.authenticate : simpl never.

(** Every pass through the loop body is one of the cases of [pass]. *)
Lemma attempt_pass (c : BrunoClient) bru_file retry_count delay (st : state) r st' :
  same_config c (self st) ->
  attempt bru_file retry_count delay st = (r, st') ->
  exists evs, log st' = log st ++ evs /\ same_config c (self st') /\
              pass c (request_cmd c bru_file) retry_count delay r evs.
Proof.
  intros Hc. pose proof Hc as (He & Hn & _).
  cbv beta iota delta [Retry.attempt Retry._run_bruno_command Retry.run_subprocess
                         catch bind gets ret raise].
  change (bruno_cmd (self st) ["auth/get-iam-token.bru"; bru_file])
    with (request_cmd (self st) bru_file).
  rewrite (request_cmd_config _ _ _ Hc).
  destruct (subprocess_run _ (world st)) as [[out|e] w1]; cbn.
  - destruct (json_loads out) as [msg|response]; cbn; intros [= <- <-]; cbn.
    + eexists; split; [reflexivity|]. split; [exact Hc|]. constructor.
    + eexists; split; [reflexivity|]. split; [exact Hc|]. constructor.
  - rewrite Hn.
    destruct e; cbn;
      try (intros [= <- <-]; cbn; eexists; split; [reflexivity|];
           split; [exact Hc|]; now constructor).
    + (* CalledProcessError *)
      destruct (Z.ltb_spec retry_count (max_retries c)) as [Hlt|Hge]; cbn.
      * unfold Retry.sleep. cbn.
        destruct (time_sleep delay w1) as [[[]|e'] w2]; cbn.
        -- intros [= <- <-]; cbn. rewrite <- app_assoc. cbn.
           eexists; split; [reflexivity|]. split; [exact Hc|].
           rewrite (next_delay_config _ _ _ Hc).
           apply pass_backoff; [exact I|exact Hlt].
        -- intros [= <- <-]; cbn.
           eexists; split; [reflexivity|]. split; [exact Hc|].
           eapply pass_sleep_refused; [exact I|exact Hlt].
      * intros [= <- <-]; cbn.
        eexists; split; [reflexivity|]. split; [exact Hc|].
        rewrite (exhausted_error_config _ _ _ Hc).
        apply pass_retries_exhausted. lia.
    + (* AuthenticationError *)
      destruct (Z.eqb_spec retry_count 0) as [H0|H0]; cbn.
      * rewrite authenticate_forced. cbn. rewrite (auth_cmd_config _ _ Hc).
        destruct (subprocess_run (auth_cmd c) w1) as [[out|e] w2]; cbn;
          intros [= <- <-]; cbn; rewrite <- app_assoc; cbn;
          (eexists; split; [reflexivity|]); (split; [exact Hc|]).
        -- now apply pass_refresh.
        -- now apply pass_refresh_failed.
      * intros [= <- <-]; cbn.
        eexists; split; [reflexivity|]. split; [exact Hc|].
        now apply pass_second_auth_failure.
    + (* RateLimitError *)
      destruct (Z.ltb_spec retry_count (max_retries c)) as [Hlt|Hge]; cbn.
      * unfold Retry.sleep. cbn.
        destruct (time_sleep delay w1) as [[[]|e'] w2]; cbn.
        -- intros [= <- <-]; cbn. rewrite <- app_assoc. cbn.
           eexists; split; [reflexivity|]. split; [exact Hc|].
           rewrite (next_delay_config _ _ _ Hc).
           apply pass_backoff; [exact I|exact Hlt].
        -- intros [= <- <-]; cbn.
           eexists; split; [reflexivity|]. split; [exact Hc|].
           eapply pass_sleep_refused; [exact I|exact Hlt].
      * intros [= <- <-]; cbn.
        eexists; split; [reflexivity|]. split; [exact Hc|].
        apply pass_rate_limit_exhausted. lia.
Qed.

(** A call of [authenticate] logs itself and at most one run of the
    authentication command, and leaves the configuration alone. *)
Lemma authenticate_events (c : BrunoClient) force (st : state) r st' :
  same_config c (self st) ->
  authenticate force st = (r, st') ->
  exists evs, log st' = log st ++ EvAuthenticate force :: evs /\
              same_config c (self st') /\
              (evs = [] \/ exists o, evs = [EvSubprocess (auth_cmd c) o]).
Proof.
  intros Hc. rewrite <- (auth_cmd_config _ _ Hc).
  destruct st as [c0 w l]. cbn in *.
  assert (Hrun : forall r st',
    catch (do c1 <- gets self;
           exec Retry.run_subprocess World subprocess_run (auth_cmd c1);
           do w1 <- gets world;
           set_self World (with_token c1 (now w1)))
          (fun e => match e with
                    | CalledProcessError _ stderr =>
                        raise (AuthenticationError ("Failed to authenticate: " +:+ stderr))
                    | _ => raise e
                    end)
          (mkState c0 w (l ++ [EvAuthenticate force])) = (r, st') ->
    exists evs, log st' = l ++ EvAuthenticate force :: evs /\
                same_config c (self st') /\
                (evs = [] \/ exists o, evs = [EvSubprocess (auth_cmd c0) o])).
  { clear r st'. intros r st'.
    cbv beta iota delta [bind catch gets Retry.run_subprocess set_self modify ret raise].
    cbn. destruct (subprocess_run (auth_cmd c0) w) as [[out|e] w1]; cbn.
    - intros H; injection H as <- <-. cbn. rewrite <- app_assoc. eauto 7.
    - intros H.
      assert (st' = mkState c0 w1 ((l ++ [EvAuthenticate force])
                                     ++ [EvSubprocess (auth_cmd c0) (Some e)])) as ->
        by (destruct e; now injection H).
      cbn. rewrite <- app_assoc. eauto 7. }
  unfold Retry.authenticate, emit, modify.
  unfold bind at 1. cbn. unfold bind at 1.
  destruct force; cbn.
  - apply Hrun.
  - unfold Retry._should_refresh_token, bind, get, ret. cbn.
    destruct (token_expires_at c0) as [t|]; cbn; [|apply Hrun].
    destruct (Qle_bool (t - 300) (now w)); cbn; [apply Hrun|].
    intros H; injection H as <- <-. cbn. eauto 7.
Qed.

(** Every run of the loop is described by [passes]. *)
Lemma retry_loop_passes (c : BrunoClient) bru_file fuel :
  forall retry_count delay (st : state) r st',
  same_config c (self st) ->
  retry_loop fuel bru_file retry_count delay st = Some (r, st') ->
  exists evs, log st' = log st ++ evs /\ same_config c (self st') /\
              passes c (request_cmd c bru_file) retry_count delay r evs.
Proof.
  induction fuel as [|fuel IH]; intros retry_count delay st r st' Hc;
    pose proof Hc as (_ & Hn & _); cbn; rewrite Hn;
    destruct (Z.leb_spec retry_count (max_retries c)) as [Hle|Hgt].
  - discriminate.
  - intros [= <- <-]. exists []. rewrite app_nil_r. repeat split; try apply Hc.
    rewrite (exhausted_error_config _ _ _ Hc). apply passes_exit. lia.
  - destruct (attempt bru_file retry_count delay st) as [r1 st1] eqn:Ha.
    destruct (attempt_pass c _ _ _ _ _ _ Hc Ha) as (evs & Hlog & Hc1 & Hp).
    destruct r1 as [[response|retry_count' delay']|e].
    + intros [= <- <-]. exists evs. repeat split; try apply Hc1; [exact Hlog|].
      now apply passes_return.
    + intros Hloop.
      destruct (IH _ _ _ _ _ Hc1 Hloop) as (evs' & Hlog' & Hc' & Hps).
      exists (evs ++ evs'). rewrite Hlog', Hlog, app_assoc.
      repeat split; try apply Hc'. now apply passes_continue with retry_count' delay'.
    + intros [= <- <-]. exists evs. repeat split; try apply Hc1; [exact Hlog|].
      now apply passes_raise.
  - intros [= <- <-]. exists []. rewrite app_nil_r. repeat split; try apply Hc.
    rewrite (exhausted_error_config _ _ _ Hc). apply passes_exit. lia.
Qed.

(** The loop returns or raises: [max_retries + 1 - retry_count] passes are
    enough, whatever the world answers. *)
Lemma retry_loop_returns (c : BrunoClient) bru_file fuel :
  forall retry_count delay (st : state),
  same_config c (self st) ->
  (Z.to_nat (max_retries c + 1 - retry_count) <= fuel)%nat ->
  exists r st', retry_loop fuel bru_file retry_count delay st = Some (r, st').
Proof.
  induction fuel as [|fuel IH]; intros retry_count delay st Hc Hfuel;
    pose proof Hc as (_ & Hn & _); cbn; rewrite Hn;
    destruct (Z.leb_spec retry_count (max_retries c)) as [Hle|Hgt]; eauto; [lia|].
  destruct (attempt bru_file retry_count delay st) as [r1 st1] eqn:Ha.
  destruct (attempt_pass c _ _ _ _ _ _ Hc Ha) as (evs & Hlog & Hc1 & Hp).
  destruct r1 as [[response|retry_count' delay']|e]; eauto.
  apply (pass_events _ _ _ _ _ _ (auth_cmd_not_request _ _ _)) in Hp.
  cbn in Hp. destruct Hp as (o & rest & _ & _ & _ & -> & _).
  apply IH; [exact Hc1|lia].
Qed.

(** [request_with_retry] always returns or raises. *)
Lemma request_with_retry_returns bru_file (st : state) :
  exists r st', request_with_retry bru_file st = Some (r, st').
Proof.
  unfold Retry.request_with_retry.
  destruct (authenticate false st) as [[[]|e] st0] eqn:Ha; [|eauto].
  destruct (authenticate_events _ _ _ _ _ (same_config_refl _) Ha) as (_ & _ & Hc & _).
  apply retry_loop_returns with (c := self st0); [apply same_config_refl|lia].
Qed.

(** The events of a call: those of the preliminary [authenticate], then
    those of the loop. *)
Lemma request_with_retry_passes bru_file (st : state) r st' :
  request_with_retry bru_file st = Some (r, st') ->
  exists evs0 evs1,
    log st' = log st ++ evs0 ++ evs1 /\
    slept evs0 = [] /\ forced_refreshes evs0 = [] /\
    runs_of (request_cmd (self st) bru_file) evs0 = [] /\
    (evs1 = [] \/
     passes (self st) (request_cmd (self st) bru_file) 0
       (initial_retry_delay (self st)) r evs1).
Proof.
  unfold Retry.request_with_retry.
  destruct (authenticate false st) as [[[]|e] st0] eqn:Ha;
    destruct (authenticate_events _ _ _ _ _ (same_config_refl _) Ha)
      as (evs & Hlog & Hc & Hevs).
  - pose proof Hc as (_ & _ & Hi & _). rewrite Hi. intros Hloop.
    destruct (retry_loop_passes _ _ _ _ _ _ _ _ Hc Hloop) as (evs1 & Hlog1 & _ & Hps).
    exists (EvAuthenticate false :: evs), evs1.
    rewrite Hlog1, Hlog, <- app_assoc.
    split; [reflexivity|].
    change (runs_of ?c (EvAuthenticate false :: evs)) with (runs_of c evs).
    destruct Hevs as [->|[o ->]];
      rewrite ?runs_of_cons_other by apply auth_cmd_not_request; auto.
  - intros [= <- <-].
    exists (EvAuthenticate false :: evs), []. rewrite app_nil_r.
    split; [exact Hlog|].
    change (runs_of ?c (EvAuthenticate false :: evs)) with (runs_of c evs).
    destruct Hevs as [->|[o ->]];
      rewrite ?runs_of_cons_other by apply auth_cmd_not_request; auto.
Qed.

(** A pass whose run of the request fails with [CalledProcessError]. *)
Lemma attempt_transport_failure (c : BrunoClient) bru_file retry_count delay (st : state)
    msg stderr w' :
  same_config c (self st) ->
  subprocess_run (request_cmd c bru_file) (world st)
    = (Raise (CalledProcessError msg stderr), w') ->
  attempt bru_file retry_count delay st =
    let st1 := mkState (self st) w'
                 (log st ++ [EvSubprocess (request_cmd c bru_file)
                               (Some (CalledProcessError msg stderr))]) in
    if retry_count <? max_retries c then
      match time_sleep delay w' with
      | (Ok _, w2) =>
          (Ok (Continue (retry_count + 1) (next_delay c delay)),
           mkState (self st) w2 (log st1 ++ [EvSleep delay]))
      | (Raise e, w2) => (Raise e, mkState (self st) w2 (log st1))
      end
    else (Raise (exhausted_error c (": " +:+ msg)), st1).
Proof.
  intros Hc Hrun. pose proof Hc as (He & Hn & _).
  cbv beta iota delta [Retry.attempt Retry._run_bruno_command Retry.run_subprocess
                         catch bind gets ret raise].
  change (bruno_cmd (self st) ["auth/get-iam-token.bru"; bru_file])
    with (request_cmd (self st) bru_file).
  rewrite (request_cmd_config _ _ _ Hc), Hrun. cbn. rewrite Hn.
  destruct (retry_count <? max_retries c);
    [|now rewrite (exhausted_error_config _ _ _ Hc)].
  unfold Retry.sleep. cbn.
  destruct (time_sleep delay w') as [[[]|e] w2]; cbn; [|reflexivity].
  now rewrite (next_delay_config _ _ _ Hc).
Qed.

Lemma retry_loop_S fuel bru_file retry_count delay (st : state) :
  retry_loop (S fuel) bru_file retry_count delay st =
    if retry_count <=? max_retries (self st) then
      match attempt bru_file retry_count delay st with
      | (Ok (Return response), st') => Some (Ok response, st')
      | (Ok (Continue retry_count' delay'), st') =>
          retry_loop fuel bru_file retry_count' delay' st'
      | (Raise e, st') => Some (Raise e, st')
      end
    else Some (Raise (exhausted_error (self st) ""), st).
Proof. reflexivity. Qed.

(** The loop under a request that fails with [CalledProcessError]
    whenever it is run, when [time.sleep] accepts the delays that the
    updates of [delay] produce. *)
Lemma retry_loop_transport_failures (c : BrunoClient) bru_file :
  (forall w, exists msg stderr w',
      subprocess_run (request_cmd c bru_file) w
        = (Raise (CalledProcessError msg stderr), w')) ->
  forall n retry_count delay (st : state),
    same_config c (self st) ->
    retry_count <= max_retries c -> n = Z.to_nat (max_retries c - retry_count) ->
    (forall k w, (k < n)%nat ->
       exists w', time_sleep (delay_seq c delay k) w = (Ok tt, w')) ->
    exists msg st' evs,
      retry_loop (S n) bru_file retry_count delay st
        = Some (Raise (exhausted_error c (": " +:+ msg)), st') /\
      log st' = log st ++ evs /\
      length (runs_of (request_cmd c bru_file) evs) = S n /\
      slept evs = map (delay_seq c delay) (seq 0 n).
Proof.
  intros Hfail n.
  induction n as [|n IH]; intros retry_count delay st Hc Hle Hn Hsleep;
    pose proof Hc as (_ & Hmax & _);
    destruct (Hfail (world st)) as (msg & stderr & w' & Hrun);
    rewrite retry_loop_S, Hmax;
    (destruct (Z.leb_spec retry_count (max_retries c)) as [_|?]; [|lia]);
    rewrite (attempt_transport_failure c _ _ _ _ _ _ _ Hc Hrun); cbn zeta.
  - destruct (Z.ltb_spec retry_count (max_retries c)) as [?|_]; [lia|].
    eexists; eexists; eexists. split; [reflexivity|]. cbn [log].
    split; [reflexivity|]. now rewrite runs_of_cons_same.
  - destruct (Z.ltb_spec retry_count (max_retries c)) as [_|?]; [|lia].
    destruct (Hsleep 0%nat w' ltac:(lia)) as (w2 & Hw2). cbn [delay_seq] in Hw2.
    rewrite Hw2.
    edestruct (IH (retry_count + 1) (next_delay c delay))
      as (m & st' & evs & Hloop & Hlog & Hruns & Hs); [ | | | | rewrite Hloop ].
    + exact Hc.
    + lia.
    + lia.
    + intros k w Hk. apply (Hsleep (S k) w). lia.
    + eexists; eexists; eexists. split; [reflexivity|].
      rewrite Hlog. cbn [log]. rewrite <- !app_assoc. split; [reflexivity|].
      cbn [app]. rewrite runs_of_cons_same.
      change (runs_of ?c (EvSleep ?d :: ?l)) with (runs_of c l).
      change (slept (EvSubprocess ?c ?o :: EvSleep ?d :: ?l)) with (d :: slept l).
      split; [cbn [length]; now rewrite Hruns|]. rewrite Hs.
      cbn [seq map delay_seq]. f_equal. rewrite <- seq_shift, map_map. reflexivity.
Qed.

(** The delays of the configuration of the examples settle at the
    maximum: [time.sleep] accepts every one of them. *)
Lemma delay_seq_fixed c d k : next_delay c d = d -> delay_seq c d k = d.
Proof. intros Hd. induction k as [|k IH]; [reflexivity|]. cbn. now rewrite Hd. Qed.

(** ** The claims about the retry wrapper *)

(** C2, as the code has it.  For every maximum-retry count [N >= 0], a
    request whose run fails with a transport/process error
    ([CalledProcessError]) every time is attempted exactly [N + 1] times
    by [request_with_retry], which then raises the generic
    [BrunoAPIError], in a call whose preliminary [authenticate()] returns,
    whose backoff delays are all accepted by [time.sleep], and whose
    attempt count [N + 1] is an integer Python prints (at most 4300
    digits). *)
Theorem transport_failure_attempted_N_plus_1 (st : state) bru_file N st0 :
  max_retries (self st) = N -> 0 <= N -> N + 1 < 10 ^ int_max_str_digits ->
  authenticate false st = (Ok tt, st0) ->
  (forall k w, (k < Z.to_nat N)%nat ->
     exists w', time_sleep (delay_seq (self st) (initial_retry_delay (self st)) k) w
                = (Ok tt, w')) ->
  (forall w, exists msg stderr w',
      subprocess_run (request_cmd (self st) bru_file) w
        = (Raise (CalledProcessError msg stderr), w')) ->
  exists msg st' evs,
    request_with_retry bru_file st = Some (Raise (BrunoAPIError msg), st') /\
    log st' = log st ++ evs /\
    length (runs_of (request_cmd (self st) bru_file) evs) = Z.to_nat (N + 1).
Proof.
  intros HN HN0 Hprint Ha Hsleep Hfail.
  destruct (authenticate_events _ _ _ _ _ (same_config_refl _) Ha) as (evs0 & Hlog0 & Hc & Hevs).
  pose proof Hc as (_ & Hmax & Hinit & _).
  destruct (retry_loop_transport_failures (self st) bru_file Hfail
              (Z.to_nat N) 0 (initial_retry_delay (self st)) st0 Hc)
    as (msg & st' & evs & Hloop & Hlog & Hruns & _);
    [lia|f_equal; lia|exact Hsleep|].
  rewrite exhausted_error_printable in Hloop
    by (rewrite HN; set (limit := 10 ^ int_max_str_digits) in *; lia).
  eexists _, st', (EvAuthenticate false :: evs0 ++ evs).
  unfold Retry.request_with_retry. rewrite Ha, Hmax, Hinit, HN.
  replace (Z.to_nat (N + 1)) with (S (Z.to_nat N)) by lia.
  split; [exact Hloop|]. rewrite Hlog, Hlog0, <- app_assoc. split; [reflexivity|].
  change (runs_of ?c (EvAuthenticate false :: ?l)) with (runs_of c l).
  rewrite runs_of_app, length_app, Hruns.
  destruct Hevs as [->|[o ->]];
    rewrite ?runs_of_cons_other by apply auth_cmd_not_request; cbn; lia.
Qed.

(** C8. Within one call of [request_with_retry] there is at most one
    forced credential refresh ([authenticate(force=True)]); and when two
    consecutive attempts of the request fail with an authentication error,
    the first is the first attempt of the call and the second is
    re-raised to the caller as the last event of the call: exactly one
    forced refresh was made, before it. *)
Theorem authentication_refreshed_at_most_once (st : state) bru_file r st' evs :
  request_with_retry bru_file st = Some (r, st') ->
  log st' = log st ++ evs ->
  (length (forced_refreshes evs) <= 1)%nat /\
  (forall k msg1 msg2,
     runs_of (request_cmd (self st) bru_file) evs !! k
       = Some (Some (AuthenticationError msg1)) ->
     runs_of (request_cmd (self st) bru_file) evs !! S k
       = Some (Some (AuthenticationError msg2)) ->
     k = 0%nat /\
     r = Raise (AuthenticationError msg2) /\
     length (runs_of (request_cmd (self st) bru_file) evs) = 2%nat /\
     last evs = Some (EvSubprocess (request_cmd (self st) bru_file)
                        (Some (AuthenticationError msg2))) /\
     length (forced_refreshes evs) = 1%nat).
Proof.
  intros Hrun Hlog.
  destruct (request_with_retry_passes _ _ _ _ Hrun)
    as (evs0 & evs1 & Hlog' & _ & Hf0 & Hr0 & Hps).
  rewrite Hlog' in Hlog. apply app_inv_head in Hlog. subst evs.
  rewrite forced_refreshes_app, runs_of_app, Hf0, Hr0. cbn [app].
  destruct Hps as [->|Hps]; [split; [cbn; lia|intros; discriminate]|].
  pose proof (auth_cmd_not_request (self st) (self st) bru_file) as Hne.
  destruct (passes_forced _ _ _ _ _ _ Hne Hps ltac:(lia)) as [Hforced _].
  split; [exact Hforced|].
  intros k msg1 msg2 Hk HSk.
  destruct (passes_auth_failure_twice _ _ _ _ _ Hne Hps _ _ _ Hk HSk)
    as (-> & -> & Hlen & Hlast & Hone).
  repeat split; try assumption.
  - destruct evs1 as [|ev evs1]; [discriminate Hlast|].
    now rewrite last_app_cons, <- Hlast.
  - now rewrite Hone.
Qed.

End WithWorld.

(** ** Concrete runs *)

Lemma transport_failure_attempted_N_plus_1_witness :
  exists msg st' evs,
    run_request_down client_3_1_60_2 "vpc/list-vpcs.bru"
      = Some (Raise (BrunoAPIError msg), st') /\
    log st' = [] ++ evs /\
    length (runs_of (request_cmd client_3_1_60_2 "vpc/list-vpcs.bru") evs) = 4%nat.
Proof.
  eapply (transport_failure_attempted_N_plus_1 nat request_down_now request_down_run
            toy_loads request_down_sleep
            (mkState client_3_1_60_2 O []) "vpc/list-vpcs.bru" 3).
  - reflexivity.
  - lia.
  - vm_compute. reflexivity.
  - vm_compute. reflexivity.
  - intros k w Hk. exists w.
    destruct k as [|[|[|k]]]; [vm_compute; reflexivity..|lia].
  - intros w. eexists; eexists; eexists. reflexivity.
Defined.

(** C2 as stated fails in four kinds of call, in each of which every run
    of the request fails with a transport error: when the authentication
    command fails as well, the request is not attempted at all; with a
    negative delay, or one of [1e10] seconds, [time.sleep] raises after the
    first attempt; and with a retry count of 4301 digits, which cannot be
    printed, the call raises the [ValueError] of the conversion. *)
Lemma transport_failure_attempted_N_plus_1_counterexample :
  (exists msg st',
     run_all_down client_3_1_60_2 "vpc/list-vpcs.bru"
       = Some (Raise (AuthenticationError msg), st') /\
     runs_of (request_cmd client_3_1_60_2 "vpc/list-vpcs.bru") (log st') = []) /\
  (let c := BrunoClient_init "prod" 3 (-1) 60 2 in
   exists msg st',
     run_request_down c "vpc/list-vpcs.bru" = Some (Raise (ValueError msg), st') /\
     length (runs_of (request_cmd c "vpc/list-vpcs.bru") (log st')) = 1%nat) /\
  (let c := BrunoClient_init "prod" 3 1e10 1e10 2 in
   exists msg st',
     run_request_down c "vpc/list-vpcs.bru" = Some (Raise (OverflowError msg), st') /\
     length (runs_of (request_cmd c "vpc/list-vpcs.bru") (log st')) = 1%nat) /\
  (exists st',
     run_request_down (BrunoClient_init "prod" (10 ^ 4300) 1 60 2) "vpc/list-vpcs.bru"
       = Some (Raise str_digits_error, st')).
Proof.
  split; [|split; [|split]].
  - eexists; eexists. split; vm_compute; reflexivity.
  - eexists; eexists. split; vm_compute; reflexivity.
  - eexists; eexists. split; vm_compute; reflexivity.
  - set (big := 10 ^ 4300).
    assert (Hbig : 0 <= big) by (apply Z.pow_nonneg; lia).
    set (c := BrunoClient_init "prod" big 1 60 2).
    destruct (Retry.authenticate nat request_down_now request_down_run false
                (mkState c O [])) as [r0 st0] eqn:Ha.
    assert (Hst0 : r0 = Ok tt /\ self st0 = with_token c 1)
      by (unfold Retry.authenticate in Ha; cbn in Ha; injection Ha as <- <-; now split).
    destruct Hst0 as [-> Hself].
    assert (Hc : same_config c (self st0))
      by (rewrite Hself; apply same_config_with_token, same_config_refl).
    destruct (retry_loop_transport_failures nat request_down_now request_down_run
                toy_loads request_down_sleep c "vpc/list-vpcs.bru"
                ltac:(intros w; eexists; eexists; eexists; reflexivity)
                (Z.to_nat big) 0 1%float st0 Hc)
      as (msg & st' & evs & Hloop & _).
    + exact Hbig.
    + change (max_retries c) with big. f_equal; lia.
    + intros k w _. exists w. unfold request_down_sleep, sleep_in_place. f_equal.
      destruct k as [|[|[|[|[|[|k]]]]]]; [vm_compute; reflexivity..|].
      change (delay_seq c 1 (S (S (S (S (S (S k)))))))
        with (delay_seq c 60 k).
      rewrite delay_seq_fixed by (vm_compute; reflexivity).
      vm_compute. reflexivity.
    + exists st'. unfold run_request_down, Retry.request_with_retry. rewrite Ha.
      destruct Hc as (_ & -> & -> & _).
      change (max_retries c) with big. change (initial_retry_delay c) with 1%float.
      replace (Z.to_nat (big + 1)) with (S (Z.to_nat big)) by lia.
      rewrite Hloop. unfold exhausted_error.
      rewrite unprintable; [reflexivity|].
      change (big <= Z.abs big). lia.
Qed.

(** The example of the specification: initial 1, factor 2, maximum 60. *)
Example delays_1_2_60 :
  (fun p => slept (log (snd p)))
    <$> run_request_down (BrunoClient_init "prod" 8 1 60 2) "vpc/list-vpcs.bru"
  = Some [1; 2; 4; 8; 16; 32; 60; 60]%float.
Proof. vm_compute. reflexivity. Qed.

(** Rounding: with initial 0.1 and factor 3 the third delay is not the
    product [0.1 * 3.0 ** 2]. *)
Example delays_rounded :
  (fun p => slept (log (snd p)))
    <$> run_request_down (BrunoClient_init "prod" 3 0.1 60 3) "vpc/list-vpcs.bru"
  = Some [0.1; 0.30000000000000004; 0.9000000000000001]%float.
Proof. vm_compute. reflexivity. Qed.

(** C3 at [initial_retry_delay = 100.0], [backoff_factor = 2.0],
    [max_retry_delay = 60.0] and a request that fails every time: the
    delay slept after the first failed attempt (attempt 0) is 100 seconds,
    where [min(initial_delay * backoff_factor^0, max_delay)] is 60. *)
Theorem first_delay_is_not_capped :
  let c := BrunoClient_init "prod" 2 100 60 2 in
  exists r st',
    run_request_down c "vpc/list-vpcs.bru" = Some (r, st') /\
    slept (log st') !! 0%nat = Some 100%float /\
    specified_delay c 0 = 60%float.
Proof.
  eexists; eexists. split; [vm_compute; reflexivity|].
  split; vm_compute; reflexivity.
Qed.

(** C9 at the same input: the delays slept are 100 then 60 seconds; the
    first is above [max_retry_delay] and the second is smaller than the
    first. *)
Theorem delays_exceed_maximum_then_decrease :
  let c := BrunoClient_init "prod" 2 100 60 2 in
  exists r st',
    run_request_down c "vpc/list-vpcs.bru" = Some (r, st') /\
    slept (log st') = [100; 60]%float /\
    (100 <=? max_retry_delay c)%float = false /\
    (100 <=? 60)%float = false.
Proof.
  eexists; eexists. split; [vm_compute; reflexivity|].
  repeat split; vm_compute; reflexivity.
Qed.

(** With a factor below 1 the delays decrease as well: 4 then 2. *)
Example delays_4_half_60 :
  (fun p => slept (log (snd p)))
    <$> run_request_down (BrunoClient_init "prod" 2 4 60 0.5) "vpc/list-vpcs.bru"
  = Some [4; 2]%float.
Proof. vm_compute. reflexivity. Qed.

Lemma authentication_refreshed_at_most_once_witness :
  exists st',
    run_scripted client_3_1_60_2 "vpc/list-vpcs.bru" twice_unauthorized
      = Some (Raise (AuthenticationError "still expired"), st') /\
    length (forced_refreshes (log st')) = 1%nat.
Proof.
  destruct (run_scripted client_3_1_60_2 "vpc/list-vpcs.bru" twice_unauthorized)
    as [[r st']|] eqn:Hrun; [|discriminate Hrun].
  destruct (authentication_refreshed_at_most_once script scripted_now scripted_run
              toy_loads scripted_sleep
              (mkState client_3_1_60_2 twice_unauthorized []) "vpc/list-vpcs.bru"
              r st' (log st') Hrun eq_refl) as [_ Htwice].
  destruct (Htwice 0%nat "expired" "still expired") as (_ & -> & _ & _ & Hone).
  - vm_compute in Hrun. injection Hrun as _ <-. reflexivity.
  - vm_compute in Hrun. injection Hrun as _ <-. reflexivity.
  - exists st'. split; [reflexivity|exact Hone].
Defined.

End RetryFacts.

(** * Properties of the paginator *)

Module PaginationFacts.
Import Py Pagination.
Local Open Scope py_scope.

(** The display loop goes through a list of objects. *)
Lemma display_vpcs_dicts items :
  forallb is_dict items = true -> display_vpcs items = Ok tt.
Proof.
  induction items as [|v items IH]; [reflexivity|]. cbn [forallb].
  intros [Hv Hitems]%andb_prop. destruct v; try discriminate Hv. cbn. now apply IH.
Qed.

(** A response without continuation yields no cursor. *)
Lemma no_continuation_cursor response :
  no_continuation response -> get_pagination_cursor response = Ok None.
Proof.
  intros [m Hnext|m Hnext|m next_link Hnext Hhref|m next_link href Hnext Hhref Hstart];
    unfold get_pagination_cursor; cbn; rewrite Hnext; cbn.
  - reflexivity.
  - reflexivity.
  - destruct (map_to_list next_link); [reflexivity|]. cbn. now rewrite Hhref.
  - destruct (map_to_list next_link); [reflexivity|]. cbn. rewrite Hhref. cbn.
    destruct (String.eqb href ""); [reflexivity|]. cbn. now rewrite Hstart.
Qed.

Section WithWorld.
Variable World : Type.
Variable subprocess_run : list string -> World -> result string * World.
Variable json_loads : string -> string + json.

Local Abbreviation state := (Pagination.state World).
Local Abbreviation page := (Pagination.page World subprocess_run json_loads).
Local Abbreviation paginate_loop := (Pagination.paginate_loop World subprocess_run json_loads).
Local Abbreviation paginate_list_vpcs :=
  (Pagination.paginate_list_vpcs World subprocess_run json_loads).

(** A pass ends the loop without a request when the limit is reached;
    otherwise it makes exactly one request, and goes on only with
    [page_num + 1]. *)
Lemma page_events max_pages all_vpcs page_num cursor (st : state) r st' :
  page max_pages all_vpcs page_num cursor st = (r, st') ->
  if limit_reached max_pages page_num
  then r = Ok (Break all_vpcs) /\ st' = st
  else exists o, log st' = log st ++ [EvFetch list_vpcs_cmd o] /\
       match r with
       | Ok (Continue _ page_num' _) => page_num' = page_num + 1
       | _ => True
       end.
Proof.
  cbv beta iota zeta delta [Pagination.page bind catch ret raise
                              Pagination.run_bruno_request].
  fold list_vpcs_cmd.
  destruct (limit_reached max_pages page_num).
  - now intros [= <- <-].
  - destruct (subprocess_run list_vpcs_cmd (world st)) as [[out|e] w1].
    + destruct (json_loads out) as [msg|response]; cbn -[list_vpcs_cmd].
      * intros [= <- <-]. cbn. eauto.
      * destruct (collect_page all_vpcs response) as [all'|e];
          [|intros [= <- <-]; cbn; eauto].
        destruct (get_pagination_cursor response) as [c|e];
          [|intros [= <- <-]; cbn; eauto].
        destruct (negb (truthy_cursor c)); intros [= <- <-]; cbn; eauto.
    + destruct e; cbn -[list_vpcs_cmd]; intros [= <- <-]; cbn; eauto.
Qed.

Lemma limit_reached_spec k page_num :
  limit_reached (Some k) page_num = true <-> k <> 0 /\ k < page_num.
Proof.
  unfold limit_reached, truthy_int.
  destruct (Z.eqb_spec k 0), (Z.gtb_spec page_num k); cbn; split;
    (discriminate || lia || intuition lia).
Qed.

(** With a page limit [k <> 0], a loop entered at [page_num] makes at most
    [k + 1 - page_num] requests. *)
Lemma paginate_loop_bound k fuel :
  k <> 0 ->
  forall all_vpcs page_num cursor (st : state) r st',
  paginate_loop fuel (Some k) all_vpcs page_num cursor st = Some (r, st') ->
  exists evs, log st' = log st ++ evs /\
              (length evs <= Z.to_nat (k + 1 - page_num))%nat.
Proof.
  intros Hk. induction fuel as [|fuel IH]; intros all_vpcs page_num cursor st r st';
    [discriminate|]. cbn [Pagination.paginate_loop].
  destruct (page (Some k) all_vpcs page_num cursor st) as [r1 st1] eqn:Hpage.
  apply page_events in Hpage.
  destruct (limit_reached (Some k) page_num) eqn:Hlim.
  - destruct Hpage as [-> ->]. intros [= <- <-].
    exists []. rewrite app_nil_r. split; [reflexivity|cbn; lia].
  - assert (page_num <= k).
    { destruct (Z.le_gt_cases page_num k); [assumption|].
      assert (limit_reached (Some k) page_num = true) by (apply limit_reached_spec; lia).
      congruence. }
    destruct Hpage as (o & Hlog & Hr).
    destruct r1 as [[all'|all' page_num' cursor']|e].
    + intros [= <- <-]. eexists; split; [exact Hlog|]. cbn. lia.
    + subst page_num'. intros Hloop.
      destruct (IH _ _ _ _ _ _ Hloop) as (evs & Hlog' & Hlen).
      exists (EvFetch list_vpcs_cmd o :: evs).
      rewrite Hlog', Hlog, <- app_assoc. split; [reflexivity|]. cbn. lia.
    + intros [= <- <-]. eexists; split; [exact Hlog|]. cbn. lia.
Qed.

(** With a page limit [k <> 0] the loop stops: [k + 2 - page_num] passes
    are enough. *)
Lemma paginate_loop_returns k fuel :
  k <> 0 ->
  forall all_vpcs page_num cursor (st : state),
  (Z.to_nat (k + 1 - page_num) < fuel)%nat ->
  exists r st', paginate_loop fuel (Some k) all_vpcs page_num cursor st = Some (r, st').
Proof.
  intros Hk. induction fuel as [|fuel IH]; intros all_vpcs page_num cursor st Hfuel;
    [lia|]. cbn [Pagination.paginate_loop].
  destruct (page (Some k) all_vpcs page_num cursor st) as [r1 st1] eqn:Hpage.
  apply page_events in Hpage.
  destruct (limit_reached (Some k) page_num) eqn:Hlim.
  - destruct Hpage as [-> ->]. eauto.
  - assert (page_num <= k).
    { destruct (Z.le_gt_cases page_num k); [assumption|].
      assert (limit_reached (Some k) page_num = true) by (apply limit_reached_spec; lia).
      congruence. }
    destruct Hpage as (o & Hlog & Hr).
    destruct r1 as [[all'|all' page_num' cursor']|e]; eauto.
    subst page_num'. apply IH. lia.
Qed.

(** A pass that fetches a response without continuation ends the loop,
    whatever the response holds otherwise. *)
Lemma page_no_continuation max_pages all_vpcs page_num cursor (st : state)
    stdout w' response :
  limit_reached max_pages page_num = false ->
  subprocess_run list_vpcs_cmd (world st) = (Ok stdout, w') ->
  json_loads stdout = inr response ->
  get_pagination_cursor response = Ok None ->
  page max_pages all_vpcs page_num cursor st =
    (match collect_page all_vpcs response with
     | Ok all_vpcs' => Ok (Break all_vpcs')
     | Raise e => Raise e
     end,
     mkState w' (log st ++ [EvFetch list_vpcs_cmd None])).
Proof.
  intros Hlim Hrun Hjson Hcur.
  cbv beta iota zeta delta [Pagination.page bind catch ret raise
                              Pagination.run_bruno_request].
  fold list_vpcs_cmd. rewrite Hlim, Hrun, Hjson. cbn -[list_vpcs_cmd].
  destruct (collect_page all_vpcs response); [|reflexivity].
  now rewrite Hcur.
Qed.

(** ** The claims about the paginator *)

(** A positive page limit is kept: for every [k >= 1], pagination called
    with [max_pages = k] returns, and it fetches at most [k] pages,
    whatever the responses are (so also when every one of them carries a
    continuation cursor). *)
Lemma positive_max_pages_bounds_fetches limit k (st : state) :
  1 <= k ->
  (exists r st',
     paginate_list_vpcs (S (Z.to_nat k)) limit (Some k) st = Some (r, st')) /\
  (forall fuel r st',
     paginate_list_vpcs fuel limit (Some k) st = Some (r, st') ->
     exists evs, log st' = log st ++ evs /\ (length evs <= Z.to_nat k)%nat).
Proof.
  intros Hk. unfold Pagination.paginate_list_vpcs. split.
  - apply paginate_loop_returns; lia.
  - intros fuel r st' Hrun.
    destruct (paginate_loop_bound k fuel ltac:(lia) _ _ _ _ _ _ Hrun) as (evs & Hlog & Hlen).
    exists evs. split; [exact Hlog|]. replace (k + 1 - 1) with k in Hlen by lia. exact Hlen.
Qed.

(** C7. If the response fetched by a pass of the pagination loop yields no
    continuation cursor (no ["next"] object, no ["href"] field, or no
    ["start="] in the href), the loop ends with that pass: the call returns
    (or raises, on a malformed page) what [collect_page] made of the pages
    so far, and no further request is made.  Neither [limit] nor the number
    of items of the page takes part. *)
Theorem no_cursor_ends_pagination fuel max_pages all_vpcs page_num cursor (st : state)
    stdout w' response :
  limit_reached max_pages page_num = false ->
  subprocess_run list_vpcs_cmd (world st) = (Ok stdout, w') ->
  json_loads stdout = inr response ->
  no_continuation response ->
  paginate_loop (S fuel) max_pages all_vpcs page_num cursor st =
    Some (collect_page all_vpcs response,
          mkState w' (log st ++ [EvFetch list_vpcs_cmd None])).
Proof.
  intros Hlim Hrun Hjson Hno. cbn [Pagination.paginate_loop].
  rewrite (page_no_continuation _ _ _ _ _ _ _ _ Hlim Hrun Hjson
             (no_continuation_cursor _ Hno)).
  now destruct (collect_page all_vpcs response).
Qed.

(** The boundary case of C7: a first page that holds exactly [limit] items
    and no ["next"] object is the only page fetched. *)
Lemma full_last_page_ends_pagination fuel limit max_pages (st : state) stdout w' items :
  limit_reached max_pages 1 = false ->
  subprocess_run list_vpcs_cmd (world st) = (Ok stdout, w') ->
  json_loads stdout = inr (JDict {[ "vpcs" := JList items ]}) ->
  Z.of_nat (length items) = limit ->
  forallb is_dict items = true ->
  paginate_list_vpcs (S fuel) limit max_pages st =
    Some (Ok items, mkState w' (log st ++ [EvFetch list_vpcs_cmd None])).
Proof.
  intros Hlim Hrun Hjson _ Hdicts. unfold Pagination.paginate_list_vpcs.
  cbn [Pagination.paginate_loop].
  rewrite (page_no_continuation _ _ _ _ _ _ _ _ Hlim Hrun Hjson).
  - unfold collect_page, py_get. rewrite lookup_singleton_eq. cbn.
    now rewrite (display_vpcs_dicts _ Hdicts).
  - apply no_continuation_cursor, no_next. now rewrite lookup_singleton_ne.
Qed.

End WithWorld.

(** ** Concrete runs *)

(** With [max_pages = 0] and a cursor on every page the loop never ends:
    whatever the bound on the passes, it is reached. *)
Lemma max_pages_zero_never_stops fuel :
  forall all_vpcs page_num cursor st,
  paginate_loop unit endless_run toy_loads fuel (Some 0) all_vpcs page_num cursor st
  = None.
Proof.
  induction fuel as [|fuel IH]; intros all_vpcs page_num cursor st; [reflexivity|].
  cbn [paginate_loop].
  assert (Hpage : exists all_vpcs' st',
    page unit endless_run toy_loads (Some 0) all_vpcs page_num cursor st
    = (Ok (Continue all_vpcs' (page_num + 1) (Some "abc123")), st')).
  { cbv beta iota zeta delta [page bind catch ret raise run_bruno_request endless_run
                                limit_reached truthy_int Z.eqb negb andb].
    change (toy_loads "more") with (@inr string json page_with_cursor).
    cbv beta iota.
    assert (collect_page all_vpcs page_with_cursor = Ok (all_vpcs ++ [vpc "a"; vpc "b"]))
      as -> by reflexivity.
    assert (get_pagination_cursor page_with_cursor = Ok (Some "abc123")) as ->
      by (vm_compute; reflexivity).
    cbn. eauto. }
  destruct Hpage as (all_vpcs' & st' & ->). apply IH.
Qed.

(** With [max_pages = 2] and a cursor on every page, two pages are
    fetched. *)
Example two_pages_of_an_endless_list :
  exists r st',
    paginate_list_vpcs unit endless_run toy_loads 3 10 (Some 2) (mkState tt [])
      = Some (r, st') /\
    length (log st') = 2%nat.
Proof. eexists; eexists. split; vm_compute; reflexivity. Qed.

(** C4 at [max_pages = 0]: the limit test [max_pages and page_num >
    max_pages] is false for a limit of 0, which so counts as no limit.
    Three pages are there, the first two with a continuation cursor, and
    all three are fetched, where at most 0 are allowed. *)
Theorem max_pages_zero_fetches_every_page :
  exists st',
    run_scripted 10 2 (Some 0) ["more"; "more"; "last"]
      = Some (Ok [vpc "a"; vpc "b"; vpc "a"; vpc "b"; vpc "c"; vpc "d"], st') /\
    length (log st') = 3%nat /\
    ~ (length (log st') <= Z.to_nat 0)%nat.
Proof.
  eexists. split; [vm_compute; reflexivity|].
  split; [reflexivity|]. cbn. lia.
Qed.

Lemma no_cursor_ends_pagination_witness :
  run_scripted 1 2 None ["last"; "more"]
  = Some (Ok [vpc "c"; vpc "d"], mkState ["more"] [EvFetch list_vpcs_cmd None]).
Proof.
  apply (no_cursor_ends_pagination script scripted_run toy_loads 0 None [] 1 None
           (mkState ["last"; "more"] []) "last" ["more"] last_page).
  - reflexivity.
  - reflexivity.
  - reflexivity.
  - apply no_next. reflexivity.
Defined.

End PaginationFacts.

(** * Properties of the workflow runner *)

Module WorkflowFacts.
Import Py Workflow.
Local Open Scope py_scope.

(** ** Placeholder resolution *)

(** The loop of [_resolve_placeholders] maps [resolve_value] over the
    values. *)
Lemma resolve_placeholders_fmap r (env_vars : gmap string string) :
  _resolve_placeholders r env_vars = resolve_value r <$> env_vars.
Proof.
  unfold _resolve_placeholders.
  induction env_vars as [|key value m Hfresh Hfold IH] using map_first_key_ind.
  - now rewrite map_fold_empty, fmap_empty.
  - rewrite map_fold_insert_first_key by assumption.
    now rewrite IH, fmap_insert.
Qed.

Lemma resolve_value_captured r value :
  resolve_value r value = default value (captured value r).
Proof.
  unfold resolve_value, captured, token_id, placeholder, truthy_str.
  destruct (String.eqb_spec value "${vpc_id}") as [->|_]; cbn.
  { destruct (vpc_id r) as [id|]; cbn; [|reflexivity]. now destruct (String.eqb id ""). }
  destruct (String.eqb_spec value "${subnet_id}") as [->|_]; cbn.
  { destruct (subnet_id r) as [id|]; cbn; [|reflexivity]. now destruct (String.eqb id ""). }
  destruct (String.eqb_spec value "${sg_id}") as [->|_]; cbn.
  { destruct (sg_id r) as [id|]; cbn; [|reflexivity]. now destruct (String.eqb id ""). }
  destruct (String.eqb_spec value "${instance_id}") as [->|_]; cbn.
  { destruct (instance_id r) as [id|]; cbn; [|reflexivity]. now destruct (String.eqb id ""). }
  reflexivity.
Qed.

(** C6. Placeholder resolution is a flat substitution by equality: the
    resolved map has the keys of the step input map; under each key, an
    input that is a known placeholder token whose identifier was captured
    is replaced by that identifier, and every other input (a token whose
    identifier was not captured included) is kept as it is. *)
Theorem placeholder_resolution_is_flat r (env_vars : gmap string string) :
  dom (_resolve_placeholders r env_vars) = dom env_vars /\
  forall key value, env_vars !! key = Some value ->
    (forall id, captured value r = Some id ->
                _resolve_placeholders r env_vars !! key = Some id) /\
    (captured value r = None ->
     _resolve_placeholders r env_vars !! key = Some value).
Proof.
  rewrite resolve_placeholders_fmap. split; [apply dom_fmap_L|].
  intros key value Hkey. rewrite lookup_fmap, Hkey. cbn.
  rewrite resolve_value_captured.
  split; [intros id ->|intros ->]; reflexivity.
Qed.

(** ** Lists of steps *)

Lemma drop_cons_inv {A} (l : list A) n x l' :
  drop n l = x :: l' -> l !! n = Some x /\ drop (S n) l = l'.
Proof.
  intros H. split.
  - rewrite <- (Nat.add_0_r n), <- lookup_drop, H. reflexivity.
  - replace (S n) with (n + 1)%nat by lia. rewrite <- drop_drop, H. reflexivity.
Qed.

Lemma take_S_eq_inv {A} (l l' : list A) n :
  take (S n) l' = take (S n) l -> take n l' = take n l /\ l' !! n = l !! n.
Proof.
  intros H. split.
  - apply (f_equal (take n)) in H. rewrite !take_take in H.
    now replace (n `min` S n)%nat with n in H by lia.
  - rewrite <- (lookup_take_lt l' (S n) n), <- (lookup_take_lt l (S n) n) by lia.
    now rewrite H.
Qed.

Lemma runs_app evs evs' : runs (evs ++ evs') = runs evs ++ runs evs'.
Proof. apply omap_app. Qed.

(** A lookup that fails in one of the ways of [lookup_fails] makes the
    walk of [_extract_value] stop without a value. *)
Lemma lookup_fails_walk data keys :
  lookup_fails data keys -> extract_walk data keys = None.
Proof.
  induction 1 as [v key keys Hv|m key keys Hkey|m key v keys Hkey _ IH]; cbn.
  - now destruct v.
  - now rewrite Hkey.
  - now rewrite Hkey.
Qed.

Section WithWorld.
Variable repr : json -> string.
Variable World : Type.
Variable now : World -> Q.
Variable subprocess_run :
  list string -> gmap string string -> World -> Py.result string * World.
Variable json_loads : string -> string + json.
Variable after_sleep : Q -> World -> World.

Local Abbreviation state := (Workflow.state World).
Local Abbreviation execute_step :=
  (Workflow.execute_step repr World now subprocess_run json_loads).
Local Abbreviation execute_steps :=
  (Workflow.execute_steps repr World now subprocess_run json_loads after_sleep).
Local Abbreviation execute :=
  (Workflow.execute repr World now subprocess_run json_loads after_sleep).

(** What a call of [execute_step] leaves behind: it returns [True] or
    [False] and never raises; the step object is [Completed] or [Failed]
    accordingly; exactly one request was made; and it returns [True]
    exactly when the request returned and its output parsed. *)
Lemma execute_step_outcome idx step (st : state) r st' :
  execute_step idx step st = (r, st') ->
  let request := _resolve_placeholders (ids (self st)) (env_vars step) in
  exists b f o,
    r = Ok b /\
    steps (self st') = alter f idx (steps (self st)) /\
    (forall s, status (f s) = if b then Completed else Failed) /\
    cfg (self st') = cfg (self st) /\
    wf_status (self st') = wf_status (self st) /\
    log st' = log st ++ [EvRun (bru_file step) request o] /\
    (b = true <->
     exists stdout w response,
       subprocess_run (bruno_cmd (cfg (self st)) (bru_file step)) request (world st)
         = (Ok stdout, w) /\
       json_loads stdout = inr response) /\
    (forall s, description (f s) = description s).
Proof.
  destruct st as [w0 wd l].
  cbv beta iota zeta delta [Workflow.execute_step bind catch ret raise gets modify
    datetime_now update_step update_self Workflow._run_bruno_request
    self world log].
  cbn [cfg ids with_steps steps].
  set (request := _resolve_placeholders (ids w0) (env_vars step)).
  destruct (subprocess_run (bruno_cmd (cfg w0) (bru_file step)) request wd)
    as [[stdout|e] w1].
  - destruct (json_loads stdout) as [msg|response] eqn:Hjson.
    + intros [= <- <-]. cbn.
      exists false, (step_failed msg (now w1) ∘ step_started (now wd)), None.
      rewrite <- list_alter_alter_eq. repeat split; try reflexivity; try discriminate.
      intros (? & ? & ? & [= <- <-] & ?). congruence.
    + assert (Hok : exists stdout0 w response0,
                (Ok stdout, w1) = (Ok stdout0, w) /\ json_loads stdout0 = inr response0)
        by eauto.
      destruct (truthy_str (extract_id_key step));
        [destruct (_extract_value repr response (default "" (extract_id_key step)))
           as [id|]; [destruct (truthy_str (Some id))|]|];
        intros [= <- <-]; cbn.
      * exists true, (step_extracted id ∘ step_completed response (now w1)
                        ∘ step_started (now wd)), None.
        rewrite <- !list_alter_alter_eq. repeat split; try reflexivity; auto.
      * exists true, (step_completed response (now w1) ∘ step_started (now wd)), None.
        rewrite <- !list_alter_alter_eq. repeat split; try reflexivity; auto.
      * exists true, (step_completed response (now w1) ∘ step_started (now wd)), None.
        rewrite <- !list_alter_alter_eq. repeat split; try reflexivity; auto.
      * exists true, (step_completed response (now w1) ∘ step_started (now wd)), None.
        rewrite <- !list_alter_alter_eq. repeat split; try reflexivity; auto.
  - intros [= <- <-]. cbn.
    exists false, (step_failed match e with
                               | CalledProcessError _ stderr => stderr
                               | _ => exn_str e
                               end (now w1) ∘ step_started (now wd)), (Some e).
    rewrite <- list_alter_alter_eq. repeat split; try reflexivity; try discriminate.
    intros (? & ? & ? & [= ] & ?).
Qed.

(** One turn of the [for] loop of [execute]. *)
Lemma execute_steps_cons idx step todo (st : state) :
  execute_steps idx (step :: todo) st =
    match execute_step idx step
            (mkState (with_current_step_index (S idx) (self st)) (world st) (log st)) with
    | (Ok true, st1) =>
        execute_steps (S idx) todo
          (if (S idx <? length (steps (self st1)))%nat
           then mkState (self st1) (after_sleep 1 (world st1)) (log st1 ++ [EvSleep 1])
           else st1)
    | (Ok false, st1) =>
        let w := with_end_time (now (world st1)) (with_status WfFailed (self st1)) in
        (Ok false, mkState w (world st1) (log st1 ++ [EvSummary (make_summary w)]))
    | (Raise e, st1) => (Raise e, st1)
    end.
Proof.
  cbn [Workflow.execute_steps].
  unfold bind at 1. unfold update_self at 1, modify at 1.
  unfold bind at 1.
  destruct (execute_step idx step _) as [[[|]|e] st1]; [| |reflexivity].
  - cbv beta iota zeta delta [negb bind gets ret sleep modify].
    destruct (S idx <? length (steps (self st1)))%nat; [reflexivity|].
    now destruct st1.
  - reflexivity.
Qed.

(** The [for] loop from index [idx] on: [done] steps complete; then
    either the list is exhausted ([ok]), or the next step fails, every
    later step is left as it was, the workflow is marked failed and the
    summary is printed. *)
Lemma execute_steps_spec todo :
  forall idx (st : state) r st',
  drop idx (steps (self st)) = todo ->
  execute_steps idx todo st = (r, st') ->
  exists evs done ok,
    r = Ok ok /\ log st' = log st ++ evs /\
    length (steps (self st')) = length (steps (self st)) /\
    take idx (steps (self st')) = take idx (steps (self st)) /\
    Forall (fun s => status s = Completed) (take done (drop idx (steps (self st')))) /\
    if ok then
      done = length todo /\ runs evs = bru_file <$> todo /\
      wf_status (self st') = wf_status (self st)
    else
      (exists sf, steps (self st') !! (idx + done)%nat = Some sf /\ status sf = Failed) /\
      drop (S (idx + done)) (steps (self st')) = drop (S (idx + done)) (steps (self st)) /\
      runs evs = bru_file <$> take (S done) todo /\
      wf_status (self st') = WfFailed /\
      last (log st') = Some (EvSummary (make_summary (self st'))).
Proof.
  induction todo as [|step todo IH]; intros idx st r st' Hdrop.
  - intros [= <- <-]. exists [], 0%nat, true. rewrite app_nil_r.
    repeat split; try reflexivity. constructor.
  - apply drop_cons_inv in Hdrop as [Hidx Hdrop].
    assert (Hlt : (idx < length (steps (self st)))%nat) by (eapply lookup_lt_Some; eauto).
    rewrite execute_steps_cons.
    destruct (execute_step idx step _) as [r1 st1] eqn:Hstep.
    apply execute_step_outcome in Hstep. cbn [self world log cfg steps ids wf_status
      with_current_step_index] in Hstep.
    destruct Hstep as (b & f & o & -> & Hsteps & Hstatus & Hcfg & Hwf & Hlog & _).
    destruct b.
    + (* the step completed: the loop goes on *)
      set (st2 := if (S idx <? length (steps (self st1)))%nat
                  then mkState (self st1) (after_sleep 1 (world st1)) (log st1 ++ [EvSleep 1])
                  else st1).
      assert (Hself : self st2 = self st1) by (subst st2; now destruct (_ <? _)%nat).
      assert (Hlog2 : exists sl, log st2 = log st1 ++ sl /\ runs sl = []).
      { subst st2. destruct (_ <? _)%nat; cbn.
        - now exists [EvSleep 1].
        - exists []. now rewrite app_nil_r. }
      destruct Hlog2 as (sl & Hlog2 & Hsl).
      intros Hloop. apply IH in Hloop;
        [|rewrite Hself, Hsteps, drop_alter_lt by lia; exact Hdrop].
      destruct Hloop as (evs & done & ok & -> & Hlog' & Hlen & Htake & Hdone & Hend).
      rewrite Hself, Hsteps in Hlen, Htake. rewrite length_alter in Hlen.
      apply take_S_eq_inv in Htake as [Htake Hat].
      rewrite take_alter_ge in Htake by lia.
      rewrite list_lookup_alter_eq, Hidx in Hat. cbn in Hat.
      exists (EvRun (bru_file step)
                (_resolve_placeholders (ids (self st)) (env_vars step)) o :: sl ++ evs),
             (S done), ok.
      split; [reflexivity|].
      split; [rewrite Hlog', Hlog2, Hlog, <- !app_assoc; reflexivity|].
      split; [exact Hlen|]. split; [exact Htake|].
      split.
      { rewrite (drop_S _ _ _ Hat). cbn. constructor; [apply (Hstatus step)|exact Hdone]. }
      change (runs (?e :: sl ++ evs)) with (bru_file step :: runs (sl ++ evs)).
      rewrite runs_app, Hsl. cbn [app].
      destruct ok.
      * destruct Hend as (-> & -> & Hwf'). rewrite Hwf', Hself, Hwf. now repeat split.
      * destruct Hend as (Hsf & Hrest & -> & Hwf' & Hlast).
        rewrite Nat.add_succ_r. cbn [Nat.add] in Hsf, Hrest.
        split; [exact Hsf|].
        split; [rewrite Hrest, Hself, Hsteps, drop_alter_lt by lia; reflexivity|].
        now repeat split.
    + (* the step failed: the run ends here *)
      cbn zeta. intros [= <- <-]. cbn [self log steps with_end_time with_status wf_status].
      exists [EvRun (bru_file step)
                (_resolve_placeholders (ids (self st)) (env_vars step)) o;
              EvSummary (make_summary
                           (with_end_time (now (world st1))
                              (with_status WfFailed (self st1))))],
             0%nat, false.
      rewrite Nat.add_0_r, Hsteps, length_alter.
      rewrite take_alter_ge by lia. rewrite (drop_alter_lt _ _ (S idx)) by lia.
      rewrite list_lookup_alter_eq, Hidx.
      split; [reflexivity|].
      split; [rewrite Hlog, <- app_assoc; reflexivity|].
      repeat split; try reflexivity.
      * constructor.
      * exists (f step). split; [reflexivity|apply Hstatus].
      * now rewrite last_snoc.
Qed.

(** The shape of a run of the loop in which the step at index [i] ends
    [Failed], all steps being [Pending] at the start. *)
Lemma execute_steps_failure (st : state) i s r st' :
  Forall (fun s => status s = Pending) (steps (self st)) ->
  execute_steps 0 (steps (self st)) st = (r, st') ->
  steps (self st') !! i = Some s -> status s = Failed ->
  r = Ok false /\
  wf_status (self st') = WfFailed /\
  (exists evs, log st' = log st ++ evs /\
               runs evs = bru_file <$> take (S i) (steps (self st))) /\
  (forall j sj, steps (self st') !! j = Some sj ->
     status sj = if (j <? i)%nat then Completed
                 else if (j =? i)%nat then Failed else Pending) /\
  drop (S i) (steps (self st')) = drop (S i) (steps (self st)) /\
  last (log st') = Some (EvSummary (make_summary (self st'))).
Proof.
  intros Hpending Hrun Hi Hfailed.
  destruct (execute_steps_spec _ 0%nat _ _ _ (drop_0 _) Hrun)
    as (evs & done & ok & -> & Hlog & Hlen & _ & Hdone & Hend).
  rewrite drop_0 in Hdone.
  destruct ok.
  - destruct Hend as (-> & _). rewrite take_ge in Hdone by lia.
    rewrite Forall_lookup in Hdone. specialize (Hdone _ _ Hi). congruence.
  - rewrite Forall_lookup in Hdone, Hpending.
    cbn [Nat.add] in Hend. destruct Hend as ((sf & Hsf & Hsf') & Hrest & Hruns & Hwf & Hlast).
    assert (Hafter : forall j sj, (done < j)%nat ->
              steps (self st') !! j = Some sj -> status sj = Pending).
    { intros j sj Hj Hsj. apply (Hpending j).
      replace j with (S done + (j - S done))%nat in Hsj |- * by lia.
      now rewrite <- lookup_drop, <- Hrest, lookup_drop. }
    assert (Hbefore : forall j sj, (j < done)%nat ->
              steps (self st') !! j = Some sj -> status sj = Completed).
    { intros j sj Hj Hsj. apply (Hdone j). now rewrite lookup_take_lt. }
    assert (i = done) as ->.
    { destruct (lt_eq_lt_dec i done) as [[Hlt| ->]|Hgt]; [|reflexivity|].
      - specialize (Hbefore _ _ Hlt Hi). congruence.
      - specialize (Hafter _ _ Hgt Hi). congruence. }
    repeat split; try assumption.
    + now exists evs.
    + intros j sj Hj.
      destruct (Nat.ltb_spec j done); [now apply (Hbefore j)|].
      destruct (Nat.eqb_spec j done) as [->|]; [congruence|].
      apply (Hafter j); [lia|assumption].
Qed.

(** The loop leaves the descriptions of the steps alone. *)
Lemma fmap_alter_same {A B} (g : A -> B) (f : A -> A) i (l : list A) :
  (forall x, g (f x) = g x) -> g <$> alter f i l = g <$> l.
Proof.
  intros Hf. revert i. induction l as [|x l IH]; intros [|i]; cbn;
    try reflexivity; f_equal; auto.
Qed.

Lemma execute_steps_descriptions todo :
  forall idx (st : state) r st',
  execute_steps idx todo st = (r, st') ->
  description <$> steps (self st') = description <$> steps (self st).
Proof.
  induction todo as [|step todo IH]; intros idx st r st'.
  - now intros [= <- <-].
  - rewrite execute_steps_cons.
    destruct (execute_step idx step _) as [r1 st1] eqn:Hstep.
    apply execute_step_outcome in Hstep. cbn [self world log cfg steps ids wf_status
      with_current_step_index] in Hstep.
    destruct Hstep as (b & f & o & -> & Hsteps & _ & _ & _ & _ & _ & Hdesc).
    destruct b.
    + intros Hloop. apply IH in Hloop. rewrite Hloop.
      assert (self (if (S idx <? length (steps (self st1)))%nat
                    then mkState (self st1) (after_sleep 1 (world st1))
                           (log st1 ++ [EvSleep 1])
                    else st1) = self st1) as -> by now destruct (_ <? _)%nat.
      rewrite Hsteps. now apply fmap_alter_same.
    + cbn zeta. intros [= <- <-]. cbn [self steps with_end_time with_status].
      rewrite Hsteps. now apply fmap_alter_same.
Qed.

(** The steps counted as completed by the summary, in a list whose
    first [i] steps are completed and no other. *)
Lemma filter_completed l :
  Forall (fun s => status s = Completed) l ->
  filter (fun s => is_completed s = true) l = l.
Proof.
  induction 1 as [|s l Hs _ IH]; [reflexivity|].
  rewrite filter_cons_True by (unfold is_completed; now rewrite Hs). now rewrite IH.
Qed.

Lemma filter_not_completed l :
  Forall (fun s => status s <> Completed) l ->
  filter (fun s => is_completed s = true) l = [].
Proof.
  induction 1 as [|s l Hs _ IH]; [reflexivity|].
  rewrite filter_cons_False; [exact IH|].
  unfold is_completed. destruct (status s); congruence.
Qed.

Lemma completed_count (l : list WorkflowStep) i :
  (i < length l)%nat ->
  (forall j sj, l !! j = Some sj ->
     status sj = if (j <? i)%nat then Completed
                 else if (j =? i)%nat then Failed else Pending) ->
  length (filter (fun s => is_completed s = true) l) = i.
Proof.
  intros Hi Hstatus. rewrite <- (take_drop i l), filter_app, length_app.
  rewrite filter_completed, filter_not_completed.
  - rewrite length_take. cbn. lia.
  - apply Forall_lookup. intros j sj Hj. rewrite lookup_drop in Hj.
    rewrite (Hstatus _ _ Hj).
    destruct (Nat.ltb_spec (i + j) i); [lia|]. now destruct (i + j =? i)%nat.
  - apply Forall_lookup. intros j sj Hj.
    assert (j < i)%nat by (apply lookup_lt_Some in Hj; rewrite length_take in Hj; lia).
    rewrite lookup_take_lt in Hj by assumption. rewrite (Hstatus _ _ Hj).
    now destruct (Nat.ltb_spec j i); [|lia].
Qed.

(** ** The claims about the workflow runner *)

(** C1. Workflow failure is terminal.  For every sequence of pending
    steps and every index [i]: if step [i] fails (it ends [Failed], which
    [execute_step] makes of every exception of the request or of the
    parsing), then the loop returns [False] and the workflow is marked
    failed; the requests made are those of steps [0..i], so no step after
    [i] is executed; steps before [i] are [Completed], step [i] is
    [Failed], steps after [i] are still the [Pending] objects they were;
    and the summary printed last reports exactly that: it says the
    workflow failed, counts [i] completed steps out of all, and has one
    line for every step, in order, marked completed before [i], failed at
    [i] and not run after [i]. *)
Theorem failure_is_terminal (st : state) i s r st' :
  Forall (fun s => status s = Pending) (steps (self st)) ->
  execute_steps 0 (steps (self st)) st = (r, st') ->
  steps (self st') !! i = Some s -> status s = Failed ->
  r = Ok false /\
  wf_status (self st') = WfFailed /\
  (exists evs, log st' = log st ++ evs /\
               runs evs = bru_file <$> take (S i) (steps (self st))) /\
  (forall j sj, steps (self st') !! j = Some sj ->
     status sj = if (j <? i)%nat then Completed
                 else if (j =? i)%nat then Failed else Pending) /\
  drop (S i) (steps (self st')) = drop (S i) (steps (self st)) /\
  exists sm,
    last (log st') = Some (EvSummary sm) /\
    summary_status sm = WfFailed /\
    summary_completed sm = i /\
    summary_total sm = length (steps (self st)) /\
    length (summary_lines sm) = length (steps (self st)) /\
    forall j sj, steps (self st) !! j = Some sj ->
      exists line,
        summary_lines sm !! j = Some line /\
        line_description line = description sj /\
        line_icon line = if (j <? i)%nat then IconCompleted
                         else if (j =? i)%nat then IconFailed else IconNotRun.
Proof.
  intros Hpending Hrun Hi Hfailed.
  destruct (execute_steps_failure _ _ _ _ _ Hpending Hrun Hi Hfailed)
    as (Hr & Hwf & Hevs & Hstatus & Hrest & Hlast).
  repeat (split; [assumption|]).
  destruct (execute_steps_spec _ 0%nat _ _ _ (drop_0 _) Hrun)
    as (_ & _ & _ & _ & _ & Hlen & _).
  pose proof (execute_steps_descriptions _ _ _ _ _ Hrun) as Hdesc.
  exists (make_summary (self st')). split; [exact Hlast|]. split; [exact Hwf|].
  cbn [make_summary summary_completed summary_total summary_lines].
  split; [apply completed_count; [eapply lookup_lt_Some; eauto|exact Hstatus]|].
  split; [exact Hlen|]. split; [now rewrite length_fmap|].
  intros j sj Hj.
  assert (Hj' : exists sj', steps (self st') !! j = Some sj').
  { apply lookup_lt_is_Some. rewrite Hlen. eapply lookup_lt_Some; eauto. }
  destruct Hj' as (sj' & Hj').
  eexists. split; [rewrite list_lookup_fmap, Hj'; reflexivity|].
  cbn [line_description line_icon]. split.
  - apply (f_equal (fun l => l !! j)) in Hdesc.
    rewrite !list_lookup_fmap, Hj, Hj' in Hdesc. now injection Hdesc.
  - rewrite (Hstatus _ _ Hj').
    destruct (j <? i)%nat; [reflexivity|]. now destruct (j =? i)%nat.
Qed.

(** [execute] by cases on the two precondition checks of [_build_steps]
    and on the way the loop ends. *)
Lemma execute_eq (st : state) :
  execute st =
    let c := cfg (self st) in
    let started := with_start_time (now (world st)) (with_status WfRunning (self st)) in
    if exceeds_str_digits (subnet_ip_count c) then
      (Ok false,
       mkState (with_status WfFailed (with_steps (take 1 (network_steps c)) started))
               (world st) (log st))
    else if negb (truthy_str (image_id c)) || negb (truthy_str (ssh_key_id c)) then
      (Ok false,
       mkState (with_status WfFailed (with_steps (network_steps c) started))
               (world st) (log st))
    else
      let built :=
        with_steps (network_steps c
                      ++ [instance_step c (default "" (image_id c))
                                          (default "" (ssh_key_id c))]
                      ++ (if create_floating_ip c then [floating_ip_step c] else []))
                   started in
      match execute_steps 0 (steps built) (mkState built (world st) (log st)) with
      | (Ok true, st1) =>
          let w := with_end_time (now (world st1)) (with_status WfCompleted (self st1)) in
          (Ok true, mkState w (world st1) (log st1 ++ [EvSummary (make_summary w)]))
      | (Ok false, st1) => (Ok false, st1)
      | (Raise e, st1) => (Raise e, st1)
      end.
Proof.
  destruct st as [w0 wd l].
  cbv beta iota zeta delta [Workflow.execute Workflow._build_steps bind catch ret raise
    gets modify datetime_now update_self _print_summary emit self world log
    lift py_str_int str_digits_error].
  cbn [cfg with_status with_start_time with_steps steps].
  destruct (exceeds_str_digits (subnet_ip_count (cfg w0))); [reflexivity|].
  destruct (truthy_str (image_id (cfg w0))); cbn [negb orb]; [|reflexivity].
  destruct (truthy_str (ssh_key_id (cfg w0))); cbn [negb orb]; [|reflexivity].
  destruct (create_floating_ip (cfg w0));
    cbn -[Workflow.execute_steps network_steps instance_step floating_ip_step
          make_summary];
    rewrite <- ?app_assoc, ?app_nil_r; cbn [app];
    unfold with_steps, with_start_time, with_status;
    cbn [cfg steps current_step_index wf_status workflow_start_time
         workflow_end_time ids];
    match goal with
    | |- context [Workflow.execute_steps ?a ?b ?c ?d ?e ?f ?g ?h ?i] =>
        destruct (Workflow.execute_steps a b c d e f g h i) as [[[|]|e1] st1]
    end; reflexivity.
Qed.



(** C5. If [image_id] or [ssh_key_id] is absent from the configuration
    ([None], or the empty string), building the steps fails: [execute]
    returns [False] with the workflow marked failed, and no step is run:
    the log of effects and the world are as they were (no request, no
    sleep, no summary) and every step built so far is [Pending]. *)
Theorem missing_identifier_fails_before_any_step (st : state) :
  truthy_str (image_id (cfg (self st))) = false \/
  truthy_str (ssh_key_id (cfg (self st))) = false ->
  exists st',
    execute st = (Ok false, st') /\
    wf_status (self st') = WfFailed /\
    log st' = log st /\ world st' = world st /\
    Forall (fun s => status s = Pending) (steps (self st')).
Proof.
  intros Hmissing. rewrite execute_eq. cbn zeta.
  assert (negb (truthy_str (image_id (cfg (self st))))
          || negb (truthy_str (ssh_key_id (cfg (self st)))) = true) as ->
    by (destruct Hmissing as [-> | ->]; [reflexivity|apply orb_true_r]).
  destruct (exceeds_str_digits _);
    (eexists; split; [reflexivity|]; cbn; repeat split; repeat constructor).
Qed.

(** A step whose request returns, whose output parses and whose
    identifier lookup finds nothing. *)
Lemma execute_step_without_identifier idx step (st : state) key stdout w' response :
  extract_id_key step = Some key ->
  _extract_value repr response key = None ->
  subprocess_run (bruno_cmd (cfg (self st)) (bru_file step))
    (_resolve_placeholders (ids (self st)) (env_vars step)) (world st) = (Ok stdout, w') ->
  json_loads stdout = inr response ->
  execute_step idx step st =
    (Ok true,
     mkState (with_steps (alter (step_completed response (now w')
                                   ∘ step_started (now (world st))) idx
                            (steps (self st))) (self st))
             w'
             (log st ++ [EvRun (bru_file step)
                           (_resolve_placeholders (ids (self st)) (env_vars step)) None])).
Proof.
  intros Hkey Hnone Hrun Hjson. destruct st as [w0 wd l].
  cbv beta iota zeta delta [Workflow.execute_step bind catch ret raise gets modify
    datetime_now update_step update_self Workflow._run_bruno_request
    self world log].
  cbn [cfg ids with_steps steps self world log] in *.
  rewrite Hrun, Hjson, Hkey. change (default "" (Some key)) with key. rewrite Hnone.
  destruct (truthy_str (Some key)); cbn [with_steps steps];
    now rewrite list_alter_alter_eq.
Qed.

(** C10. A failed identifier extraction is not a step failure.  For a
    step whose request returns and whose output parses: if the dot-path
    lookup of its [extract_id_key] finds no value (a key of the path is
    missing, or a value on the way is not a mapping), then
    [_extract_value] yields [None]; [execute_step] returns [True], leaves
    the step [Completed] with the response stored and its extracted
    identifier still [None], and files no identifier; and the loop goes
    on with the next step. *)
Theorem extraction_failure_is_not_step_failure idx step todo (st : state)
    key stdout w' response :
  steps (self st) !! idx = Some step ->
  extracted_id step = None ->
  extract_id_key step = Some key ->
  lookup_fails response (split "." key) ->
  subprocess_run (bruno_cmd (cfg (self st)) (bru_file step))
    (_resolve_placeholders (ids (self st)) (env_vars step)) (world st) = (Ok stdout, w') ->
  json_loads stdout = inr response ->
  _extract_value repr response key = None /\
  exists st1 step',
    execute_step idx step st = (Ok true, st1) /\
    steps (self st1) !! idx = Some step' /\
    status step' = Completed /\ extracted_id step' = None /\
    result step' = Some response /\
    ids (self st1) = ids (self st) /\
    exists st2,
      execute_steps idx (step :: todo) st = execute_steps (S idx) todo st2 /\
      steps (self st2) = steps (self st1) /\ ids (self st2) = ids (self st) /\
      wf_status (self st2) = wf_status (self st).
Proof.
  intros Hidx Hfresh Hkey Hfails Hrun Hjson.
  assert (Hnone : _extract_value repr response key = None)
    by (unfold _extract_value; now rewrite (lookup_fails_walk _ _ Hfails)).
  split; [exact Hnone|].
  assert (Hloop : exists st2,
    execute_steps idx (step :: todo) st = execute_steps (S idx) todo st2 /\
    steps (self st2)
      = alter (step_completed response (now w') ∘ step_started (now (world st))) idx
          (steps (self st)) /\
    ids (self st2) = ids (self st) /\ wf_status (self st2) = wf_status (self st)).
  { rewrite execute_steps_cons.
    erewrite execute_step_without_identifier; cbn [self world log cfg ids]; eauto.
    eexists. split; [reflexivity|].
    destruct (_ <? _)%nat; cbn [self steps with_steps ids wf_status
                                with_current_step_index]; now repeat split. }
  eexists; eexists. split; [eapply execute_step_without_identifier; eassumption|].
  cbn [self steps with_steps ids]. rewrite list_lookup_alter_eq, Hidx.
  split; [reflexivity|]. cbn [step_completed step_started compose status extracted_id
                              result].
  repeat (split; [reflexivity || assumption|]).
  exact Hloop.
Qed.

(** The steps [_build_steps] makes are all [Pending]. *)
Lemma built_steps_pending c image ssh_key :
  Forall (fun s => status s = Pending)
    (network_steps c ++ [instance_step c image ssh_key]
       ++ (if create_floating_ip c then [floating_ip_step c] else [])).
Proof. destruct (create_floating_ip c); repeat constructor. Qed.

(** C1 for [execute] itself, whose step sequence is the one
    [_build_steps] makes: a step that ends [Failed] is the last one run. *)
Theorem execute_stops_at_first_failure (st : state) i s r st' :
  execute st = (r, st') ->
  steps (self st') !! i = Some s -> status s = Failed ->
  r = Ok false /\
  wf_status (self st') = WfFailed /\
  (exists evs, log st' = log st ++ evs /\ length (runs evs) = S i) /\
  (forall j sj, steps (self st') !! j = Some sj ->
     status sj = if (j <? i)%nat then Completed
                 else if (j =? i)%nat then Failed else Pending).
Proof.
  rewrite execute_eq. cbn zeta.
  destruct (exceeds_str_digits _); [|destruct (negb _ || negb _)].
  - intros [= <- <-] Hi Hfailed. cbn [self steps with_status with_steps] in Hi.
    apply list_elem_of_lookup_2 in Hi. cbn in Hi.
    repeat (apply elem_of_cons in Hi as [->|Hi]; [discriminate Hfailed|]).
    now apply elem_of_nil in Hi.
  - intros [= <- <-] Hi Hfailed. cbn [self steps with_status with_steps] in Hi.
    apply list_elem_of_lookup_2 in Hi.
    repeat (apply elem_of_cons in Hi as [->|Hi]; [discriminate Hfailed|]).
    now apply elem_of_nil in Hi.
  - set (built := with_steps _ _).
    destruct (Workflow.execute_steps _ _ _ _ _ _ _ _ _) as [r1 st1] eqn:Hloop.
    intros Hrun Hi Hfailed.
    assert (Hsteps : steps (self st') = steps (self st1))
      by (destruct r1 as [[|]|e]; injection Hrun as _ <-; reflexivity).
    rewrite Hsteps in Hi.
    assert (Hpending : Forall (fun s => status s = Pending)
                         (steps (self (mkState built (world st) (log st)))))
      by apply built_steps_pending.
    destruct (execute_steps_failure _ _ _ _ _ Hpending Hloop Hi Hfailed)
      as (-> & Hwf & (evs & Hlog & Hruns) & Hstatus & _ & _).
    injection Hrun as <- <-.
    repeat split; try assumption.
    exists evs. split; [exact Hlog|].
    rewrite Hruns, length_fmap, length_take.
    apply lookup_lt_Some in Hi.
    destruct (execute_steps_spec _ 0%nat (mkState built (world st) (log st)) _ _
                (drop_0 _) Hloop)
      as (_ & _ & _ & _ & _ & Hlen & _).
    cbn [self] in Hlen |- *. lia.
Qed.

End WithWorld.

(** ** Concrete runs *)

(** The example of the specification: step 3 of the 9-step sequence
    fails. *)
Example third_step_of_nine_fails :
  let (r, st') := run_scripted (demo_config (Some "r006-image") (Some "r006-key"))
                    third_request_fails in
  r = Ok false /\
  status <$> steps (self st')
    = [Completed; Completed; Failed; Pending; Pending; Pending; Pending; Pending; Pending] /\
  runs (log st') = ["vpc/create-vpc.bru"; "vpc/subnets/create-subnet.bru";
                    "vpc/security-groups/create-security-group.bru"].
Proof. vm_compute. repeat split. Qed.

Lemma failure_is_terminal_witness :
  exists st',
    run_steps_scripted demo_built third_request_fails = (Ok false, st') /\
    wf_status (self st') = WfFailed /\
    drop 3 (steps (self st')) = drop 3 (steps demo_built).
Proof.
  destruct (run_steps_scripted demo_built third_request_fails) as [r st'] eqn:Hrun.
  assert (Hthird : exists s, steps (self st') !! 2%nat = Some s /\ status s = Failed).
  { vm_compute in Hrun. injection Hrun as _ <-. eexists. split; reflexivity. }
  destruct Hthird as (s & Hs & Hfailed).
  destruct (failure_is_terminal toy_repr script scripted_now scripted_run toy_loads
              scripted_sleep (mkState demo_built third_request_fails []) 2%nat s r st')
    as (-> & Hwf & _ & _ & Hrest & _).
  - repeat constructor.
  - exact Hrun.
  - exact Hs.
  - exact Hfailed.
  - exists st'. repeat split; assumption.
Defined.

Lemma missing_identifier_fails_before_any_step_witness :
  exists st',
    run_scripted (demo_config (Some "r006-image") None) third_request_fails
      = (Ok false, st') /\
    wf_status (self st') = WfFailed /\
    log st' = [] /\ world st' = third_request_fails /\
    Forall (fun s => status s = Pending) (steps (self st')).
Proof.
  apply (missing_identifier_fails_before_any_step toy_repr script scripted_now
           scripted_run toy_loads scripted_sleep
           (mkState (VPCWorkflow_init (demo_config (Some "r006-image") None))
                    third_request_fails [])).
  right. reflexivity.
Defined.

Lemma placeholder_resolution_is_flat_witness :
  let r := mkResources (Some "r006-vpc") None None None None None in
  let env_vars : gmap string string :=
    <["SUBNET_ID" := "${subnet_id}"]> (<["VPC_ID" := "${vpc_id}"]> ∅) in
  _resolve_placeholders r env_vars !! "VPC_ID" = Some "r006-vpc" /\
  _resolve_placeholders r env_vars !! "SUBNET_ID" = Some "${subnet_id}".
Proof.
  intros r env_vars.
  destruct (placeholder_resolution_is_flat r env_vars) as [_ Hres].
  split.
  - apply (Hres "VPC_ID" "${vpc_id}"); reflexivity.
  - apply (Hres "SUBNET_ID" "${subnet_id}"); reflexivity.
Defined.

(** The floating-IP request answered by [{}]: no ["id"] to extract. *)
Lemma extraction_failure_is_not_step_failure_witness :
  let st := mkState demo_built [Ok "{}"] [] in
  exists st1 step',
    execute_step toy_repr script scripted_now scripted_run toy_loads 8
      (floating_ip_step (cfg demo_built)) st = (Ok true, st1) /\
    steps (self st1) !! 8%nat = Some step' /\
    status step' = Completed /\ extracted_id step' = None.
Proof.
  intros st.
  destruct (extraction_failure_is_not_step_failure toy_repr script scripted_now
              scripted_run toy_loads scripted_sleep 8 (floating_ip_step (cfg demo_built))
              [] st "id" "{}" [] (JDict ∅))
    as (_ & st1 & step' & Hstep & Hat & Hstatus & Hid & _).
  - reflexivity.
  - reflexivity.
  - reflexivity.
  - apply lookup_key_missing. reflexivity.
  - reflexivity.
  - reflexivity.
  - exists st1, step'. repeat split; assumption.
Defined.

End WorkflowFacts.

(** * Properties of [str.split] and [in] *)

Module StringFacts.
Import Py.
Local Open Scope string_scope.

Lemma append_cons c s t : String c s ++ t = String c (s ++ t).
Proof. reflexivity. Qed.

Lemma append_nil_l s : "" ++ s = s.
Proof. reflexivity. Qed.

Lemma append_nil_r s : s ++ "" = s.
Proof.
  induction s as [|c s IH]; [reflexivity|]. now rewrite append_cons, IH.
Qed.

Lemma append_assoc s1 s2 s3 : (s1 ++ s2) ++ s3 = s1 ++ (s2 ++ s3).
Proof.
  induction s1 as [|c s1 IH]; [reflexivity|]. now rewrite !append_cons, IH.
Qed.

Lemma prefix_append sep tail : String.prefix sep (sep ++ tail) = true.
Proof.
  induction sep as [|a sep IH]; [now destruct tail|].
  rewrite append_cons. cbn [String.prefix].
  destruct (ascii_dec a a); [exact IH|congruence].
Qed.

Lemma contains_prefix sub s : String.prefix sub s = true -> contains sub s = true.
Proof. intros H. destruct s; cbn [contains]; rewrite H; reflexivity. Qed.

(** An occurrence anywhere is found. *)
Lemma contains_append pre sub tail : contains sub (pre ++ sub ++ tail) = true.
Proof.
  induction pre as [|c pre IH].
  - rewrite append_nil_l. apply contains_prefix, prefix_append.
  - rewrite append_cons. cbn [contains]. rewrite IH. apply orb_true_r.
Qed.

(** No occurrence in a text means none at the head of any of its
    suffixes. *)
Lemma contains_false_suffix sub p1 s :
  contains sub (p1 ++ s) = false -> String.prefix sub s = false.
Proof.
  induction p1 as [|c p1 IH].
  - rewrite append_nil_l. destruct s; cbn [contains]; intros H;
      now apply orb_false_elim in H.
  - rewrite append_cons. cbn [contains]. intros H. apply orb_false_elim in H.
    now apply IH.
Qed.

(** The characters of a separator occurrence are dropped. *)
Lemma split_go_skip sep x : forall cur s,
  split_go sep (String.length x) cur (x ++ s) = split_go sep 0 cur s.
Proof.
  induction x as [|c x IH]; intros cur s; [reflexivity|].
  rewrite append_cons. cbn [String.length split_go]. apply IH.
Qed.

(** Characters at which no occurrence of the separator begins go to the
    piece being collected. *)
Lemma split_go_through sep s tok : forall cur,
  (forall p1 c p2, tok = p1 ++ String c p2 ->
     String.prefix sep (String c p2 ++ s) = false) ->
  split_go sep 0 cur (tok ++ s) = split_go sep 0 (cur ++ tok) s.
Proof.
  induction tok as [|c tok IH]; intros cur Hnone.
  - now rewrite append_nil_r, append_nil_l.
  - rewrite append_cons. cbn [split_go]. rewrite <- append_cons.
    rewrite (Hnone "" c tok eq_refl). rewrite IH.
    + now rewrite append_assoc, append_cons.
    + intros p1 c' p2 ->. apply (Hnone (String c p1) c' p2). reflexivity.
Qed.

(** Up to the first occurrence of the separator the text is one piece. *)
Lemma split_go_first sep tail pre cur :
  sep <> "" ->
  (forall p1 c p2, pre = p1 ++ String c p2 ->
     String.prefix sep (String c p2 ++ sep ++ tail) = false) ->
  split_go sep 0 cur (pre ++ sep ++ tail) = (cur ++ pre) :: split_go sep 0 "" tail.
Proof.
  intros Hsep Hfirst. rewrite split_go_through by exact Hfirst.
  destruct sep as [|a sep]; [congruence|].
  rewrite append_cons. cbn [split_go]. rewrite <- append_cons.
  rewrite prefix_append. cbn [String.length Nat.pred]. now rewrite split_go_skip.
Qed.

(** A text without the separator is one piece. *)
Lemma split_go_none sep s cur :
  (forall p1 c p2, s = p1 ++ String c p2 -> String.prefix sep (String c p2) = false) ->
  split_go sep 0 cur s = [cur ++ s].
Proof.
  intros Hnone. rewrite <- (append_nil_r s) at 1. rewrite split_go_through.
  - reflexivity.
  - intros p1 c p2 Hs. rewrite append_nil_r. eauto.
Qed.

(** The first piece starts with what was collected so far. *)
Lemma split_go_head sep s : forall skip cur,
  exists piece l, split_go sep skip cur s = (cur ++ piece) :: l.
Proof.
  induction s as [|c s IH]; intros skip cur.
  - exists "", []. now rewrite append_nil_r.
  - cbn [split_go]. destruct skip as [|k]; [|apply IH].
    destruct (String.prefix sep (String c s)).
    + exists "". eexists. now rewrite append_nil_r.
    + destruct (IH 0%nat (cur ++ String c "")) as (piece & l & ->).
      exists (String c piece), l. now rewrite append_assoc, append_cons.
Qed.

(** A one-character separator that does not head a text does not head any
    extension of it. *)
Lemma prefix_char_append a c p t :
  String.prefix (String a "") (String c p) = false ->
  String.prefix (String a "") (String c p ++ t) = false.
Proof.
  rewrite append_cons. cbn [String.prefix].
  destruct (ascii_dec a c); [|reflexivity]. now destruct p.
Qed.

(** Six characters decide whether a text starts with ["start="]: when the
    text is a non-empty [p] followed by ["start="], they lie in [p]
    followed by ["start"]... *)
Lemma prefix_start_window c p tail :
  String.prefix "start=" (String c p ++ "start") = false ->
  String.prefix "start=" (String c p ++ "start=" ++ tail) = false.
Proof.
  rewrite !append_cons. cbn [String.prefix].
  destruct (ascii_dec "s" c); [|reflexivity].
  destruct p as [|c2 p]; [reflexivity|]. rewrite !append_cons. cbn [String.prefix].
  destruct (ascii_dec "t" c2); [|reflexivity].
  destruct p as [|c3 p]; [reflexivity|]. rewrite !append_cons. cbn [String.prefix].
  destruct (ascii_dec "a" c3); [|reflexivity].
  destruct p as [|c4 p]; [reflexivity|]. rewrite !append_cons. cbn [String.prefix].
  destruct (ascii_dec "r" c4); [|reflexivity].
  destruct p as [|c5 p]; [reflexivity|]. rewrite !append_cons. cbn [String.prefix].
  destruct (ascii_dec "t" c5); [|reflexivity].
  destruct p as [|c6 p]; [reflexivity|]. rewrite !append_cons. cbn [String.prefix].
  destruct (ascii_dec "=" c6); [|reflexivity].
  now destruct p.
Qed.

(** ... and when ["&"] follows [p], in [p] itself: no occurrence of
    ["start="] runs over an ["&"]. *)
Lemma prefix_start_amp c p tail :
  String.prefix "start=" (String c p) = false ->
  String.prefix "start=" (String c p ++ "&" ++ tail) = false.
Proof.
  rewrite !append_cons. cbn [String.prefix].
  destruct (ascii_dec "s" c); [|reflexivity].
  destruct p as [|c2 p]; [reflexivity|]. rewrite !append_cons. cbn [String.prefix].
  destruct (ascii_dec "t" c2); [|reflexivity].
  destruct p as [|c3 p]; [reflexivity|]. rewrite !append_cons. cbn [String.prefix].
  destruct (ascii_dec "a" c3); [|reflexivity].
  destruct p as [|c4 p]; [reflexivity|]. rewrite !append_cons. cbn [String.prefix].
  destruct (ascii_dec "r" c4); [|reflexivity].
  destruct p as [|c5 p]; [reflexivity|]. rewrite !append_cons. cbn [String.prefix].
  destruct (ascii_dec "t" c5); [|reflexivity].
  destruct p as [|c6 p]; [reflexivity|]. rewrite !append_cons. cbn [String.prefix].
  destruct (ascii_dec "=" c6); [|reflexivity].
  now destruct p.
Qed.

(** What [href.split("start=")[1].split("&")[0]] finds: [tok], when the
    [href] is [pre], the first ["start="], [tok], and then the end or an
    ["&"]. *)
Lemma split_start_param pre tok rest :
  contains "start=" (pre ++ "start") = false ->
  contains "start=" tok = false ->
  contains "&" tok = false ->
  rest = "" \/ (exists rest', rest = "&" ++ rest') ->
  exists after l2 l3,
    split "start=" (pre ++ "start=" ++ tok ++ rest) = pre :: after :: l2 /\
    split "&" after = tok :: l3.
Proof.
  intros Hpre Htok Hamp Hrest. unfold split.
  rewrite split_go_first; [|discriminate|].
  2:{ intros p1 c p2 ->. apply prefix_start_window.
      rewrite append_assoc in Hpre. exact (contains_false_suffix _ _ _ Hpre). }
  rewrite append_nil_l.
  assert (Hamp' : forall t, split_go "&" 0 "" (tok ++ "&" ++ t) = tok :: split_go "&" 0 "" t).
  { intros t. rewrite split_go_first; [reflexivity|discriminate|].
    intros p1 c p2 ->. apply prefix_char_append.
    exact (contains_false_suffix _ _ _ Hamp). }
  destruct Hrest as [->|[rest' ->]].
  - rewrite append_nil_r. rewrite split_go_none.
    + exists tok, [], []. split; [reflexivity|].
      rewrite <- (append_nil_l tok) at 2. apply split_go_none.
      intros p1 c p2 ->. exact (contains_false_suffix _ _ _ Hamp).
    + intros p1 c p2 ->. exact (contains_false_suffix _ _ _ Htok).
  - rewrite split_go_through.
    2:{ intros p1 c p2 ->. apply prefix_start_amp.
        exact (contains_false_suffix _ _ _ Htok). }
    rewrite append_nil_l. change ("&" ++ rest') with (String "&" rest').
    cbn [split_go]. change (String.prefix "start=" (String "&" rest')) with false.
    cbv iota.
    destruct (split_go_head "start=" rest' 0%nat (tok ++ "&")) as (piece & l & ->).
    exists ((tok ++ "&") ++ piece), l. eexists. split; [reflexivity|].
    rewrite append_assoc. apply Hamp'.
Qed.

End StringFacts.

(** * More properties of the retry wrapper *)

Module RetryMore.
Import Py Retry RetryFacts.
Local Open Scope py_scope.

(** A pass that goes on after a sleep found [retry_count < max_retries]. *)
Lemma pass_sleep_lt c req retry_count delay retry_count' delay' evs :
  pass c req retry_count delay (Ok (Continue retry_count' delay')) evs ->
  slept evs = [] \/ retry_count < max_retries c.
Proof. inversion 1; subst; [now right|now left]. Qed.

(** In a run of the loop entered with [retry_count >= 0], the request is
    run at most [max_retries + 1 - retry_count] times and at most
    [max_retries - retry_count] delays are slept. *)
Lemma passes_bounds c req retry_count delay r evs :
  auth_cmd c <> req ->
  passes c req retry_count delay r evs ->
  (length (runs_of req evs) <= Z.to_nat (max_retries c + 1 - retry_count))%nat /\
  (length (slept evs) <= Z.to_nat (max_retries c - retry_count))%nat.
Proof.
  intros Hne H. induction H as [rc d Hgt|rc d response evs Hle Hp|rc d e evs Hle Hp
                                |rc d rc' d' evs r evs' Hle Hp Hps IH].
  - cbn. lia.
  - apply (pass_events _ _ _ _ _ _ Hne) in Hp.
    destruct Hp as (o & rest & -> & Hr & _ & Hs & _).
    rewrite runs_of_cons_same, Hr.
    change (slept (EvSubprocess req o :: rest)) with (slept rest). rewrite Hs. cbn. lia.
  - apply (pass_events _ _ _ _ _ _ Hne) in Hp.
    destruct Hp as (o & rest & -> & Hr & _ & Hs & _).
    rewrite runs_of_cons_same, Hr.
    change (slept (EvSubprocess req o :: rest)) with (slept rest). rewrite Hs. cbn. lia.
  - pose proof (pass_sleep_lt _ _ _ _ _ _ _ Hp) as Hlt.
    apply (pass_events _ _ _ _ _ _ Hne) in Hp. destruct IH as [IHr IHs].
    destruct Hp as (o & rest & -> & Hr & _ & -> & Hcases).
    change (slept (EvSubprocess req o :: rest)) with (slept rest) in Hlt.
    rewrite runs_of_app, slept_app, !length_app, runs_of_cons_same, Hr.
    change (slept (EvSubprocess req o :: rest)) with (slept rest).
    destruct Hcases as [(_ & Hs & _ & _)|(_ & Hs & _)]; rewrite Hs; cbn [length].
    + rewrite Hs in Hlt. destruct Hlt as [[=]|Hlt]. lia.
    + lia.
Qed.

Section WithWorld.
Variable World : Type.
Variable now : World -> Q.
Variable subprocess_run : list string -> World -> result string * World.
Variable json_loads : string -> string + json.
Variable time_sleep : float -> World -> result unit * World.

Local Abbreviation state := (Retry.state World).
Local Abbreviation authenticate := (Retry.authenticate World now subprocess_run).
Local Abbreviation attempt := (Retry.attempt World now subprocess_run json_loads time_sleep).
Local Abbreviation retry_loop := (Retry.retry_loop World now subprocess_run json_loads time_sleep).
Local Abbreviation request_with_retry :=
  (Retry.request_with_retry World now subprocess_run json_loads time_sleep).

#[local] Arguments Retry.authenticate : simpl never.

(** [authenticate], by cases on the cached token and on what the run of
    the authentication command gives. *)
Lemma authenticate_eq force (st : state) :
  authenticate force st =
    let c := self st in
    let logged := log st ++ [EvAuthenticate force] in
    if negb force && token_is_fresh c (now (world st)) then
      (Ok tt, mkState c (world st) logged)
    else
      match subprocess_run (auth_cmd c) (world st) with
      | (Ok _, w) =>
          (Ok tt, mkState (with_token c (now w)) w
                    (logged ++ [EvSubprocess (auth_cmd c) None]))
      | (Raise e, w) =>
          (Raise match e with
                 | CalledProcessError _ stderr =>
                     AuthenticationError ("Failed to authenticate: " +:+ stderr)
                 | _ => e
                 end,
           mkState c w (logged ++ [EvSubprocess (auth_cmd c) (Some e)]))
      end.
Proof.
  destruct st as [c w l]. cbn [self world log].
  destruct force.
  - rewrite authenticate_forced. cbn [self world log negb andb].
    destruct (subprocess_run (auth_cmd c) w) as [[out|e] w1];
      now rewrite <- app_assoc.
  - cbv beta iota zeta delta [Retry.authenticate Retry._should_refresh_token
      bind catch emit modify gets get Retry.run_subprocess set_self ret raise
      token_is_fresh negb andb self world log].
    destruct (token_expires_at c) as [t|].
    + destruct (Qle_bool (t - 300) (now w)); [|reflexivity].
      destruct (subprocess_run (auth_cmd c) w) as [[out|e] w1]; [reflexivity|].
      now destruct e.
    + destruct (subprocess_run (auth_cmd c) w) as [[out|e] w1]; [reflexivity|].
      now destruct e.
Qed.

(** One pass through the loop body, by cases on what the run of the
    request gives. *)
Lemma attempt_eq (c : BrunoClient) bru_file retry_count delay (st : state) :
  same_config c (self st) ->
  attempt bru_file retry_count delay st =
    let (r0, w1) := subprocess_run (request_cmd c bru_file) (world st) in
    let st1 := mkState (self st) w1
                 (log st ++ [EvSubprocess (request_cmd c bru_file) (raised r0)]) in
    let backoff e :=
      if retry_count <? max_retries c then
        match time_sleep delay w1 with
        | (Ok _, w2) =>
            (Ok (Continue (retry_count + 1) (next_delay c delay)),
             mkState (self st) w2 (log st1 ++ [EvSleep delay]))
        | (Raise e', w2) => (Raise e', mkState (self st) w2 (log st1))
        end
      else (Raise e, st1) in
    match r0 with
    | Ok stdout =>
        match json_loads stdout with
        | inr response => (Ok (Return response), st1)
        | inl msg => (Raise (BrunoAPIError ("Invalid JSON response: " +:+ msg)), st1)
        end
    | Raise (CalledProcessError msg stderr) => backoff (exhausted_error c (": " +:+ msg))
    | Raise (RateLimitError msg) => backoff (RateLimitError msg)
    | Raise (JSONDecodeError msg) =>
        (Raise (BrunoAPIError ("Invalid JSON response: " +:+ msg)), st1)
    | Raise (AuthenticationError msg) =>
        if retry_count =? 0 then
          match authenticate true st1 with
          | (Ok _, st2) => (Ok (Continue (retry_count + 1) delay), st2)
          | (Raise e, st2) => (Raise e, st2)
          end
        else (Raise (AuthenticationError msg), st1)
    | Raise e => (Raise e, st1)
    end.
Proof.
  intros Hc. pose proof Hc as (He & Hn & _).
  cbv beta iota delta [Retry.attempt Retry._run_bruno_command Retry.run_subprocess
                         catch bind gets ret raise].
  change (bruno_cmd (self st) ["auth/get-iam-token.bru"; bru_file])
    with (request_cmd (self st) bru_file).
  rewrite (request_cmd_config _ _ _ Hc).
  destruct (subprocess_run _ (world st)) as [[out|e] w1]; cbn.
  - now destruct (json_loads out).
  - rewrite Hn.
    destruct e; cbn; try reflexivity.
    + destruct (retry_count <? max_retries c);
        [|now rewrite (exhausted_error_config _ _ _ Hc)].
      unfold Retry.sleep. cbn.
      destruct (time_sleep delay w1) as [[[]|e'] w2]; cbn; [|reflexivity].
      now rewrite (next_delay_config _ _ _ Hc).
    + destruct (retry_count =? 0); [|reflexivity].
      now destruct (authenticate true _) as [[[]|e] st2].
    + destruct (retry_count <? max_retries c); [|reflexivity].
      unfold Retry.sleep. cbn.
      destruct (time_sleep delay w1) as [[[]|e'] w2]; cbn; [|reflexivity].
      now rewrite (next_delay_config _ _ _ Hc).
Qed.

(** X2. Whatever the outside world does and however the call ends, a call
    of [request_with_retry] runs the request command at most
    [max_retries + 1] times and sleeps at most [max_retries] delays. *)
Theorem attempts_and_sleeps_bounded (st : state) bru_file r st' evs :
  request_with_retry bru_file st = Some (r, st') ->
  log st' = log st ++ evs ->
  (length (runs_of (request_cmd (self st) bru_file) evs)
     <= Z.to_nat (max_retries (self st) + 1))%nat /\
  (length (slept evs) <= Z.to_nat (max_retries (self st)))%nat.
Proof.
  intros Hrun Hlog.
  destruct (request_with_retry_passes _ _ _ _ _ _ _ _ _ Hrun)
    as (evs0 & evs1 & Hlog' & Hs0 & _ & Hr0 & Hps).
  rewrite Hlog' in Hlog. apply app_inv_head in Hlog. subst evs.
  rewrite runs_of_app, slept_app, Hs0, Hr0. cbn [app].
  destruct Hps as [->|Hps]; [cbn; lia|].
  apply passes_bounds in Hps; [|apply auth_cmd_not_request].
  replace (max_retries (self st) + 1 - 0) with (max_retries (self st) + 1) in Hps by lia.
  now replace (max_retries (self st) - 0) with (max_retries (self st)) in Hps by lia.
Qed.

(** The first pass of a call whose preliminary [authenticate] returned. *)
Lemma request_with_retry_first_pass (st : state) bru_file st0 :
  authenticate false st = (Ok tt, st0) ->
  same_config (self st) (self st0) /\
  request_with_retry bru_file st =
    if 0 <=? max_retries (self st) then
      match attempt bru_file 0 (initial_retry_delay (self st)) st0 with
      | (Ok (Return response), st1) => Some (Ok response, st1)
      | (Ok (Continue retry_count delay), st1) =>
          retry_loop (Z.to_nat (max_retries (self st))) bru_file retry_count delay st1
      | (Raise e, st1) => Some (Raise e, st1)
      end
    else Some (Raise (exhausted_error (self st) ""), st0).
Proof.
  intros Ha.
  destruct (authenticate_events _ _ _ _ _ _ _ _ (same_config_refl _) Ha) as (_ & _ & Hc & _).
  split; [exact Hc|]. pose proof Hc as (_ & Hn & Hi & _).
  unfold Retry.request_with_retry. rewrite Ha, Hn, Hi.
  destruct (Z.leb_spec 0 (max_retries (self st))) as [Hle|Hlt].
  - replace (Z.to_nat (max_retries (self st) + 1))
      with (S (Z.to_nat (max_retries (self st)))) by lia.
    rewrite retry_loop_S, Hn.
    destruct (Z.leb_spec 0 (max_retries (self st))); [reflexivity|lia].
  - rewrite <- (exhausted_error_config _ _ "" Hc).
    destruct (Z.to_nat (max_retries (self st) + 1)); cbn [Retry.retry_loop];
      rewrite Hn; destruct (Z.leb_spec 0 (max_retries (self st))); (reflexivity || lia).
Qed.

(** X3. With a negative [max_retries] (of at most 4300 digits, so that
    the message can be printed) the request is never attempted: once the
    preliminary [authenticate] has returned, the call raises
    [BrunoAPIError "Request failed after <max_retries> retries"] and the
    request command was not run. *)
Theorem negative_max_retries_no_attempt (st : state) bru_file st0 :
  authenticate false st = (Ok tt, st0) ->
  - 10 ^ int_max_str_digits < max_retries (self st) < 0 ->
  request_with_retry bru_file st =
    Some (Raise (BrunoAPIError ("Request failed after "
                                  +:+ str_int (max_retries (self st)) +:+ " retries")),
          st0) /\
  runs_of (request_cmd (self st) bru_file) (log st0) = runs_of (request_cmd (self st) bru_file) (log st).
Proof.
  intros Ha Hneg.
  destruct (request_with_retry_first_pass st bru_file st0 Ha) as [Hc ->].
  destruct (Z.leb_spec 0 (max_retries (self st))); [lia|].
  rewrite exhausted_error_printable
    by (set (limit := 10 ^ int_max_str_digits) in *; lia).
  split; [reflexivity|].
  destruct (authenticate_events _ _ _ _ _ _ _ _ (same_config_refl _) Ha)
    as (evs & -> & _ & Hevs).
  rewrite runs_of_app.
  change (runs_of ?c (EvAuthenticate false :: evs)) with (runs_of c evs).
  destruct Hevs as [->|[o ->]];
    rewrite ?runs_of_cons_other by apply auth_cmd_not_request; cbn; now rewrite app_nil_r.
Qed.



(** X6. With [max_retries = 0] the token refresh uses up the only attempt.
    Once the preliminary [authenticate] has returned: when the single run of
    the request fails with an [AuthenticationError] and the forced
    re-authentication succeeds, the request is not run again:
    the call raises [BrunoAPIError "Request failed after 0 retries"] in the
    state the refresh left. *)
Theorem refresh_without_retry (st : state) bru_file st0 msg w1 st2 :
  authenticate false st = (Ok tt, st0) ->
  max_retries (self st) = 0 ->
  subprocess_run (request_cmd (self st) bru_file) (world st0)
    = (Raise (AuthenticationError msg), w1) ->
  authenticate true
    (mkState (self st0) w1
       (log st0 ++ [EvSubprocess (request_cmd (self st) bru_file)
                      (Some (AuthenticationError msg))]))
    = (Ok tt, st2) ->
  request_with_retry bru_file st =
    Some (Raise (BrunoAPIError "Request failed after 0 retries"), st2).
Proof.
  intros Ha Hn Hrun Hrefresh.
  destruct (request_with_retry_first_pass st bru_file st0 Ha) as [Hc ->].
  rewrite Hn. cbn [Z.leb Z.compare Z.to_nat].
  rewrite (attempt_eq (self st) _ _ _ _ Hc), Hrun. cbn zeta. cbn [Z.eqb raised].
  rewrite Hrefresh.
  destruct (authenticate_events _ _ _ _ _ _ _ _
              (Hc : same_config (self st)
                      (self (mkState (self st0) w1 _))) Hrefresh) as (_ & _ & (_ & Hn2 & _) & _).
  change (Z.to_nat 0) with 0%nat. cbn [Retry.retry_loop]. rewrite Hn2, Hn.
  cbn [Z.leb Z.compare]. unfold exhausted_error. rewrite Hn2, Hn.
  rewrite printable by (split; vm_compute; reflexivity). reflexivity.
Qed.

(** X9. An unforced [authenticate()] leaves out the authentication
    command exactly when a token is cached and the clock reads more than
    five minutes (300 s) before its expiry; in every other case it runs the
    command. *)
Theorem authenticate_skips_iff_token_fresh (st : state) r st' :
  authenticate false st = (r, st') ->
  (runs_of (auth_cmd (self st)) (log st') = runs_of (auth_cmd (self st)) (log st)
   <-> exists expires, token_expires_at (self st) = Some expires /\
                       (now (world st) < expires - 300)%Q).
Proof.
  assert (Hgrow : forall (l : list (option exn)) o, l ++ [o] <> l).
  { intros l o H. apply (f_equal length) in H. rewrite length_app in H. cbn in H. lia. }
  assert (Hran : forall o,
    runs_of (auth_cmd (self st))
      ((log st ++ [EvAuthenticate false]) ++ [EvSubprocess (auth_cmd (self st)) o])
    = runs_of (auth_cmd (self st)) (log st) ++ [o]).
  { intros o. rewrite !runs_of_app, runs_of_cons_same. cbn. now rewrite app_nil_r. }
  rewrite authenticate_eq. cbn zeta. cbn [negb andb]. unfold token_is_fresh.
  destruct (token_expires_at (self st)) as [t|].
  - destruct (Qle_bool (t - 300) (now (world st))) eqn:Hle; cbn [negb].
    + apply Qle_bool_iff in Hle.
      destruct (subprocess_run _ _) as [[out|e] w]; intros [= <- <-]; cbn [log];
        rewrite Hran; (split; [intros H; now apply Hgrow in H|]);
        intros (t' & [= <-] & Hlt); lra.
    + intros [= <- <-]. cbn [log]. rewrite runs_of_app. cbn. rewrite app_nil_r.
      split; [|reflexivity]. intros _. exists t. split; [reflexivity|].
      apply Qnot_le_lt. rewrite <- Qle_bool_iff, Hle. discriminate.
  - cbn [negb].
    destruct (subprocess_run _ _) as [[out|e] w]; intros [= <- <-]; cbn [log];
      rewrite Hran; (split; [intros H; now apply Hgrow in H|]);
      intros (t' & [= ] & _).
Qed.

(** X10. A token serves for 55 minutes.  After a call of [authenticate]
    that ran the authentication command and returned, the clock reading [t]
    at that moment, every unforced [authenticate] of the same client made
    while the clock reads less than [t + 3300] returns without running
    anything. *)
Theorem token_reused_for_55_minutes force (st st1 st2 : state) :
  authenticate force st = (Ok tt, st1) ->
  log st1 <> log st ++ [EvAuthenticate force] ->
  self st2 = self st1 ->
  (now (world st2) < now (world st1) + 3300)%Q ->
  authenticate false st2
    = (Ok tt, mkState (self st2) (world st2) (log st2 ++ [EvAuthenticate false])).
Proof.
  rewrite authenticate_eq. cbn zeta.
  destruct (negb force && _).
  - intros [= <-] Hlog. now contradiction Hlog.
  - destruct (subprocess_run _ _) as [[out|e] w]; [|discriminate].
    intros [= <-] _ Hself Hnow. cbn [self world] in Hself, Hnow.
    rewrite authenticate_eq. cbn zeta. cbn [negb andb].
    unfold token_is_fresh. rewrite Hself. cbn [token_expires_at with_token].
    destruct (Qle_bool (now w + 3600 - 300) (now (world st2))) eqn:Hle; [|reflexivity].
    apply Qle_bool_iff in Hle. lra.
Qed.

(** The loop under a request that fails with [RateLimitError] whenever it
    is run, when [time.sleep] accepts the delays. *)
Lemma retry_loop_rate_limited (c : BrunoClient) bru_file :
  (forall w, exists msg w',
      subprocess_run (request_cmd c bru_file) w = (Raise (RateLimitError msg), w')) ->
  forall n retry_count delay (st : state),
    same_config c (self st) ->
    retry_count <= max_retries c -> n = Z.to_nat (max_retries c - retry_count) ->
    (forall k w, (k < n)%nat ->
       exists w', time_sleep (delay_seq c delay k) w = (Ok tt, w')) ->
    exists msg st' evs,
      retry_loop (S n) bru_file retry_count delay st
        = Some (Raise (RateLimitError msg), st') /\
      log st' = log st ++ evs /\
      length (runs_of (request_cmd c bru_file) evs) = S n /\
      slept evs = map (delay_seq c delay) (seq 0 n).
Proof.
  intros Hfail n.
  induction n as [|n IH]; intros retry_count delay st Hc Hle Hn Hsleep;
    pose proof Hc as (_ & Hmax & _);
    destruct (Hfail (world st)) as (msg & w' & Hrun);
    rewrite retry_loop_S, Hmax;
    (destruct (Z.leb_spec retry_count (max_retries c)) as [_|?]; [|lia]);
    rewrite (attempt_eq c _ _ _ _ Hc), Hrun; cbn zeta.
  - destruct (Z.ltb_spec retry_count (max_retries c)) as [?|_]; [lia|].
    eexists; eexists; eexists. split; [reflexivity|]. cbn [log].
    split; [reflexivity|]. now rewrite runs_of_cons_same.
  - destruct (Z.ltb_spec retry_count (max_retries c)) as [_|?]; [|lia].
    destruct (Hsleep 0%nat w' ltac:(lia)) as (w2 & Hw2). cbn [delay_seq] in Hw2.
    rewrite Hw2.
    edestruct (IH (retry_count + 1) (next_delay c delay))
      as (m & st' & evs & Hloop & Hlog & Hruns & Hs); [ | | | | rewrite Hloop ].
    + exact Hc.
    + lia.
    + lia.
    + intros k w Hk. apply (Hsleep (S k) w). lia.
    + eexists; eexists; eexists. split; [reflexivity|].
      rewrite Hlog. cbn [log raised]. rewrite <- !app_assoc. split; [reflexivity|].
      cbn [app]. rewrite runs_of_cons_same.
      change (runs_of ?c (EvSleep ?d :: ?l)) with (runs_of c l).
      change (slept (EvSubprocess ?c ?o :: EvSleep ?d :: ?l)) with (d :: slept l).
      split; [cbn [length]; now rewrite Hruns|]. rewrite Hs.
      cbn [seq map delay_seq]. f_equal. rewrite <- seq_shift, map_map. reflexivity.
Qed.

(** X7. A request that is rate limited every time is run [N + 1] times
    with [N] sleeps, [N = max_retries >= 0], and the call raises the
    [RateLimitError] itself (it is not wrapped in a [BrunoAPIError], unlike
    the error of a failing command).  The delays slept are the initial
    delay and its successive updates.  This is for a call whose
    preliminary [authenticate] returned, whose delays are all accepted by
    [time.sleep], and whose attempt count [N + 1] is an integer Python
    prints (at most 4300 digits). *)
Theorem rate_limit_attempted_N_plus_1 (st : state) bru_file N st0 :
  max_retries (self st) = N -> 0 <= N -> N + 1 < 10 ^ int_max_str_digits ->
  authenticate false st = (Ok tt, st0) ->
  (forall k w, (k < Z.to_nat N)%nat ->
     exists w', time_sleep (delay_seq (self st) (initial_retry_delay (self st)) k) w
                = (Ok tt, w')) ->
  (forall w, exists msg w',
      subprocess_run (request_cmd (self st) bru_file) w
        = (Raise (RateLimitError msg), w')) ->
  exists msg st' evs,
    request_with_retry bru_file st = Some (Raise (RateLimitError msg), st') /\
    log st' = log st0 ++ evs /\
    length (runs_of (request_cmd (self st) bru_file) evs) = Z.to_nat (N + 1) /\
    slept evs = map (delay_seq (self st) (initial_retry_delay (self st)))
                    (seq 0 (Z.to_nat N)).
Proof.
  intros HN HN0 _ Ha Hsleep Hfail.
  destruct (authenticate_events _ _ _ _ _ _ _ _ (same_config_refl _) Ha)
    as (evs0 & Hlog0 & Hc & Hevs).
  pose proof Hc as (_ & Hmax & Hinit & _).
  destruct (retry_loop_rate_limited (self st) bru_file Hfail
              (Z.to_nat N) 0 (initial_retry_delay (self st)) st0 Hc)
    as (msg & st' & evs & Hloop & Hlog & Hruns & Hs); [lia|f_equal; lia|exact Hsleep|].
  exists msg, st', evs.
  unfold Retry.request_with_retry. rewrite Ha, Hmax, Hinit, HN.
  replace (Z.to_nat (N + 1)) with (S (Z.to_nat N)) by lia.
  now repeat split.
Qed.



(** X1. The passes the loop is allowed are enough.  Where every run of
    the command and every call of [time.sleep] comes back, by returning or
    by raising, a call of [request_with_retry] ends, for every
    configuration (a negative [max_retries] included): within
    [max_retries + 1] passes of the loop it has returned a response or
    raised.  (A [bru] process that hangs is outside this statement:
    [subprocess.run] is given no [timeout].) *)
Theorem request_always_returns (st : state) bru_file :
  exists r st', request_with_retry bru_file st = Some (r, st').
Proof. apply request_with_retry_returns. Qed.

End WithWorld.

(** ** Concrete runs *)

Lemma attempts_and_sleeps_bounded_witness :
  exists r st',
    run_request_down client_3_1_60_2 "vpc/list-vpcs.bru" = Some (r, st') /\
    (length (runs_of (request_cmd client_3_1_60_2 "vpc/list-vpcs.bru") (log st'))
       <= 4)%nat /\
    (length (slept (log st')) <= 3)%nat.
Proof.
  destruct (run_request_down client_3_1_60_2 "vpc/list-vpcs.bru") as [[r st']|] eqn:Hrun;
    [|discriminate Hrun].
  exists r, st'. split; [reflexivity|].
  apply (attempts_and_sleeps_bounded nat request_down_now request_down_run toy_loads
           request_down_sleep (mkState client_3_1_60_2 O []) "vpc/list-vpcs.bru"
           r st' (log st')).
  - exact Hrun.
  - reflexivity.
Defined.

Lemma negative_max_retries_no_attempt_witness :
  let c := BrunoClient_init "prod" (-1) 1 60 2 in
  exists st0,
    run_request_down c "vpc/list-vpcs.bru"
      = Some (Raise (BrunoAPIError "Request failed after -1 retries"), st0) /\
    runs_of (request_cmd c "vpc/list-vpcs.bru") (log st0) = [].
Proof.
  intros c.
  destruct (Retry.authenticate nat request_down_now request_down_run false
              (mkState c O [])) as [[[]|e] st0] eqn:Ha;
    [|vm_compute in Ha; discriminate Ha].
  exists st0.
  apply (negative_max_retries_no_attempt nat request_down_now request_down_run toy_loads
           request_down_sleep (mkState c O []) "vpc/list-vpcs.bru" st0).
  - exact Ha.
  - split; vm_compute; reflexivity.
Defined.



Lemma refresh_without_retry_witness :
  exists st2,
    run_scripted (BrunoClient_init "prod" 0 1 60 2) "vpc/list-vpcs.bru"
      [Ok "token"; Raise (AuthenticationError "expired"); Ok "token"; Ok "{}"]
      = Some (Raise (BrunoAPIError "Request failed after 0 retries"), st2) /\
    world st2 = [Ok "{}"].
Proof.
  set (c := BrunoClient_init "prod" 0 1 60 2).
  set (w := [Ok "token"; Raise (AuthenticationError "expired"); Ok "token"; Ok "{}"]).
  destruct (Retry.authenticate script scripted_now scripted_run false (mkState c w []))
    as [[[]|e] st0] eqn:Ha; [|vm_compute in Ha; discriminate Ha].
  destruct (Retry.authenticate script scripted_now scripted_run true
              (mkState (self st0) [Ok "token"; Ok "{}"]
                 (log st0 ++ [EvSubprocess (request_cmd c "vpc/list-vpcs.bru")
                                (Some (AuthenticationError "expired"))])))
    as [[[]|e] st2] eqn:Hb;
    [|vm_compute in Ha; injection Ha as <-; vm_compute in Hb; discriminate Hb].
  exists st2. split.
  - apply (refresh_without_retry script scripted_now scripted_run toy_loads
             scripted_sleep (mkState c w []) "vpc/list-vpcs.bru" st0 "expired"
             [Ok "token"; Ok "{}"] st2).
    + exact Ha.
    + reflexivity.
    + vm_compute in Ha. injection Ha as <-. reflexivity.
    + exact Hb.
  - vm_compute in Ha. injection Ha as <-. vm_compute in Hb. injection Hb as <-.
    reflexivity.
Defined.

(** A client whose token expires at 3600 is asked at time 0 and at time
    3300: the first call runs nothing, the second runs the authentication
    command. *)
Lemma authenticate_skips_iff_token_fresh_witness :
  let c := with_token client_3_1_60_2 0 in
  (exists st',
     Retry.authenticate nat request_down_now request_down_run false (mkState c O [])
       = (Ok tt, st') /\
     runs_of (auth_cmd c) (log st') = []) /\
  (exists st',
     Retry.authenticate nat request_down_now request_down_run false
       (mkState c 3300%nat []) = (Ok tt, st') /\
     runs_of (auth_cmd c) (log st') <> []).
Proof.
  intros c. split.
  - destruct (Retry.authenticate nat request_down_now request_down_run false
                (mkState c O [])) as [r st'] eqn:Ha.
    pose proof (authenticate_skips_iff_token_fresh nat request_down_now request_down_run
                  (mkState c O []) r st' Ha) as [_ Hfresh].
    exists st'. split.
    + vm_compute in Ha. injection Ha as <- <-. reflexivity.
    + apply Hfresh. exists 3600%Q. split; [reflexivity|]. vm_compute. reflexivity.
  - destruct (Retry.authenticate nat request_down_now request_down_run false
                (mkState c 3300%nat [])) as [r st'] eqn:Ha.
    pose proof (authenticate_skips_iff_token_fresh nat request_down_now request_down_run
                  (mkState c 3300%nat []) r st' Ha) as [Hfresh _].
    exists st'. split.
    + vm_compute in Ha. injection Ha as <- <-. reflexivity.
    + intros Hnone. destruct (Hfresh Hnone) as (expires & [= <-] & Hlt).
      vm_compute in Hlt. discriminate Hlt.
Defined.

(** A token obtained at time 1 is reused at time 3300. *)
Lemma token_reused_for_55_minutes_witness :
  exists st1,
    Retry.authenticate nat request_down_now request_down_run false
      (mkState client_3_1_60_2 O []) = (Ok tt, st1) /\
    Retry.authenticate nat request_down_now request_down_run false
      (mkState (self st1) 3300%nat [])
    = (Ok tt, mkState (self st1) 3300%nat [EvAuthenticate false]).
Proof.
  destruct (Retry.authenticate nat request_down_now request_down_run false
              (mkState client_3_1_60_2 O [])) as [[[]|e] st1] eqn:Ha;
    [|vm_compute in Ha; discriminate Ha].
  exists st1. split; [reflexivity|].
  apply (token_reused_for_55_minutes nat request_down_now request_down_run false
           (mkState client_3_1_60_2 O []) st1 (mkState (self st1) 3300%nat [])).
  - exact Ha.
  - vm_compute in Ha. injection Ha as <-. discriminate.
  - reflexivity.
  - vm_compute in Ha. injection Ha as <-. vm_compute. reflexivity.
Defined.

Lemma rate_limit_attempted_N_plus_1_witness :
  exists msg st' evs,
    request_with_retry nat request_down_now rate_limited_run toy_loads request_down_sleep
      "vpc/list-vpcs.bru" (mkState client_3_1_60_2 O [])
      = Some (Raise (RateLimitError msg), st') /\
    length (runs_of (request_cmd client_3_1_60_2 "vpc/list-vpcs.bru") evs) = 4%nat /\
    slept evs = [1; 2; 4]%float.
Proof.
  destruct (Retry.authenticate nat request_down_now rate_limited_run false
              (mkState client_3_1_60_2 O [])) as [[[]|e] st0] eqn:Ha;
    [|vm_compute in Ha; discriminate Ha].
  destruct (rate_limit_attempted_N_plus_1 nat request_down_now rate_limited_run toy_loads
              request_down_sleep (mkState client_3_1_60_2 O []) "vpc/list-vpcs.bru" 3 st0)
    as (msg & st' & evs & Hrun & _ & Hruns & Hslept).
  - reflexivity.
  - lia.
  - vm_compute. reflexivity.
  - exact Ha.
  - intros k w Hk. exists w.
    destruct k as [|[|[|k]]]; [vm_compute; reflexivity..|lia].
  - intros w. eexists; eexists. reflexivity.
  - exists msg, st', evs. repeat split; assumption.
Defined.


End RetryMore.

(** * More properties of the paginator *)

Module PaginationMore.
Import Py Pagination StringFacts PaginationFacts.
Local Open Scope py_scope.

(** [get_pagination_cursor] on a response whose ["next"] object holds a
    non-empty text under ["href"]. *)
Lemma cursor_of_href m next_link href :
  m !! "next" = Some (JDict next_link) ->
  next_link !! "href" = Some (JStr href) ->
  href <> "" ->
  get_pagination_cursor (JDict m) =
    if contains "start=" href then
      match split "start=" href with
      | _ :: after :: _ =>
          match split "&" after with
          | start_param :: _ => Ok (Some start_param)
          | [] => Raise (IndexError "list index out of range")
          end
      | _ => Raise (IndexError "list index out of range")
      end
    else Ok None.
Proof.
  intros Hnext Hhref Hne. unfold get_pagination_cursor. cbn [py_get].
  rewrite Hnext. cbn [truthy].
  destruct (map_to_list next_link) eqn:Hl.
  { apply map_to_list_empty_iff in Hl. subst next_link.
    now rewrite lookup_empty in Hhref. }
  cbn [negb py_get]. rewrite Hhref. cbn [truthy].
  destruct (String.eqb_spec href ""); [contradiction|]. reflexivity.
Qed.

(** X11. The cursor is the text between the first ["start="] of the [href]
    and the next ["&"] (or the end of the [href]).  For an [href] made of
    [pre], ["start="], [tok] and [rest], where ["start="] occurs nowhere
    before, [tok] holds neither ["start="] nor ["&"], and [rest] is empty or
    begins with ["&"], [get_pagination_cursor] returns [tok]. *)
Theorem cursor_is_first_start_parameter m next_link pre tok rest :
  m !! "next" = Some (JDict next_link) ->
  next_link !! "href" = Some (JStr (pre +:+ "start=" +:+ tok +:+ rest)) ->
  contains "start=" (pre +:+ "start") = false ->
  contains "start=" tok = false ->
  contains "&" tok = false ->
  rest = "" \/ (exists rest', rest = "&" +:+ rest') ->
  get_pagination_cursor (JDict m) = Ok (Some tok).
Proof.
  intros Hnext Hhref Hpre Htok Hamp Hrest.
  rewrite (cursor_of_href _ _ _ Hnext Hhref).
  - rewrite contains_append.
    destruct (split_start_param pre tok rest Hpre Htok Hamp Hrest)
      as (after & l2 & l3 & -> & ->). reflexivity.
  - destruct pre; discriminate.
Qed.

Section WithWorld.
Variable World : Type.
Variable subprocess_run : list string -> World -> result string * World.
Variable json_loads : string -> string + json.

Local Abbreviation state := (Pagination.state World).
Local Abbreviation page := (Pagination.page World subprocess_run json_loads).
Local Abbreviation paginate_loop := (Pagination.paginate_loop World subprocess_run json_loads).
Local Abbreviation paginate_list_vpcs :=
  (Pagination.paginate_list_vpcs World subprocess_run json_loads).

(** One pass, by the answer of the command. *)
Lemma page_eq max_pages all_vpcs page_num cursor (st : state) :
  page max_pages all_vpcs page_num cursor st =
    if limit_reached max_pages page_num then (Ok (Break all_vpcs), st)
    else
      let (r, w') := subprocess_run list_vpcs_cmd (world st) in
      let st' := mkState w' (log st ++ [EvFetch list_vpcs_cmd
                                          match r with Ok _ => None | Raise e => Some e end]) in
      match r with
      | Raise (CalledProcessError _ _) | Raise (JSONDecodeError _) =>
          (Ok (Break all_vpcs), st')
      | Raise e => (Raise e, st')
      | Ok out =>
          match json_loads out with
          | inl _ => (Ok (Break all_vpcs), st')
          | inr response =>
              match collect_page all_vpcs response with
              | Raise e => (Raise e, st')
              | Ok all_vpcs' =>
                  match get_pagination_cursor response with
                  | Raise e => (Raise e, st')
                  | Ok cursor' =>
                      if truthy_cursor cursor'
                      then (Ok (Continue all_vpcs' (page_num + 1) cursor'), st')
                      else (Ok (Break all_vpcs'), st')
                  end
              end
          end
      end.
Proof.
  cbv beta iota zeta delta [Pagination.page bind catch ret raise
                              Pagination.run_bruno_request].
  fold list_vpcs_cmd.
  destruct (limit_reached max_pages page_num); [reflexivity|].
  destruct (subprocess_run list_vpcs_cmd (world st)) as [[out|e] w1].
  - destruct (json_loads out) as [msg|response]; [reflexivity|].
    destruct (collect_page all_vpcs response); [|reflexivity].
    destruct (get_pagination_cursor response) as [c|e]; [|reflexivity].
    now destruct (truthy_cursor c).
  - now destruct e.
Qed.

(** X12. A [start=] with nothing behind it counts as no cursor.  The pass
    that fetches a page whose [href] has an empty [start] value is the last
    one, although the page carries a ["next"] link: the call returns what
    was collected, that page included, and makes no further request. *)
Theorem empty_start_ends_pagination fuel max_pages all_vpcs page_num cursor (st : state)
    stdout w' m next_link pre rest :
  limit_reached max_pages page_num = false ->
  subprocess_run list_vpcs_cmd (world st) = (Ok stdout, w') ->
  json_loads stdout = inr (JDict m) ->
  m !! "next" = Some (JDict next_link) ->
  next_link !! "href" = Some (JStr (pre +:+ "start=" +:+ rest)) ->
  contains "start=" (pre +:+ "start") = false ->
  rest = "" \/ (exists rest', rest = "&" +:+ rest') ->
  paginate_loop (S fuel) max_pages all_vpcs page_num cursor st =
    Some (collect_page all_vpcs (JDict m),
          mkState w' (log st ++ [EvFetch list_vpcs_cmd None])).
Proof.
  intros Hlim Hrun Hjson Hnext Hhref Hpre Hrest.
  assert (Hcur : get_pagination_cursor (JDict m) = Ok (Some "")).
  { rewrite (cursor_of_href _ _ _ Hnext Hhref); [|destruct pre; discriminate].
    rewrite contains_append.
    destruct (split_start_param pre "" rest Hpre eq_refl eq_refl Hrest)
      as (after & l2 & l3 & Hs1 & Hs2).
    rewrite append_nil_l in Hs1. now rewrite Hs1, Hs2. }
  cbn [Pagination.paginate_loop]. rewrite page_eq, Hlim, Hrun, Hjson, Hcur.
  cbv zeta. now destruct (collect_page all_vpcs (JDict m)).
Qed.


(** X14. Any other exception of the command (an [OSError] when [bru] is
    not installed, for one) is not caught: the call raises it, and the items
    collected so far are not returned. *)
Theorem other_exception_propagates fuel max_pages all_vpcs page_num cursor
    (st : state) e w' :
  limit_reached max_pages page_num = false ->
  subprocess_run list_vpcs_cmd (world st) = (Raise e, w') ->
  (forall msg stderr, e <> CalledProcessError msg stderr) ->
  (forall msg, e <> JSONDecodeError msg) ->
  paginate_loop (S fuel) max_pages all_vpcs page_num cursor st =
    Some (Raise e, mkState w' (log st ++ [EvFetch list_vpcs_cmd (Some e)])).
Proof.
  intros Hlim Hrun Hcpe Hjson. cbn [Pagination.paginate_loop].
  rewrite page_eq, Hlim, Hrun.
  destruct e; try reflexivity.
  - now destruct (Hcpe msg stderr).
  - now destruct (Hjson msg).
Qed.

(** X15. A response that is valid JSON but not an object (an array, a
    string, a number, [null]) makes the call raise, after that request, the
    [AttributeError] of its missing [get] method, whose message names the
    type of the response. *)
Theorem non_object_response_raises fuel max_pages all_vpcs page_num cursor
    (st : state) out w' response :
  limit_reached max_pages page_num = false ->
  subprocess_run list_vpcs_cmd (world st) = (Ok out, w') ->
  json_loads out = inr response ->
  is_dict response = false ->
  paginate_loop (S fuel) max_pages all_vpcs page_num cursor st =
    Some (Raise (AttributeError ("'" +:+ type_name response
                                   +:+ "' object has no attribute 'get'")),
          mkState w' (log st ++ [EvFetch list_vpcs_cmd None])).
Proof.
  intros Hlim Hrun Hjson Hdict. cbn [Pagination.paginate_loop].
  rewrite page_eq, Hlim, Hrun, Hjson.
  now destruct response.
Qed.

(** The requests of a loop are all the same command. *)
Lemma paginate_loop_same_command fuel max_pages :
  forall all_vpcs page_num cursor (st : state) r st',
  paginate_loop fuel max_pages all_vpcs page_num cursor st = Some (r, st') ->
  exists evs, log st' = log st ++ evs /\
              Forall (fun ev => exists o, ev = EvFetch list_vpcs_cmd o) evs.
Proof.
  induction fuel as [|fuel IH]; intros all_vpcs page_num cursor st r st';
    [discriminate|]. cbn [Pagination.paginate_loop].
  destruct (page max_pages all_vpcs page_num cursor st) as [r1 st1] eqn:Hpage.
  apply page_events in Hpage.
  destruct (limit_reached max_pages page_num).
  - destruct Hpage as [-> ->]. intros [= <- <-].
    exists []. now rewrite app_nil_r.
  - destruct Hpage as (o & Hlog & _).
    assert (Hone : Forall (fun ev => exists o, ev = EvFetch list_vpcs_cmd o)
                          [EvFetch list_vpcs_cmd o]) by (repeat constructor; eauto).
    destruct r1 as [[all'|all' page_num' cursor']|e].
    + intros [= <- <-]. eauto.
    + intros Hloop. destruct (IH _ _ _ _ _ _ Hloop) as (evs & Hlog' & Hall).
      exists (EvFetch list_vpcs_cmd o :: evs).
      rewrite Hlog', Hlog, <- app_assoc. split; [reflexivity|].
      constructor; eauto.
    + intros [= <- <-]. eauto.
Qed.

(** X16. The cursor is never sent.  Every request of a call of
    [paginate_list_vpcs] is the same command line, that of the first page,
    whatever cursor the pages before returned and whatever [limit] is. *)
Theorem every_fetch_is_the_first_page_request fuel limit max_pages (st : state) r st' :
  paginate_list_vpcs fuel limit max_pages st = Some (r, st') ->
  exists evs, log st' = log st ++ evs /\
    Forall (fun ev => exists o,
      ev = EvFetch ["bru"; "run"; "auth/get-iam-token.bru"; "vpc/list-vpcs.bru";
                    "--env"; "prod"; "--output"; "json"] o) evs.
Proof.
  intros Hrun. exact (paginate_loop_same_command _ _ _ _ _ _ _ _ Hrun).
Qed.






End WithWorld.

(** ** Concrete runs *)

(** The [href] of the comment in [get_pagination_cursor]. *)
Lemma cursor_is_first_start_parameter_witness :
  get_pagination_cursor page_with_cursor = Ok (Some "abc123").
Proof.
  apply (cursor_is_first_start_parameter _
           (<["href" := JStr "https://us-south.iaas.cloud.ibm.com/v1/vpcs?start=abc123&version=2024-12-10&generation=2"]> ∅)
           "https://us-south.iaas.cloud.ibm.com/v1/vpcs?" "abc123"
           "&version=2024-12-10&generation=2").
  - reflexivity.
  - reflexivity.
  - vm_compute. reflexivity.
  - vm_compute. reflexivity.
  - vm_compute. reflexivity.
  - right. eexists. reflexivity.
Defined.

Lemma empty_start_ends_pagination_witness :
  paginate_list_vpcs script scripted_run sample_loads 5 10 None
    (mkState ["empty-start"; "more"; "last"] [])
  = Some (Ok [vpc "e"], mkState ["more"; "last"] [EvFetch list_vpcs_cmd None]).
Proof.
  unfold paginate_list_vpcs.
  rewrite (empty_start_ends_pagination script scripted_run sample_loads 4 None [] 1 None
           (mkState ["empty-start"; "more"; "last"] []) "empty-start" ["more"; "last"]
           (<["vpcs" := JList [vpc "e"]]>
            (<["next" := JDict (<["href" :=
                 JStr "https://us-south.iaas.cloud.ibm.com/v1/vpcs?limit=10&start="]> ∅)]>
             ∅))
           (<["href" :=
                 JStr "https://us-south.iaas.cloud.ibm.com/v1/vpcs?limit=10&start="]> ∅)
           "https://us-south.iaas.cloud.ibm.com/v1/vpcs?limit=10&" "").
  - vm_compute. reflexivity.
  - reflexivity.
  - reflexivity.
  - reflexivity.
  - reflexivity.
  - reflexivity.
  - vm_compute. reflexivity.
  - left. reflexivity.
Defined.


Lemma other_exception_propagates_witness :
  paginate_list_vpcs unit missing_bru_run toy_loads 5 10 None (mkState tt [])
  = Some (Raise (OSError "[Errno 2] No such file or directory: 'bru'"),
          mkState tt [EvFetch list_vpcs_cmd
                        (Some (OSError "[Errno 2] No such file or directory: 'bru'"))]).
Proof.
  apply (other_exception_propagates unit missing_bru_run toy_loads 4 None [] 1 None
           (mkState tt []) (OSError "[Errno 2] No such file or directory: 'bru'") tt).
  - reflexivity.
  - reflexivity.
  - discriminate.
  - discriminate.
Defined.

Lemma non_object_response_raises_witness :
  paginate_list_vpcs script scripted_run sample_loads 5 10 None (mkState ["array"] [])
  = Some (Raise (AttributeError "'list' object has no attribute 'get'"),
          mkState [] [EvFetch list_vpcs_cmd None]).
Proof.
  apply (non_object_response_raises script scripted_run sample_loads 4 None [] 1 None
           (mkState ["array"] []) "array" [] (JList [])).
  - reflexivity.
  - reflexivity.
  - reflexivity.
  - reflexivity.
Defined.

Lemma every_fetch_is_the_first_page_request_witness :
  exists r st',
    run_scripted 5 10 None ["more"; "more"; "last"] = Some (r, st') /\
    length (log st') = 3%nat /\
    Forall (fun ev => exists o,
      ev = EvFetch ["bru"; "run"; "auth/get-iam-token.bru"; "vpc/list-vpcs.bru";
                    "--env"; "prod"; "--output"; "json"] o) (log st').
Proof.
  destruct (run_scripted 5 10 None ["more"; "more"; "last"]) as [[r st']|] eqn:Hrun;
    [|vm_compute in Hrun; discriminate Hrun].
  destruct (every_fetch_is_the_first_page_request script scripted_run toy_loads 5 10 None
              (mkState ["more"; "more"; "last"] []) r st' Hrun) as (evs & Hlog & Hall).
  exists r, st'. split; [reflexivity|]. split.
  - vm_compute in Hrun. injection Hrun as _ <-. reflexivity.
  - rewrite Hlog. exact Hall.
Defined.



End PaginationMore.

(** * More properties of the workflow runner *)

Module WorkflowMore.
Import Py Workflow StringFacts WorkflowFacts.
Local Open Scope py_scope.

(** ** Dot paths *)

(** Splitting at the dots gives back the keys a path was joined from. *)
Lemma split_join_dots keys :
  keys <> [] ->
  Forall (fun key => contains "." key = false) keys ->
  split "." (join "." keys) = keys.
Proof.
  intros Hne Hkeys. induction Hkeys as [|key keys Hkey Hkeys IH]; [congruence|].
  destruct keys as [|key2 keys].
  - cbn [join]. unfold split. rewrite split_go_none; [reflexivity|].
    intros p1 c p2 ->. exact (contains_false_suffix _ _ _ Hkey).
  - change (join "." (key :: key2 :: keys))
      with (key +:+ "." +:+ join "." (key2 :: keys)).
    unfold split. rewrite split_go_first; [|discriminate|].
    + f_equal. apply IH. discriminate.
    + intros p1 c p2 ->. apply prefix_char_append.
      exact (contains_false_suffix _ _ _ Hkey).
Qed.

Lemma sleeps_app evs evs' : sleeps (evs ++ evs') = sleeps evs ++ sleeps evs'.
Proof. apply omap_app. Qed.

(** The request files of the steps [_build_steps] makes. *)
Lemma built_steps_files c image ssh_key :
  bru_file <$> (network_steps c ++ [instance_step c image ssh_key]
                  ++ (if create_floating_ip c then [floating_ip_step c] else []))
  = plan_files c.
Proof. unfold plan_files. now destruct (create_floating_ip c). Qed.

(** The walk of [_extract_value] finds the value at the end of the
    keys, and a walk through mappings either finds one or fails. *)
Lemma value_at_walk data keys x :
  value_at data keys x -> extract_walk data keys = Some x.
Proof.
  induction 1 as [v|m key v keys x Hkey _ IH]; [reflexivity|]. cbn. now rewrite Hkey.
Qed.

Lemma value_at_or_lookup_fails keys :
  forall data, (exists x, value_at data keys x) \/ lookup_fails data keys.
Proof.
  induction keys as [|key keys IH]; intros data.
  - left. exists data. constructor.
  - destruct (is_dict data) eqn:Hdict; [|right; now constructor].
    destruct data as [| | | | | |m]; try discriminate Hdict.
    destruct (m !! key) as [v|] eqn:Hkey; [|right; now apply lookup_key_missing].
    destruct (IH v) as [[x Hx]|Hfails].
    + left. exists x. now apply value_below with v.
    + right. now apply lookup_fails_below with v.
Qed.

(** X20. The plan is ordered by dependency.  Wherever a step that
    [_build_steps] makes has an input named [VPC_ID], [SUBNET_ID] or
    [SECURITY_GROUP_ID], that input is the placeholder token of a step that
    comes earlier in the plan. *)
Theorem identifier_inputs_come_from_earlier_steps c image ssh_key j s key value :
  (network_steps c ++ [instance_step c image ssh_key]
     ++ (if create_floating_ip c then [floating_ip_step c] else [])) !! j = Some s ->
  key = "VPC_ID" \/ key = "SUBNET_ID" \/ key = "SECURITY_GROUP_ID" ->
  env_vars s !! key = Some value ->
  exists i producer,
    (i < j)%nat /\
    network_steps c !! i = Some producer /\
    produces (name producer) = Some value.
Proof.
  intros Hj Hkey Hvalue.
  assert (Hcases : (j < 8)%nat /\
            (network_steps c ++ [instance_step c image ssh_key]) !! j = Some s \/
          s = floating_ip_step c).
  { destruct (create_floating_ip c).
    - destruct (decide (j < 8)%nat) as [Hlt|Hge].
      + left. split; [exact Hlt|]. rewrite app_assoc in Hj.
        rewrite lookup_app_l in Hj by (cbn; lia). exact Hj.
      + right. rewrite app_assoc in Hj. rewrite lookup_app_r in Hj by (cbn; lia).
        cbn [length app network_steps] in Hj.
        destruct (j - 8)%nat; [now injection Hj|discriminate].
    - left. rewrite app_nil_r in Hj. split; [|exact Hj].
      apply lookup_lt_Some in Hj. cbn in Hj. lia. }
  destruct Hcases as [[Hlt Hs]| ->].
  - destruct j as [|[|[|[|[|[|[|[|j]]]]]]]]; [..|lia]; injection Hs as <-;
      destruct Hkey as [->|[->| ->]]; cbn in Hvalue;
      try (destruct (truthy_str (resource_group_id c)); discriminate Hvalue);
      injection Hvalue as <-.
    all: first [ exists 0%nat; eexists; split; [lia|]; split; reflexivity
               | exists 1%nat; eexists; split; [lia|]; split; reflexivity
               | exists 2%nat; eexists; split; [lia|]; split; reflexivity ].
  - destruct Hkey as [->|[->| ->]]; cbn in Hvalue; discriminate Hvalue.
Qed.

Section WithRepr.
Variable repr : json -> string.

(** X19. [_extract_value] follows a dot path through nested mappings.
    For a path joined from a non-empty list of keys that hold no dot: when
    the keys lead from the data down to a value, the result is the text of
    that value ([str] of a value that is not a string) and [None] for a
    [null]; when they do not (a key is missing, or a value on the way is
    not a mapping), the result is [None]; and one of the two is the
    case. *)
Theorem extract_value_follows_dot_path data keys :
  keys <> [] ->
  Forall (fun key => contains "." key = false) keys ->
  (forall x, value_at data keys x ->
     _extract_value repr data (join "." keys) =
       match x with
       | JNull => None
       | JStr s => Some s
       | _ => Some (repr x)
       end) /\
  (lookup_fails data keys -> _extract_value repr data (join "." keys) = None) /\
  ((exists x, value_at data keys x) \/ lookup_fails data keys).
Proof.
  intros Hne Hkeys. unfold _extract_value. rewrite split_join_dots by assumption.
  split; [|split].
  - intros x Hx. rewrite (value_at_walk _ _ _ Hx). now destruct x.
  - intros Hfails. now rewrite (lookup_fails_walk _ _ Hfails).
  - apply value_at_or_lookup_fails.
Qed.

End WithRepr.

Section WithWorld.
Variable repr : json -> string.
Variable World : Type.
Variable now : World -> Q.
Variable subprocess_run :
  list string -> gmap string string -> World -> Py.result string * World.
Variable json_loads : string -> string + json.
Variable after_sleep : Q -> World -> World.

Local Abbreviation state := (Workflow.state World).
Local Abbreviation execute_step :=
  (Workflow.execute_step repr World now subprocess_run json_loads).
Local Abbreviation execute_steps :=
  (Workflow.execute_steps repr World now subprocess_run json_loads after_sleep).
Local Abbreviation execute :=
  (Workflow.execute repr World now subprocess_run json_loads after_sleep).

(** [execute_step] by the answer of the command, the parser and the
    identifier lookup. *)
Lemma execute_step_eq idx step (st : state) :
  execute_step idx step st =
    let request := _resolve_placeholders (ids (self st)) (env_vars step) in
    let (r, w') :=
      subprocess_run (bruno_cmd (cfg (self st)) (bru_file step)) request (world st) in
    let lg := log st ++ [EvRun (bru_file step) request
                           match r with Ok _ => None | Raise e => Some e end] in
    let ended f := with_steps (alter (f ∘ step_started (now (world st))) idx
                                 (steps (self st))) (self st) in
    match r with
    | Raise e =>
        (Ok false,
         mkState (ended (step_failed match e with
                                     | CalledProcessError _ stderr => stderr
                                     | _ => exn_str e
                                     end (now w'))) w' lg)
    | Ok stdout =>
        match json_loads stdout with
        | inl msg => (Ok false, mkState (ended (step_failed msg (now w'))) w' lg)
        | inr response =>
            match (if truthy_str (extract_id_key step)
                   then _extract_value repr response (default "" (extract_id_key step))
                   else None) with
            | Some id =>
                if String.eqb id ""
                then (Ok true, mkState (ended (step_completed response (now w'))) w' lg)
                else (Ok true,
                      mkState (with_ids (store_id repr (name step) id response
                                           (ids (self st)))
                                 (ended (step_extracted id
                                           ∘ step_completed response (now w'))))
                              w' lg)
            | None => (Ok true, mkState (ended (step_completed response (now w'))) w' lg)
            end
        end
    end.
Proof.
  destruct st as [w0 wd l].
  cbv beta iota zeta delta [Workflow.execute_step bind catch ret raise gets modify
    datetime_now update_step update_self Workflow._run_bruno_request
    self world log].
  cbn [cfg ids with_steps steps].
  destruct (subprocess_run (bruno_cmd (cfg w0) (bru_file step)) _ wd) as [[stdout|e] w1].
  - destruct (json_loads stdout) as [msg|response].
    + cbn [with_steps steps]. now rewrite list_alter_alter_eq.
    + destruct (truthy_str (extract_id_key step)).
      * destruct (_extract_value repr response (default "" (extract_id_key step)))
          as [id|]; cbn [truthy_str].
        -- destruct (String.eqb id ""); cbn [negb with_steps with_ids steps ids];
             now rewrite !list_alter_alter_eq.
        -- cbn [with_steps steps]. now rewrite list_alter_alter_eq.
      * cbn [with_steps steps]. now rewrite list_alter_alter_eq.
  - cbn [with_steps steps]. now rewrite list_alter_alter_eq.
Qed.

(** X21. A step records why it failed.  When the command raises, the step
    ends [Failed] with the captured [stderr] (for a failing command) or the
    text of the exception (for any other) as its error and the clock reading
    as its end time; [execute_step] returns [False] and raises nothing; no
    identifier is filed and the workflow status is left to the caller. *)
Theorem failed_request_is_recorded idx step (st : state) e w' s :
  steps (self st) !! idx = Some s ->
  subprocess_run (bruno_cmd (cfg (self st)) (bru_file step))
    (_resolve_placeholders (ids (self st)) (env_vars step)) (world st) = (Raise e, w') ->
  exists st1 s1,
    execute_step idx step st = (Ok false, st1) /\
    steps (self st1) !! idx = Some s1 /\
    status s1 = Failed /\
    error s1 = Some match e with
                    | CalledProcessError _ stderr => stderr
                    | _ => exn_str e
                    end /\
    end_time s1 = Some (now w') /\
    ids (self st1) = ids (self st) /\
    wf_status (self st1) = wf_status (self st) /\
    log st1 = log st ++ [EvRun (bru_file step)
                           (_resolve_placeholders (ids (self st)) (env_vars step))
                           (Some e)].
Proof.
  intros Hidx Hrun. rewrite execute_step_eq. cbv zeta. rewrite Hrun.
  eexists; eexists. split; [reflexivity|].
  cbn [self steps with_steps ids wf_status log].
  rewrite list_lookup_alter_eq, Hidx. now repeat split.
Qed.

(** X22. An output that is not JSON fails the step as well: the step ends
    [Failed] with the message of the parser as its error, its result left as
    it was and no identifier filed, and [execute_step] returns [False]. *)
Theorem unparsable_output_fails_the_step idx step (st : state) stdout w' msg s :
  steps (self st) !! idx = Some s ->
  subprocess_run (bruno_cmd (cfg (self st)) (bru_file step))
    (_resolve_placeholders (ids (self st)) (env_vars step)) (world st) = (Ok stdout, w') ->
  json_loads stdout = inl msg ->
  exists st1 s1,
    execute_step idx step st = (Ok false, st1) /\
    steps (self st1) !! idx = Some s1 /\
    status s1 = Failed /\ error s1 = Some msg /\ result s1 = result s /\
    ids (self st1) = ids (self st).
Proof.
  intros Hidx Hrun Hjson. rewrite execute_step_eq. cbv zeta. rewrite Hrun, Hjson.
  eexists; eexists. split; [reflexivity|].
  cbn [self steps with_steps ids]. rewrite list_lookup_alter_eq, Hidx.
  now repeat split.
Qed.

(** X23. An identifier that is there but [null] or the empty string is
    not captured: the step completes and stores the response, its extracted
    identifier stays as it was and no identifier is filed. *)
Theorem null_or_empty_identifier_is_not_captured idx step (st : state)
    key stdout w' response s :
  steps (self st) !! idx = Some s ->
  extract_id_key step = Some key ->
  extract_walk response (split "." key) = Some JNull \/
  extract_walk response (split "." key) = Some (JStr "") ->
  subprocess_run (bruno_cmd (cfg (self st)) (bru_file step))
    (_resolve_placeholders (ids (self st)) (env_vars step)) (world st) = (Ok stdout, w') ->
  json_loads stdout = inr response ->
  exists st1 s1,
    execute_step idx step st = (Ok true, st1) /\
    steps (self st1) !! idx = Some s1 /\
    status s1 = Completed /\ result s1 = Some response /\
    extracted_id s1 = extracted_id s /\
    ids (self st1) = ids (self st).
Proof.
  intros Hidx Hkey Hwalk Hrun Hjson. rewrite execute_step_eq. cbv zeta.
  rewrite Hrun, Hjson, Hkey. change (default "" (Some key)) with key.
  unfold _extract_value.
  destruct Hwalk as [-> | ->]; cbn [py_str];
    destruct (truthy_str (Some key)); cbn [String.eqb];
    (eexists; eexists; split; [reflexivity|]);
    cbn [self steps with_steps ids]; rewrite list_lookup_alter_eq, Hidx;
    now repeat split.
Qed.

(** X24. What a step captures reaches the steps after it.  When a step
    whose name stands for a placeholder token ([create_vpc] for
    [${vpc_id}], and so on) gets a non-empty identifier out of its response,
    the identifier is filed, and from then on placeholder resolution puts it
    wherever a step input is that token. *)
Theorem captured_identifier_is_substituted idx step (st : state)
    key stdout w' response id token :
  extract_id_key step = Some key -> key <> "" ->
  produces (name step) = Some token ->
  subprocess_run (bruno_cmd (cfg (self st)) (bru_file step))
    (_resolve_placeholders (ids (self st)) (env_vars step)) (world st) = (Ok stdout, w') ->
  json_loads stdout = inr response ->
  _extract_value repr response key = Some id -> id <> "" ->
  exists st1,
    execute_step idx step st = (Ok true, st1) /\
    captured token (ids (self st1)) = Some id /\
    forall (env_vars : gmap string string) k,
      env_vars !! k = Some token ->
      _resolve_placeholders (ids (self st1)) env_vars !! k = Some id.
Proof.
  intros Hkey Hne Hprod Hrun Hjson Hid Hid'. rewrite execute_step_eq. cbv zeta.
  rewrite Hrun, Hjson, Hkey. change (default "" (Some key)) with key.
  assert (truthy_str (Some key) = true) as ->
    by (cbn; now destruct (String.eqb_spec key "")).
  rewrite Hid. destruct (String.eqb_spec id ""); [contradiction|].
  eexists. split; [reflexivity|]. cbn [self ids with_ids].
  assert (Hcap : captured token
                   (store_id repr (name step) id response (ids (self st))) = Some id).
  { unfold produces in Hprod. unfold store_id.
    destruct (String.eqb (name step) "create_vpc");
      [|destruct (String.eqb (name step) "create_subnet");
        [|destruct (String.eqb (name step) "create_security_group");
          [|destruct (String.eqb (name step) "create_instance"); [|discriminate]]]];
      injection Hprod as <-; unfold captured; cbn;
      now destruct (String.eqb_spec id ""). }
  split; [exact Hcap|].
  intros env_vars k Hk.
  rewrite resolve_placeholders_fmap, lookup_fmap, Hk. cbn.
  now rewrite resolve_value_captured, Hcap.
Qed.

(** X25. A step leaves the identifiers of the other steps alone: what was
    captured for a token stays captured while steps that do not stand for
    that token run, whether they complete or fail. *)
Theorem captured_identifier_is_kept idx step (st : state) r st1 token :
  execute_step idx step st = (r, st1) ->
  produces (name step) <> Some token ->
  captured token (ids (self st1)) = captured token (ids (self st)).
Proof.
  rewrite execute_step_eq. cbv zeta.
  destruct (subprocess_run _ _ _) as [[stdout|e] w1]; [|now intros [= <- <-]].
  destruct (json_loads stdout) as [msg|response]; [now intros [= <- <-]|].
  destruct (if truthy_str (extract_id_key step) then _ else None) as [id|];
    [|now intros [= <- <-]].
  destruct (String.eqb id ""); [now intros [= <- <-]|].
  intros [= <- <-] Hother. cbn [self ids with_ids].
  unfold produces in Hother. unfold store_id.
  destruct (String.eqb (name step) "create_vpc");
    [|destruct (String.eqb (name step) "create_subnet");
      [|destruct (String.eqb (name step) "create_security_group");
        [|destruct (String.eqb (name step) "create_instance");
          [|destruct (String.eqb (name step) "create_floating_ip")]]]];
    try reflexivity; unfold captured, token_id; cbn [vpc_id subnet_id sg_id instance_id].
  - destruct (String.eqb_spec token "${vpc_id}") as [->|_]; [congruence|reflexivity].
  - destruct (String.eqb_spec token "${vpc_id}") as [->|_]; [reflexivity|].
    destruct (String.eqb_spec token "${subnet_id}") as [->|_]; [congruence|reflexivity].
  - destruct (String.eqb_spec token "${vpc_id}") as [->|_]; [reflexivity|].
    destruct (String.eqb_spec token "${subnet_id}") as [->|_]; [reflexivity|].
    destruct (String.eqb_spec token "${sg_id}") as [->|_]; [congruence|reflexivity].
  - destruct (String.eqb_spec token "${vpc_id}") as [->|_]; [reflexivity|].
    destruct (String.eqb_spec token "${subnet_id}") as [->|_]; [reflexivity|].
    destruct (String.eqb_spec token "${sg_id}") as [->|_]; [reflexivity|].
    destruct (String.eqb_spec token "${instance_id}") as [->|_]; [congruence|reflexivity].
Qed.

(** The pauses of the loop: one second after every request but the last
    of the step list. *)
Lemma execute_steps_sleeps todo :
  forall idx (st : state) r st',
  drop idx (steps (self st)) = todo ->
  execute_steps idx todo st = (r, st') ->
  exists evs,
    log st' = log st ++ evs /\
    (todo = [] /\ evs = [] \/ (1 <= length (runs evs))%nat) /\
    sleeps evs = replicate (length (runs evs) - 1) 1%Q.
Proof.
  induction todo as [|step todo IH]; intros idx st r st' Hdrop.
  - intros [= <- <-]. exists []. rewrite app_nil_r. now repeat split; auto.
  - assert (Hlen : length (steps (self st)) = (idx + S (length todo))%nat).
    { rewrite <- (take_drop idx (steps (self st))) at 1. rewrite Hdrop.
      rewrite length_app, length_take. cbn [length].
      assert (idx < length (steps (self st)))%nat; [|lia].
      apply drop_cons_inv in Hdrop as [Hidx _]. eapply lookup_lt_Some; eauto. }
    apply drop_cons_inv in Hdrop as [Hidx Hdrop].
    rewrite execute_steps_cons.
    destruct (execute_step idx step _) as [r1 st1] eqn:Hstep.
    apply execute_step_outcome in Hstep. cbn [self world log cfg steps ids wf_status
      with_current_step_index] in Hstep.
    destruct Hstep as (b & f & o & -> & Hsteps & _ & _ & _ & Hlog & _).
    destruct b.
    + assert (Hlen1 : length (steps (self st1)) = (idx + S (length todo))%nat)
        by (now rewrite Hsteps, length_alter).
      rewrite Hlen1.
      destruct todo as [|step2 todo].
      * replace (S idx <? idx + S (length (@nil WorkflowStep)))%nat with false
          by (symmetry; apply Nat.ltb_ge; cbn; lia).
        intros [= <- <-]. eexists. split; [exact Hlog|].
        split; [right; cbn; lia|reflexivity].
      * replace (S idx <? idx + S (length (step2 :: todo)))%nat with true
          by (symmetry; apply Nat.ltb_lt; cbn; lia).
        intros Hloop. apply IH in Hloop;
          [|cbn [self]; rewrite Hsteps, drop_alter_lt by lia; exact Hdrop].
        destruct Hloop as (evs & Hlog' & [[? _]|Hruns] & Hsleeps); [discriminate|].
        cbn [log] in Hlog'.
        exists (EvRun (bru_file step)
                  (_resolve_placeholders (ids (self st)) (env_vars step)) o
                :: EvSleep 1 :: evs).
        split; [rewrite Hlog', Hlog, <- !app_assoc; reflexivity|].
        change (runs (?e :: EvSleep 1 :: evs)) with (bru_file step :: runs evs).
        change (sleeps (?e :: EvSleep 1 :: evs)) with (1%Q :: sleeps evs).
        split; [right; cbn; lia|]. rewrite Hsleeps. cbn [length].
        destruct (length (runs evs)) as [|n]; [lia|].
        cbn. now rewrite Nat.sub_0_r.
    + cbn zeta. intros [= <- <-]. cbn [log].
      eexists. split; [rewrite Hlog, <- app_assoc; reflexivity|].
      split; [right; cbn; lia|reflexivity].
Qed.

(** X26. [execute] gives a verdict.  Where every run of the command comes
    back, by returning or by raising, and the console takes every line
    printed, [execute] raises nothing: whatever the command answers,
    whatever the parser and the clock do and whatever the configuration
    is, it returns [True] with the workflow marked completed or [False]
    with the workflow marked failed. *)
Theorem execute_returns_a_verdict (st : state) :
  exists b st',
    execute st = (Ok b, st') /\
    wf_status (self st') = if b then WfCompleted else WfFailed.
Proof.
  rewrite execute_eq. cbv zeta.
  destruct (exceeds_str_digits _); [eexists; eexists; split; reflexivity|].
  destruct (negb _ || negb _); [eexists; eexists; split; reflexivity|].
  set (built := with_steps _ _).
  destruct (Workflow.execute_steps _ _ _ _ _ _ _ _ _) as [r1 st1] eqn:Hloop.
  destruct (execute_steps_spec _ _ _ _ _ _ _ 0%nat
              (mkState built (world st) (log st)) _ _ (drop_0 _) Hloop)
    as (evs & done & ok & -> & _ & _ & _ & _ & Hend).
  destruct ok.
  - eexists; eexists. split; reflexivity.
  - destruct Hend as (_ & _ & _ & Hwf & _). eexists; eexists. split; [reflexivity|].
    exact Hwf.
Qed.

(** X27. [execute] returns [True] only when every step completed: each
    request file of the plan was run once, in the order of the plan, with a
    pause of one second between two requests; every step is [Completed];
    and the summary printed last reports the workflow completed, all steps
    completed, and the identifiers captured. *)
Theorem success_means_every_step_completed (st : state) st' :
  execute st = (Ok true, st') ->
  Forall (fun s => status s = Completed) (steps (self st')) /\
  length (steps (self st')) = length (plan_files (cfg (self st))) /\
  exists evs sm,
    log st' = log st ++ evs ++ [EvSummary sm] /\
    runs evs = plan_files (cfg (self st)) /\
    sleeps evs = replicate (length (plan_files (cfg (self st))) - 1) 1%Q /\
    summary_status sm = WfCompleted /\
    summary_completed sm = summary_total sm /\
    summary_total sm = length (plan_files (cfg (self st))) /\
    summary_resources sm = Some (ids (self st')).
Proof.
  rewrite execute_eq. cbv zeta.
  destruct (exceeds_str_digits _); [discriminate|].
  destruct (negb _ || negb _); [discriminate|].
  set (built := with_steps _ _).
  destruct (Workflow.execute_steps _ _ _ _ _ _ _ _ _) as [r1 st1] eqn:Hloop.
  pose proof (execute_steps_spec _ _ _ _ _ _ _ 0%nat
                (mkState built (world st) (log st)) _ _ (drop_0 _) Hloop)
    as (evs & done & ok & -> & Hlog & Hlen & _ & Hdone & Hend).
  pose proof (execute_steps_sleeps _ 0%nat
                (mkState built (world st) (log st)) _ _ (drop_0 _) Hloop)
    as (evs' & Hlog' & _ & Hsleeps).
  cbn [log self] in Hlog, Hlog', Hlen, Hdone, Hend.
  assert (evs' = evs) as -> by (rewrite Hlog in Hlog'; now apply app_inv_head in Hlog').
  destruct ok; [|discriminate].
  destruct Hend as (-> & Hruns & _).
  intros [= <-].
  cbn [self steps with_end_time with_status log].
  assert (Hfiles : bru_file <$> steps built = plan_files (cfg (self st)))
    by apply built_steps_files.
  assert (Hn : length (steps (self st1)) = length (plan_files (cfg (self st))))
    by (now rewrite Hlen, <- Hfiles, length_fmap).
  rewrite drop_0, take_ge in Hdone by lia.
  split; [exact Hdone|]. split; [exact Hn|].
  eexists evs, _. split; [rewrite Hlog, <- app_assoc; reflexivity|].
  rewrite Hruns, Hfiles in Hsleeps |- *.
  repeat split; try assumption.
  cbn [make_summary summary_completed summary_total steps with_end_time with_status].
  now rewrite filter_completed.
Qed.

(** X28. No request is repeated, reordered or skipped.  In every run of
    [execute], however it ends, the requests made are an initial part of
    the plan, each made once, and a pause of one second was made after each
    of them but the last. *)
Theorem requests_follow_the_plan (st : state) r st' :
  execute st = (r, st') ->
  exists evs k,
    log st' = log st ++ evs /\
    runs evs = take k (plan_files (cfg (self st))) /\
    sleeps evs = replicate (length (runs evs) - 1) 1%Q.
Proof.
  rewrite execute_eq. cbv zeta.
  destruct (exceeds_str_digits _).
  { intros [= <- <-]. exists [], 0%nat. now rewrite app_nil_r. }
  destruct (negb _ || negb _).
  { intros [= <- <-]. exists [], 0%nat. now rewrite app_nil_r. }
  set (built := with_steps _ _).
  destruct (Workflow.execute_steps _ _ _ _ _ _ _ _ _) as [r1 st1] eqn:Hloop.
  pose proof (execute_steps_spec _ _ _ _ _ _ _ 0%nat
                (mkState built (world st) (log st)) _ _ (drop_0 _) Hloop)
    as (evs & done & ok & -> & Hlog & Hlen & _ & Hdone & Hend).
  pose proof (execute_steps_sleeps _ 0%nat
                (mkState built (world st) (log st)) _ _ (drop_0 _) Hloop)
    as (evs' & Hlog' & _ & Hsleeps).
  cbn [log self] in Hlog, Hlog', Hend.
  assert (evs' = evs) as -> by (rewrite Hlog in Hlog'; now apply app_inv_head in Hlog').
  assert (Hfiles : bru_file <$> steps built = plan_files (cfg (self st)))
    by apply built_steps_files.
  destruct ok.
  - destruct Hend as (_ & Hruns & _). intros [= <- <-]. cbn [log].
    exists (evs ++ [EvSummary (make_summary
                      (with_end_time (now (world st1))
                         (with_status WfCompleted (self st1))))]),
           (length (plan_files (cfg (self st)))).
    split; [rewrite Hlog, <- app_assoc; reflexivity|].
    rewrite runs_app, sleeps_app. cbn [runs sleeps omap]. rewrite !app_nil_r.
    split; [|exact Hsleeps]. now rewrite Hruns, Hfiles, take_ge.
  - destruct Hend as (_ & _ & Hruns & _). intros [= <- <-].
    exists evs, (S done). split; [exact Hlog|].
    split; [|exact Hsleeps]. now rewrite Hruns, <- Hfiles, fmap_take.
Qed.

End WithWorld.

(** ** Concrete runs *)

(** The example of the docstring of [_extract_value]. *)
Lemma extract_value_follows_dot_path_witness :
  _extract_value toy_repr (JDict {[ "vpc" := JDict {[ "id" := JStr "r006-abc123" ]} ]})
    "vpc.id" = Some "r006-abc123".
Proof.
  change "vpc.id" with (join "." ["vpc"; "id"]).
  destruct (extract_value_follows_dot_path toy_repr
              (JDict {[ "vpc" := JDict {[ "id" := JStr "r006-abc123" ]} ]}) ["vpc"; "id"])
    as (Hfound & _).
  - discriminate.
  - repeat constructor.
  - apply (Hfound (JStr "r006-abc123")).
    apply value_below with (JDict {[ "id" := JStr "r006-abc123" ]}); [reflexivity|].
    apply value_below with (JStr "r006-abc123"); [reflexivity|]. constructor.
Defined.

Lemma identifier_inputs_come_from_earlier_steps_witness :
  exists i producer,
    (i < 7)%nat /\
    network_steps (cfg demo_built) !! i = Some producer /\
    produces (name producer) = Some "${subnet_id}".
Proof.
  apply (identifier_inputs_come_from_earlier_steps (cfg demo_built) "r006-image" "r006-key"
           7 (instance_step (cfg demo_built) "r006-image" "r006-key") "SUBNET_ID").
  - reflexivity.
  - right. left. reflexivity.
  - reflexivity.
Defined.

(** The first request fails: the captured [stderr] is the error of the
    step. *)
Lemma failed_request_is_recorded_witness :
  exists st1 s1,
    execute_step toy_repr script scripted_now scripted_run toy_loads 0
      (WorkflowStep_init "create_vpc" "Create VPC 'demo-vpc'" "vpc/create-vpc.bru"
         {[ "NEW_VPC_NAME" := "demo-vpc" ]} (Some "id"))
      (mkState demo_built [] []) = (Ok false, st1) /\
    steps (self st1) !! 0%nat = Some s1 /\
    status s1 = Failed /\ error s1 = Some "quota exceeded".
Proof.
  destruct (failed_request_is_recorded toy_repr script scripted_now scripted_run toy_loads
              0 (WorkflowStep_init "create_vpc" "Create VPC 'demo-vpc'" "vpc/create-vpc.bru"
                   {[ "NEW_VPC_NAME" := "demo-vpc" ]} (Some "id"))
              (mkState demo_built [] [])
              (CalledProcessError "Command returned non-zero exit status 1."
                 "quota exceeded") []
              (WorkflowStep_init "create_vpc" "Create VPC 'demo-vpc'" "vpc/create-vpc.bru"
                 {[ "NEW_VPC_NAME" := "demo-vpc" ]} (Some "id")))
    as (st1 & s1 & Hstep & Hat & Hstatus & Herror & _).
  - reflexivity.
  - reflexivity.
  - exists st1, s1. repeat split; assumption.
Defined.

Lemma unparsable_output_fails_the_step_witness :
  exists st1 s1,
    execute_step toy_repr script scripted_now scripted_run toy_loads 8
      (floating_ip_step (cfg demo_built)) (mkState demo_built [Ok ""] [])
      = (Ok false, st1) /\
    steps (self st1) !! 8%nat = Some s1 /\
    status s1 = Failed /\ error s1 = Some "Expecting value".
Proof.
  destruct (unparsable_output_fails_the_step toy_repr script scripted_now scripted_run
              toy_loads 8 (floating_ip_step (cfg demo_built))
              (mkState demo_built [Ok ""] []) "" [] "Expecting value"
              (floating_ip_step (cfg demo_built)))
    as (st1 & s1 & Hstep & Hat & Hstatus & Herror & _).
  - reflexivity.
  - reflexivity.
  - reflexivity.
  - exists st1, s1. repeat split; assumption.
Defined.

(** The floating-IP request answered by [{"id": null}]. *)
Lemma null_or_empty_identifier_is_not_captured_witness :
  exists st1 s1,
    execute_step toy_repr script scripted_now scripted_run sample_loads 8
      (floating_ip_step (cfg demo_built)) (mkState demo_built [Ok "null"] [])
      = (Ok true, st1) /\
    steps (self st1) !! 8%nat = Some s1 /\
    status s1 = Completed /\
    extracted_id s1 = None /\
    floating_ip_id (ids (self st1)) = None.
Proof.
  destruct (null_or_empty_identifier_is_not_captured toy_repr script scripted_now
              scripted_run sample_loads 8 (floating_ip_step (cfg demo_built))
              (mkState demo_built [Ok "null"] []) "id" "null" []
              (JDict {[ "id" := JNull ]}) (floating_ip_step (cfg demo_built)))
    as (st1 & s1 & Hstep & Hat & Hstatus & _ & Hid & Hids).
  - reflexivity.
  - reflexivity.
  - left. reflexivity.
  - reflexivity.
  - reflexivity.
  - exists st1, s1. rewrite Hids. repeat split; assumption.
Defined.

(** The identifier of the VPC, captured by the first step, is what
    [VPC_ID] resolves to in the input of the subnet step. *)
Lemma captured_identifier_is_substituted_witness :
  exists st1,
    execute_step toy_repr script scripted_now scripted_run toy_loads 0
      (WorkflowStep_init "create_vpc" "Create VPC 'demo-vpc'" "vpc/create-vpc.bru"
         {[ "NEW_VPC_NAME" := "demo-vpc" ]} (Some "id"))
      (mkState demo_built [Ok "vpc"] []) = (Ok true, st1) /\
    _resolve_placeholders (ids (self st1))
      (<["VPC_ID" := "${vpc_id}"]> {[ "NEW_SUBNET_NAME" := "demo-subnet" ]})
      !! "VPC_ID" = Some "r006-vpc".
Proof.
  destruct (captured_identifier_is_substituted toy_repr script scripted_now scripted_run
              toy_loads 0
              (WorkflowStep_init "create_vpc" "Create VPC 'demo-vpc'" "vpc/create-vpc.bru"
                 {[ "NEW_VPC_NAME" := "demo-vpc" ]} (Some "id"))
              (mkState demo_built [Ok "vpc"] []) "id" "vpc" []
              (JDict {[ "id" := JStr "r006-vpc" ]}) "r006-vpc" "${vpc_id}")
    as (st1 & Hstep & _ & Hresolve).
  - reflexivity.
  - discriminate.
  - reflexivity.
  - reflexivity.
  - reflexivity.
  - reflexivity.
  - discriminate.
  - exists st1. split; [exact Hstep|]. apply Hresolve. reflexivity.
Defined.

(** The subnet step leaves the identifier of the VPC as it was. *)
Lemma captured_identifier_is_kept_witness :
  let w := with_ids (mkResources (Some "r006-vpc") None None None None None) demo_built in
  exists r st1,
    execute_step toy_repr script scripted_now scripted_run toy_loads 1
      (WorkflowStep_init "create_subnet" "Create subnet" "vpc/subnets/create-subnet.bru"
         {[ "VPC_ID" := "${vpc_id}" ]} (Some "id"))
      (mkState w [Ok "subnet"] []) = (r, st1) /\
    captured "${vpc_id}" (ids (self st1)) = Some "r006-vpc".
Proof.
  intros w.
  destruct (execute_step toy_repr script scripted_now scripted_run toy_loads 1
              (WorkflowStep_init "create_subnet" "Create subnet"
                 "vpc/subnets/create-subnet.bru" {[ "VPC_ID" := "${vpc_id}" ]} (Some "id"))
              (mkState w [Ok "subnet"] [])) as [r st1] eqn:Hstep.
  exists r, st1. split; [reflexivity|].
  rewrite (captured_identifier_is_kept toy_repr script scripted_now scripted_run toy_loads
             1 _ _ r st1 "${vpc_id}" Hstep).
  - reflexivity.
  - discriminate.
Defined.

Lemma success_means_every_step_completed_witness :
  exists st',
    run_scripted (demo_config (Some "r006-image") (Some "r006-key")) nine_answers
      = (Ok true, st') /\
    Forall (fun s => status s = Completed) (steps (self st')) /\
    length (steps (self st')) = 9%nat.
Proof.
  unfold run_scripted.
  destruct (execute toy_repr script scripted_now scripted_run toy_loads scripted_sleep
              (mkState (VPCWorkflow_init (demo_config (Some "r006-image")
                                            (Some "r006-key"))) nine_answers []))
    as [r st'] eqn:Hrun.
  assert (r = Ok true) as ->
    by (apply (f_equal fst) in Hrun; vm_compute in Hrun; now subst r).
  destruct (success_means_every_step_completed toy_repr script scripted_now scripted_run
              toy_loads scripted_sleep _ st' Hrun) as (Hall & Hlen & _).
  exists st'. repeat split; assumption.
Defined.

Lemma requests_follow_the_plan_witness :
  exists r st' evs k,
    run_scripted (demo_config (Some "r006-image") (Some "r006-key")) third_request_fails
      = (r, st') /\
    log st' = evs /\
    runs evs = take k (plan_files (demo_config (Some "r006-image") (Some "r006-key"))) /\
    sleeps evs = replicate (length (runs evs) - 1) 1%Q.
Proof.
  unfold run_scripted.
  destruct (execute toy_repr script scripted_now scripted_run toy_loads scripted_sleep
              (mkState (VPCWorkflow_init (demo_config (Some "r006-image")
                                            (Some "r006-key"))) third_request_fails []))
    as [r st'] eqn:Hrun.
  destruct (requests_follow_the_plan toy_repr script scripted_now scripted_run toy_loads
              scripted_sleep _ r st' Hrun) as (evs & k & Hlog & Hruns & Hsleeps).
  exists r, st', evs, k. split; [reflexivity|]. split; [exact Hlog|].
  split; [exact Hruns|exact Hsleeps].
Defined.

End WorkflowMore.
